(** * cursor-claude-connector: stream translator, thinking cache, model variants

    A shallow embedding of
      - [src/utils/anthropic-to-openai-converter.ts] (the stream translator),
      - [src/utils/thinking-cache.ts] (cache keys and thinking injection),
      - the request pipeline of the server ([resolveModelVariant], [messagesFn]),
      - [src/auth/oauth-manager.ts] (the access token),
    followed by the properties proved about them.

    Conventions of the embedding.
      - A JavaScript string is a [string]; each character stands for one UTF-16
        code unit in the range 0..255.
      - A JavaScript number that the code only counts with (token counters,
        block indices, clock readings) is a [Z].
      - An optional field / [undefined] is an [option].
      - [Map<K,V>] is a [gmap K V].
      - [Date.now()] is an explicit clock reading [now] (milliseconds).
      - [JSON.parse] belongs to the host; the translator is parametric in it. *)

From Stdlib Require Import ZArith Qcanon Ascii String List Bool Lia DecimalString.
From Stdlib Require DecimalZ DecimalPos.
From stdpp Require Import gmap strings list sorting.

Local Open Scope Z_scope.
#[local] Set Warnings "-register-all".


(* ===================================================================== *)
(** ** JavaScript string primitives *)
(* ===================================================================== *)

Module JS.

Definition LF : ascii := "010"%char.
Definition DQUOTE : ascii := "034"%char.
Definition BACKSLASH : ascii := "092"%char.

Definition str (c : ascii) : string := String c EmptyString.

(** [s.charCodeAt(i)] for the character [c] at that position. *)
Definition charCode (c : ascii) : Z := Z.of_N (N_of_ascii c).

(** The characters matched by [\s] and stripped by [trim()] (code units
    below 256: TAB, LF, VT, FF, CR, SPACE, NBSP). *)
Definition isWhiteSpace (c : ascii) : bool :=
  let n := charCode c in
  ((9 <=? n) && (n <=? 13)) || (n =? 32) || (n =? 160).

Definition isEmpty (s : string) : bool :=
  match s with EmptyString => true | String _ _ => false end.

(** Truthiness of a string, and of an optional string. *)
Definition truthy (s : string) : bool := negb (isEmpty s).

Definition truthyOpt (o : option string) : bool :=
  match o with Some s => truthy s | None => false end.

(** [a || b] on an optional string [a]. *)
Definition orElse (o : option string) (d : string) : string :=
  match o with
  | Some s => if truthy s then s else d
  | None => d
  end.

(** [a ?? b]. *)
Definition nullish {A} (o : option A) (d : A) : A :=
  match o with Some a => a | None => d end.

(** Rendering of an optional string inside a template literal. *)
Definition template (o : option string) : string :=
  match o with Some s => s | None => "undefined" end.

Fixpoint trimStart (s : string) : string :=
  match s with
  | EmptyString => EmptyString
  | String c s' => if isWhiteSpace c then trimStart s' else s
  end.

Fixpoint trimEnd (s : string) : string :=
  match s with
  | EmptyString => EmptyString
  | String c s' =>
      let t := trimEnd s' in
      if isWhiteSpace c && isEmpty t then EmptyString else String c t
  end.

Definition trim (s : string) : string := trimEnd (trimStart s).

(** A string that is empty or begins with a character that is not white
    space. *)
Definition startsVisible (s : string) : Prop :=
  match s with EmptyString => True | String c _ => isWhiteSpace c = false end.

(** [toLowerCase] on code units below 256: A-Z and the Latin-1 capitals
    (0xC0-0xDE except the multiplication sign 0xD7) move up by 32. *)
Definition lowerChar (c : ascii) : ascii :=
  let n := charCode c in
  if ((65 <=? n) && (n <=? 90)) || ((192 <=? n) && (n <=? 222) && negb (n =? 215))
  then ascii_of_N (Z.to_N (n + 32))
  else c.

Fixpoint toLowerCase (s : string) : string :=
  match s with
  | EmptyString => EmptyString
  | String c s' => String (lowerChar c) (toLowerCase s')
  end.

Definition startsWith (s p : string) : bool := String.prefix p s.

Definition endsWith (s suffix : string) : bool :=
  let n := String.length s in
  let k := String.length suffix in
  (k <=? n)%nat && String.eqb (String.substring (n - k) k s) suffix.

Definition includes (s sub : string) : bool :=
  match String.index 0 sub s with Some _ => true | None => false end.

(** [s.substring(n)]. *)
Definition substringFrom (n : nat) (s : string) : string :=
  String.substring n (String.length s - n) s.

(** [s.replace(pat, rep)] with a string pattern: the first occurrence only. *)
Definition replaceFirst (pat rep s : string) : string :=
  match String.index 0 pat s with
  | Some i => String.substring 0 i s +:+ rep +:+ substringFrom (i + String.length pat) s
  | None => s
  end.

(** [s.replace(/^data: /, '')]. *)
Definition stripDataPrefix (s : string) : string :=
  if startsWith s "data: " then substringFrom 6 s else s.

(** [s.replace(/\s+/g, ' ')]: every maximal run of white space becomes one
    space. [inRun] tells whether the previous character was white space. *)
Fixpoint collapseFrom (inRun : bool) (s : string) : string :=
  match s with
  | EmptyString => EmptyString
  | String c s' =>
      if isWhiteSpace c
      then (if inRun then collapseFrom true s' else String " " (collapseFrom true s'))
      else String c (collapseFrom false s')
  end.

Definition collapseWhiteSpace (s : string) : string := collapseFrom false s.

(** [s.split(sep)] for a one-character separator: n separators give n+1
    pieces. *)
Fixpoint split (sep : ascii) (s : string) : list string :=
  match s with
  | EmptyString => [EmptyString]
  | String c s' =>
      if Ascii.eqb c sep then EmptyString :: split sep s'
      else match split sep s' with
           | h :: t => String c h :: t
           | [] => [str c]
           end
  end.

(** [s.split('\n')]. *)
Definition splitLines (s : string) : list string := split LF s.

(** The text cut at its line feeds: the lines that are terminated by a line
    feed, and the fragment after the last line feed. *)
Fixpoint scanLines (s : string) : list string * string :=
  match s with
  | EmptyString => ([], EmptyString)
  | String c s' =>
      let '(ls, f) := scanLines s' in
      if Ascii.eqb c LF then (EmptyString :: ls, f)
      else match ls with
           | [] => ([], String c f)
           | l :: ls' => (String c l :: ls', f)
           end
  end.

Definition completeLines (s : string) : list string := fst (scanLines s).
Definition fragment (s : string) : string := snd (scanLines s).

(** The text has no line feed. *)
Fixpoint noLineFeed (s : string) : bool :=
  match s with
  | EmptyString => true
  | String c s' => negb (Ascii.eqb c LF) && noLineFeed s'
  end.

(** The chunks of a stream put together. *)
Fixpoint concatAll (chunks : list string) : string :=
  match chunks with
  | [] => EmptyString
  | c :: rest => c +:+ concatAll rest
  end.

(** [parts.join(sep)]. *)
Definition join (sep : string) (parts : list string) : string :=
  String.concat sep parts.

(** Decimal rendering of an integer, as [String(n)] gives for integers
    (those of absolute value below 10^21, which JavaScript writes in full). *)
Definition showZ (z : Z) : string := NilZero.string_of_int (Z.to_int z).

(** [ToInt32]: wrap to the signed 32-bit range. *)
Definition toInt32 (z : Z) : Z :=
  let m := z mod 4294967296 in
  if m <? 2147483648 then m else m - 4294967296.

End JS.

(* ===================================================================== *)
(** ** JSON values and [JSON.stringify] *)
(* ===================================================================== *)

Module Json.

(** A parsed JSON value. An object lists its own properties in enumeration
    order, each key once. Numbers are the integers. *)
Inductive json : Type :=
| JNull
| JBool (b : bool)
| JNum (z : Z)
| JStr (s : string)
| JArr (items : list json)
| JObj (props : list (string * json)).

(** Truthiness of a value, as in [value ? a : b]. *)
Definition truthy (v : json) : bool :=
  match v with
  | JNull => false
  | JBool b => b
  | JNum z => negb (z =? 0)
  | JStr s => JS.truthy s
  | JArr _ | JObj _ => true
  end.

Definition hexDigit (n : Z) : ascii :=
  if n <? 10 then ascii_of_N (Z.to_N (48 + n)) else ascii_of_N (Z.to_N (87 + n)).

(** One character inside a JSON string literal (QuoteJSONString). *)
Definition escapeChar (c : ascii) : string :=
  let n := JS.charCode c in
  if n =? 8 then "\b"
  else if n =? 9 then "\t"
  else if n =? 10 then "\n"
  else if n =? 12 then "\f"
  else if n =? 13 then "\r"
  else if n =? 34 then String JS.BACKSLASH (JS.str JS.DQUOTE)
  else if n =? 92 then String JS.BACKSLASH (JS.str JS.BACKSLASH)
  else if n <? 32 then "\u00" +:+ String (hexDigit (n / 16)) (JS.str (hexDigit (n mod 16)))
  else JS.str c.

Fixpoint escape (s : string) : string :=
  match s with
  | EmptyString => EmptyString
  | String c s' => escapeChar c +:+ escape s'
  end.

Definition quote (s : string) : string :=
  JS.str JS.DQUOTE +:+ escape s +:+ JS.str JS.DQUOTE.

(** [obj[key]] on a list of own properties. *)
Fixpoint getProp {A} (key : string) (props : list (string * A)) : option A :=
  match props with
  | [] => None
  | (k, v) :: rest => if String.eqb k key then Some v else getProp key rest
  end.

(** One [key:value] member per listed key that the object has. *)
Definition members (keys : list string) (rendered : list (string * string)) : list string :=
  omap (fun k => (fun s => quote k +:+ ":" +:+ s) <$> getProp k rendered) keys.

(** [JSON.stringify(v, propertyList)] without indentation. With a property
    list, every object (nested ones too) is written with exactly the listed
    keys it has, in the order of the list; arrays ignore the list. *)
Fixpoint stringify (plist : option (list string)) (v : json) : string :=
  match v with
  | JNull => "null"
  | JBool true => "true"
  | JBool false => "false"
  | JNum z => JS.showZ z
  | JStr s => quote s
  | JArr items =>
      "[" +:+ JS.join "," ((fix each (l : list json) : list string :=
                              match l with
                              | [] => []
                              | x :: l' => stringify plist x :: each l'
                              end) items) +:+ "]"
  | JObj props =>
      let rendered :=
        (fix each (l : list (string * json)) : list (string * string) :=
           match l with
           | [] => []
           | (k, x) :: l' => (k, stringify plist x) :: each l'
           end) props in
      let keys := match plist with Some ks => ks | None => fst <$> props end in
      "{" +:+ JS.join "," (members keys rendered) +:+ "}"
  end.

(** The array-index keys ["0"; "1"; ...] of an array or string of length [n]. *)
Definition indexKeys (n : nat) : list string :=
  (fun i => JS.showZ (Z.of_nat i)) <$> seq 0 n.

(** [Object.keys(v)] for a truthy value. *)
Definition objectKeys (v : json) : list string :=
  match v with
  | JObj props => fst <$> props
  | JArr items => indexKeys (length items)
  | JStr s => indexKeys (String.length s)
  | JNull | JBool _ | JNum _ => []
  end.

(** [keys.sort()]: ascending by code units. *)
Definition sortKeys (keys : list string) : list string :=
  merge_sort String.le keys.

(** Induction on a JSON value, with the property at hand for every item of
    an array and for every property value of an object. *)
Section Induction.

Variable P : json -> Prop.
Hypothesis Hnull : P JNull.
Hypothesis Hbool : forall b, P (JBool b).
Hypothesis Hnum : forall z, P (JNum z).
Hypothesis Hstr : forall s, P (JStr s).
Hypothesis Harr : forall items, Forall P items -> P (JArr items).
Hypothesis Hobj : forall props, Forall (fun p => P (snd p)) props -> P (JObj props).


End Induction.






End Json.

(* ===================================================================== *)
(** ** thinking-cache.ts *)
(* ===================================================================== *)

Module ThinkingCache.
Import Json.

(** [interface ContentBlock]. [cb_input] and [cb_content] hold whatever the
    request body carried there. *)
Record ContentBlock : Type := {
  cb_type : string;
  cb_text : option string;
  cb_thinking : option string;
  cb_signature : option string;
  cb_data : option string;
  cb_id : option string;
  cb_name : option string;
  cb_input : option json;
  cb_tool_use_id : option string;
  cb_content : option json
}.

(** [content: string | ContentBlock[]]. *)
Inductive MessageContent : Type :=
| TextContent (s : string)
| BlockContent (blocks : list ContentBlock).

(** [interface AnthropicMessage]. *)
Record AnthropicMessage : Type := {
  role : string;
  content : MessageContent
}.

Record CachedThinkingBlock : Type := {
  thinkingBlock : ContentBlock;
  timestamp : Z
}.

Definition CACHE_KEY_PREFIX : string := "thinking:".

(** [block.type === 'thinking' || block.type === 'redacted_thinking']. *)
Definition isThinkingBlock (block : ContentBlock) : bool :=
  String.eqb (cb_type block) "thinking" || String.eqb (cb_type block) "redacted_thinking".

(** The [inputStr] of a tool_use block. *)
Definition inputStr (input : option json) : string :=
  match input with
  | Some v =>
      if truthy v then stringify (Some (sortKeys (objectKeys v))) v else "{}"
  | None => "{}"
  end.

(** The [contentStr] of a tool_result block; [JSON.stringify(undefined)] is
    [undefined], which the template literal prints as such. *)
Definition contentStr (c : option json) : string :=
  match c with
  | Some (JStr s) => s
  | Some v => stringify None v
  | None => "undefined"
  end.

(** What one block pushes onto [parts], if anything. *)
Definition blockPart (block : ContentBlock) : option string :=
  if isThinkingBlock block then None
  else if String.eqb (cb_type block) "text" then Some (JS.orElse (cb_text block) "")
  else if String.eqb (cb_type block) "tool_use" then
    Some ("tool:" +:+ JS.template (cb_name block) +:+ ":" +:+ inputStr (cb_input block))
  else if String.eqb (cb_type block) "tool_result" then
    Some ("result:" +:+ JS.template (cb_tool_use_id block) +:+ ":" +:+ contentStr (cb_content block))
  else None.

Definition textContentOf (c : MessageContent) : string :=
  match c with
  | TextContent s => s
  | BlockContent blocks => JS.join "|" (omap blockPart blocks)
  end.

(** The hash loop: [hash = (hash << 5) - hash + char; hash = hash & hash]. *)
Fixpoint hashFrom (hash : Z) (s : string) : Z :=
  match s with
  | EmptyString => hash
  | String c s' => hashFrom (JS.toInt32 (JS.toInt32 (hash * 32) - hash + JS.charCode c)) s'
  end.

Definition normalize (textContent : string) : string :=
  JS.trim (JS.collapseWhiteSpace textContent).

Definition generateCacheKey (c : MessageContent) : string :=
  let normalized := normalize (textContentOf c) in
  let hash := hashFrom 0 normalized in
  "v2:" +:+ JS.showZ (Z.abs hash) +:+ ":" +:+ JS.showZ (Z.of_nat (String.length normalized)).

Section Lookup.

(** The Redis branch of [getCachedThinkingBlock], applied to the prefixed
    key: [Some p] when a client is configured, the read succeeds and the
    stored text parses to an entry with a [thinkingBlock]; [None] in every
    other case (no client, failed read, miss, malformed entry). *)
Variable redisGet : string -> option CachedThinkingBlock.

(** [getCachedThinkingBlock]: memory first, then Redis with back-fill of
    the memory cache. *)
Definition getCachedThinkingBlock (memoryCache : gmap string CachedThinkingBlock)
    (c : MessageContent) : gmap string CachedThinkingBlock * option ContentBlock :=
  let key := generateCacheKey c in
  match memoryCache !! key with
  | Some memoryCached => (memoryCache, Some (thinkingBlock memoryCached))
  | None =>
      match redisGet (CACHE_KEY_PREFIX +:+ key) with
      | Some parsed => (<[key := parsed]> memoryCache, Some (thinkingBlock parsed))
      | None => (memoryCache, None)
      end
  end.

(** How one iteration of the loop of [injectCachedThinkingBlocks] ends. *)
Inductive Visit : Type :=
| Skipped   (* not an assistant message, or it already has a thinking block *)
| Hit       (* a cached block was put in front *)
| Miss.     (* nothing cached for this content *)

(** [{ type: 'text', text: s }]. *)
Definition textBlock (s : string) : ContentBlock :=
  {| cb_type := "text"; cb_text := Some s; cb_thinking := None; cb_signature := None;
     cb_data := None; cb_id := None; cb_name := None; cb_input := None;
     cb_tool_use_id := None; cb_content := None |}.

(** The body of the [for (const msg of messages)] loop. *)
Definition visitMessage (memoryCache : gmap string CachedThinkingBlock)
    (msg : AnthropicMessage)
  : gmap string CachedThinkingBlock * AnthropicMessage * Visit :=
  if negb (String.eqb (role msg) "assistant") then (memoryCache, msg, Skipped)
  else match content msg with
       | BlockContent blocks =>
           if existsb isThinkingBlock blocks then (memoryCache, msg, Skipped)
           else match getCachedThinkingBlock memoryCache (content msg) with
                | (memoryCache', Some cachedThinking) =>
                    (memoryCache',
                     {| role := role msg; content := BlockContent (cachedThinking :: blocks) |},
                     Hit)
                | (memoryCache', None) => (memoryCache', msg, Miss)
                end
       | TextContent s =>
           match getCachedThinkingBlock memoryCache (content msg) with
           | (memoryCache', Some cachedThinking) =>
               (memoryCache',
                {| role := role msg;
                   content := BlockContent [cachedThinking; textBlock s] |},
                Hit)
           | (memoryCache', None) => (memoryCache', msg, Miss)
           end
       end.

(** [injectCachedThinkingBlocks(messages)] of thinking-cache.ts: the
    messages after the in-place update, the memory cache after the
    look-ups, and the returned [injectedCount]. *)
Fixpoint injectLoop (memoryCache : gmap string CachedThinkingBlock)
    (messages : list AnthropicMessage) (injectedCount : Z)
  : gmap string CachedThinkingBlock * list AnthropicMessage * Z :=
  match messages with
  | [] => (memoryCache, [], injectedCount)
  | msg :: rest =>
      let '(memoryCache1, msg', v) := visitMessage memoryCache msg in
      let injectedCount1 :=
        match v with Hit => injectedCount + 1 | _ => injectedCount end in
      let '(memoryCache2, rest', n) := injectLoop memoryCache1 rest injectedCount1 in
      (memoryCache2, msg' :: rest', n)
  end.

Definition injectCachedThinkingBlocks (memoryCache : gmap string CachedThinkingBlock)
    (messages : list AnthropicMessage)
  : gmap string CachedThinkingBlock * list AnthropicMessage * Z :=
  injectLoop memoryCache messages 0.

(** The [InjectResult] that [messagesFn] reads from the injection. *)
Record InjectResult : Type := {
  injectedCount : Z;
  missingCount : Z;
  canUseThinking : bool
}.

Definition isAssistant (msg : AnthropicMessage) : bool :=
  String.eqb (role msg) "assistant".

(** Whether the message contains a thinking block. *)
Definition hasThinking (msg : AnthropicMessage) : bool :=
  match content msg with
  | BlockContent blocks => existsb isThinkingBlock blocks
  | TextContent _ => false
  end.

(** No thinking block is owed to this message: it is not an assistant
    message, or it has one. *)
Definition settled (msg : AnthropicMessage) : bool :=
  negb (isAssistant msg) || hasThinking msg.

(** The loop of the injection with both counters. *)
Fixpoint injectCounting (memoryCache : gmap string CachedThinkingBlock)
    (messages : list AnthropicMessage) (injected missing : Z)
  : gmap string CachedThinkingBlock * list AnthropicMessage * (Z * Z) :=
  match messages with
  | [] => (memoryCache, [], (injected, missing))
  | msg :: rest =>
      let '(memoryCache1, msg', v) := visitMessage memoryCache msg in
      let '(injected1, missing1) :=
        match v with
        | Hit => (injected + 1, missing)
        | Miss => (injected, missing + 1)
        | Skipped => (injected, missing)
        end in
      let '(memoryCache2, rest', n) := injectCounting memoryCache1 rest injected1 missing1 in
      (memoryCache2, msg' :: rest', n)
  end.

(** Modelled from the spec: the revision of [injectCachedThinkingBlocks]
    that returns [{injectedCount, missingCount, canUseThinking}], which
    [messagesFn] calls, is not among the sources (thinking-cache.ts there
    returns the injected count alone). Following section 4.C: iterate the
    messages in order; for each assistant message that does not already
    contain a thinking block, look up by its content key; on a hit prepend
    the cached block, on a miss count it as missing; [canUseThinking] is
    true iff no assistant message remains without a thinking block. The
    visit of one message is the loop body of the source. *)
Definition inject (memoryCache : gmap string CachedThinkingBlock)
    (messages : list AnthropicMessage)
  : gmap string CachedThinkingBlock * list AnthropicMessage * InjectResult :=
  let '(memoryCache', messages', (injected, missing)) :=
    injectCounting memoryCache messages 0 0 in
  (memoryCache', messages',
   {| injectedCount := injected;
      missingCount := missing;
      canUseThinking := forallb settled messages' |}).

(** *** Vocabulary for the properties of the injection *)

(** The cached block for a message: what the look-up by its content key
    returns. *)
Definition cachedFor (memoryCache : gmap string CachedThinkingBlock)
    (msg : AnthropicMessage) : option ContentBlock :=
  snd (getCachedThinkingBlock memoryCache (content msg)).

(** An assistant message that does not yet contain a thinking block. *)
Definition lacksThinking (msg : AnthropicMessage) : bool :=
  isAssistant msg && negb (hasThinking msg).

(** [msg'] is [msg] with the block [cached] put in front: before the
    existing blocks, kept in order, or before the text block made of a
    string content. *)
Definition prepended (cached : ContentBlock) (msg msg' : AnthropicMessage) : Prop :=
  role msg' = role msg /\
  match content msg with
  | BlockContent blocks => content msg' = BlockContent (cached :: blocks)
  | TextContent s => content msg' = BlockContent [cached; textBlock s]
  end.

(** The frame condition on one message and its image. *)
Definition framed (memoryCache : gmap string CachedThinkingBlock)
    (msg msg' : AnthropicMessage) : Prop :=
  (isAssistant msg = false -> msg' = msg) /\
  (hasThinking msg = true -> msg' = msg) /\
  (msg' = msg \/
   exists cached, cachedFor memoryCache msg = Some cached /\ prepended cached msg msg').

(** [msg'] has one block more than [msg] had (a string content counting
    as having none). *)
Definition gainedBlock (msg msg' : AnthropicMessage) : bool :=
  match content msg, content msg' with
  | BlockContent blocks, BlockContent blocks' =>
      (length blocks' =? S (length blocks))%nat
  | TextContent _, BlockContent _ => true
  | _, _ => false
  end.

(** The number of messages that received a block. *)
Definition countGained (messages messages' : list AnthropicMessage) : nat :=
  length (filter (fun p => gainedBlock (fst p) (snd p) = true) (zip messages messages')).

(** The number of assistant messages without a thinking block for which
    the cache has, resp. has not, a block. *)
Definition countHits (memoryCache : gmap string CachedThinkingBlock)
    (messages : list AnthropicMessage) : nat :=
  length (filter (fun m => lacksThinking m = true /\ is_Some (cachedFor memoryCache m))
            messages).

Definition countMisses (memoryCache : gmap string CachedThinkingBlock)
    (messages : list AnthropicMessage) : nat :=
  length (filter (fun m => lacksThinking m = true /\ cachedFor memoryCache m = None)
            messages).

(** Every block the cache can return is a thinking block. *)
Definition holdsThinkingOnly (memoryCache : gmap string CachedThinkingBlock) : Prop :=
  forall c cached,
    snd (getCachedThinkingBlock memoryCache c) = Some cached ->
    isThinkingBlock cached = true.

End Lookup.

(** The filter of [cacheThinkingBlock]: the content without its thinking
    blocks. *)
Definition nonThinkingContent (blocks : list ContentBlock) : list ContentBlock :=
  filter (fun block => isThinkingBlock block = false) blocks.


(** A thinking block. *)
Definition thinkingBlockOf (thinking signature : string) : ContentBlock :=
  {| cb_type := "thinking"; cb_text := None; cb_thinking := Some thinking;
     cb_signature := Some signature; cb_data := None; cb_id := None; cb_name := None;
     cb_input := None; cb_tool_use_id := None; cb_content := None |}.

(** A run of look-ups: [getCachedThinkingBlock] called for each content in
    turn, each call with what Redis answers at that time, all against the
    one memory cache. *)
Definition lookups (calls : list ((string -> option CachedThinkingBlock) * MessageContent))
    (memoryCache : gmap string CachedThinkingBlock) : gmap string CachedThinkingBlock :=
  fold_left (fun m call => fst (getCachedThinkingBlock (fst call) m (snd call)))
    calls memoryCache.

End ThinkingCache.

(* ===================================================================== *)
(** ** anthropic-to-openai-converter.ts *)
(* ===================================================================== *)

Module Converter.

(** *** Upstream (Anthropic) types.
    Every field is optional here: the event is whatever [JSON.parse]
    returned, read at its declared interface type. *)

Record AnthropicUsage : Type := {
  input_tokens : option Z;
  output_tokens : option Z;
  cache_creation_input_tokens : option Z;
  cache_read_input_tokens : option Z
}.

Record AnthropicMessage : Type := {
  msg_id : option string;
  msg_model : option string;
  msg_usage : option AnthropicUsage;
  msg_stop_reason : option string
}.

Record AnthropicContentBlock : Type := {
  cb_type : option string;
  cb_id : option string;
  cb_name : option string;
  cb_text : option string;
  cb_thinking : option string;
  cb_signature : option string;
  cb_data : option string
}.

Record AnthropicDelta : Type := {
  delta_text : option string;
  delta_partial_json : option string;
  delta_stop_reason : option string;
  delta_thinking : option string;
  delta_signature : option string
}.

Record AnthropicStreamEvent : Type := {
  ev_type : option string;
  ev_message : option AnthropicMessage;
  ev_content_block : option AnthropicContentBlock;
  ev_delta : option AnthropicDelta;
  ev_index : option Z;
  ev_model : option string;
  ev_stop_reason : option string;
  ev_signature : option string;
  ev_usage : option AnthropicUsage
}.

(** *** Downstream (OpenAI) types *)

Record FunctionDelta : Type := {
  fn_name : option string;
  fn_arguments : option string
}.

Record ToolCallDelta : Type := {
  tc_index : Z;
  tc_id : option string;
  tc_type : option string;
  tc_function : option FunctionDelta
}.

Record Delta : Type := {
  role : option string;
  content : option string;
  tool_calls : option (list ToolCallDelta)
}.

Record Choice : Type := {
  choice_index : Z;
  delta : Delta;
  finish_reason : option string
}.

Record TokensDetails : Type := {
  detail_tokens : Z;   (* cached_tokens, resp. reasoning_tokens *)
  audio_tokens : Z
}.

Record OpenAIUsageWithDetails : Type := {
  prompt_tokens : Z;
  completion_tokens : Z;
  total_tokens : Z;
  prompt_tokens_details : TokensDetails;
  completion_tokens_details : TokensDetails
}.

Record OpenAIStreamChunk : Type := {
  id : string;
  object : string;
  created : Z;
  model : option string;
  choices : list Choice;
  usage : option OpenAIUsageWithDetails
}.

(** [interface ProcessResult]: [{type:'chunk', data}] or [{type:'done'}]. *)
Inductive ProcessResult : Type :=
| Chunk (data : OpenAIStreamChunk)
| Done.

(** *** Converter state *)

Record ToolCallTracker : Type := {
  tool_id : string;
  tool_name : string;
  arguments : string
}.

Record MetricsData : Type := {
  md_model : option string;
  md_stop_reason : option string;
  md_input_tokens : Z;
  md_cache_creation_input_tokens : Z;
  md_cache_read_input_tokens : Z;
  md_output_tokens : Z;
  messageId : option string;
  openAIId : option string
}.

Record ThinkingBlockData : Type := {
  thinking : string;
  signature : string
}.

Record ConverterState : Type := {
  toolCallsTracker : gmap Z ToolCallTracker;
  metricsData : MetricsData;
  lineBuffer : string;
  thinkingBlock : option ThinkingBlockData;
  accumulatedText : string;
  inThinkingBlock : bool;
  originalModel : option string
}.

(** Field updates. *)
Definition setToolCallsTracker (t : gmap Z ToolCallTracker) (st : ConverterState) :=
  {| toolCallsTracker := t; metricsData := metricsData st; lineBuffer := lineBuffer st;
     thinkingBlock := thinkingBlock st; accumulatedText := accumulatedText st;
     inThinkingBlock := inThinkingBlock st; originalModel := originalModel st |}.
Definition setMetricsData (m : MetricsData) (st : ConverterState) :=
  {| toolCallsTracker := toolCallsTracker st; metricsData := m; lineBuffer := lineBuffer st;
     thinkingBlock := thinkingBlock st; accumulatedText := accumulatedText st;
     inThinkingBlock := inThinkingBlock st; originalModel := originalModel st |}.
Definition setLineBuffer (b : string) (st : ConverterState) :=
  {| toolCallsTracker := toolCallsTracker st; metricsData := metricsData st; lineBuffer := b;
     thinkingBlock := thinkingBlock st; accumulatedText := accumulatedText st;
     inThinkingBlock := inThinkingBlock st; originalModel := originalModel st |}.
Definition setThinkingBlock (t : option ThinkingBlockData) (st : ConverterState) :=
  {| toolCallsTracker := toolCallsTracker st; metricsData := metricsData st;
     lineBuffer := lineBuffer st; thinkingBlock := t; accumulatedText := accumulatedText st;
     inThinkingBlock := inThinkingBlock st; originalModel := originalModel st |}.
Definition setAccumulatedText (t : string) (st : ConverterState) :=
  {| toolCallsTracker := toolCallsTracker st; metricsData := metricsData st;
     lineBuffer := lineBuffer st; thinkingBlock := thinkingBlock st; accumulatedText := t;
     inThinkingBlock := inThinkingBlock st; originalModel := originalModel st |}.
Definition setInThinkingBlock (b : bool) (st : ConverterState) :=
  {| toolCallsTracker := toolCallsTracker st; metricsData := metricsData st;
     lineBuffer := lineBuffer st; thinkingBlock := thinkingBlock st;
     accumulatedText := accumulatedText st; inThinkingBlock := b;
     originalModel := originalModel st |}.

Definition setModel (m : option string) (md : MetricsData) :=
  {| md_model := m; md_stop_reason := md_stop_reason md; md_input_tokens := md_input_tokens md;
     md_cache_creation_input_tokens := md_cache_creation_input_tokens md;
     md_cache_read_input_tokens := md_cache_read_input_tokens md;
     md_output_tokens := md_output_tokens md; messageId := messageId md;
     openAIId := openAIId md |}.
Definition setStopReason (r : option string) (md : MetricsData) :=
  {| md_model := md_model md; md_stop_reason := r; md_input_tokens := md_input_tokens md;
     md_cache_creation_input_tokens := md_cache_creation_input_tokens md;
     md_cache_read_input_tokens := md_cache_read_input_tokens md;
     md_output_tokens := md_output_tokens md; messageId := messageId md;
     openAIId := openAIId md |}.
Definition setMessageId (i : option string) (md : MetricsData) :=
  {| md_model := md_model md; md_stop_reason := md_stop_reason md;
     md_input_tokens := md_input_tokens md;
     md_cache_creation_input_tokens := md_cache_creation_input_tokens md;
     md_cache_read_input_tokens := md_cache_read_input_tokens md;
     md_output_tokens := md_output_tokens md; messageId := i; openAIId := openAIId md |}.
Definition setOpenAIId (i : option string) (md : MetricsData) :=
  {| md_model := md_model md; md_stop_reason := md_stop_reason md;
     md_input_tokens := md_input_tokens md;
     md_cache_creation_input_tokens := md_cache_creation_input_tokens md;
     md_cache_read_input_tokens := md_cache_read_input_tokens md;
     md_output_tokens := md_output_tokens md; messageId := messageId md; openAIId := i |}.

(** The four [+=] on the counters, each with its [|| 0]. *)
Definition addUsage (u : AnthropicUsage) (md : MetricsData) :=
  {| md_model := md_model md; md_stop_reason := md_stop_reason md;
     md_input_tokens := md_input_tokens md + JS.nullish (input_tokens u) 0;
     md_cache_creation_input_tokens :=
       md_cache_creation_input_tokens md + JS.nullish (cache_creation_input_tokens u) 0;
     md_cache_read_input_tokens :=
       md_cache_read_input_tokens md + JS.nullish (cache_read_input_tokens u) 0;
     md_output_tokens := md_output_tokens md + JS.nullish (output_tokens u) 0;
     messageId := messageId md; openAIId := openAIId md |}.

(** [createConverterState(originalModel?)]. *)
Definition createConverterState (originalModel : option string) : ConverterState :=
  {| toolCallsTracker := ∅;
     metricsData :=
       {| md_model := Some (JS.orElse originalModel "");
          md_stop_reason := None;
          md_input_tokens := 0;
          md_cache_creation_input_tokens := 0;
          md_cache_read_input_tokens := 0;
          md_output_tokens := 0;
          messageId := None;
          openAIId := None |};
     lineBuffer := "";
     thinkingBlock := None;
     accumulatedText := "";
     inThinkingBlock := false;
     originalModel := if JS.truthyOpt originalModel then originalModel else None |}.

(** *** Reading an event *)

(** [data.type === t]. *)
Definition typeIs (data : AnthropicStreamEvent) (t : string) : bool :=
  match ev_type data with Some s => String.eqb s t | None => false end.

(** [data.content_block?.type === t]. *)
Definition blockTypeIs (data : AnthropicStreamEvent) (t : string) : bool :=
  match ev_content_block data with
  | Some cb => match cb_type cb with Some s => String.eqb s t | None => false end
  | None => false
  end.

(** [data.delta?.f], for a field [f] of the delta. *)
Definition deltaField (f : AnthropicDelta -> option string) (data : AnthropicStreamEvent)
  : option string :=
  match ev_delta data with Some d => f d | None => None end.

(** [data.index ?? 0]. *)
Definition indexOf (data : AnthropicStreamEvent) : Z := JS.nullish (ev_index data) 0.

(** *** [updateMetrics] *)

Definition updateMetrics (metricsData : MetricsData) (data : AnthropicStreamEvent)
  : MetricsData :=
  let md1 :=
    match ev_message data with
    | Some message =>
        if typeIs data "message_start" then
          let md := setMessageId (msg_id message) metricsData in
          if JS.truthyOpt (msg_model message) then setModel (msg_model message) md else md
        else metricsData
    | None => metricsData
    end in
  let md2 := if JS.truthyOpt (ev_model data) then setModel (ev_model data) md1 else md1 in
  let md3 :=
    if JS.truthyOpt (ev_stop_reason data) then setStopReason (ev_stop_reason data) md2
    else md2 in
  let md4 :=
    if typeIs data "message_delta" && JS.truthyOpt (deltaField delta_stop_reason data)
    then setStopReason (deltaField delta_stop_reason data) md3
    else md3 in
  let md5 := match ev_usage data with Some u => addUsage u md4 | None => md4 end in
  let md6 :=
    match ev_message data with
    | Some message =>
        match msg_usage message with
        | Some u =>
            addUsage u
              (if JS.truthyOpt (msg_model message) then setModel (msg_model message) md5
               else md5)
        | None => md5
        end
    | None => md5
    end in
  match ev_message data with
  | Some message =>
      if JS.truthyOpt (msg_stop_reason message) then setStopReason (msg_stop_reason message) md6
      else md6
  | None => md6
  end.

(** *** Chunk construction *)

(** [state.metricsData.openAIId || 'chatcmpl-' + Date.now()]. *)
Definition chunkId (now : Z) (state : ConverterState) : string :=
  JS.orElse (openAIId (metricsData state)) ("chatcmpl-" +:+ JS.showZ now).

(** [state.originalModel || state.metricsData.model || 'claude-unknown']. *)
Definition chunkModel (state : ConverterState) : string :=
  JS.orElse (originalModel state) (JS.orElse (md_model (metricsData state)) "claude-unknown").

(** [Math.floor(Date.now() / 1000)]. *)
Definition createdAt (now : Z) : Z := now / 1000.

Definition emptyDelta : Delta := {| role := None; content := None; tool_calls := None |}.

(** A chunk with the one choice [{index: 0, delta, finish_reason}]. *)
Definition mkChunk (i : string) (now : Z) (m : option string) (d : Delta)
    (fr : option string) (u : option OpenAIUsageWithDetails) : OpenAIStreamChunk :=
  {| id := i; object := "chat.completion.chunk"; created := createdAt now; model := m;
     choices := [ {| choice_index := 0; delta := d; finish_reason := fr |} ];
     usage := u |}.

(** [createUsageChunk]. *)
Definition createUsageChunk (now : Z) (state : ConverterState) : option OpenAIStreamChunk :=
  let md := metricsData state in
  if (md_input_tokens md =? 0) && (md_output_tokens md =? 0) then None
  else
    let cachedTokens := md_cache_read_input_tokens md in
    let usage :=
      {| prompt_tokens := md_input_tokens md;
         completion_tokens := md_output_tokens md;
         total_tokens := md_input_tokens md + md_output_tokens md;
         prompt_tokens_details := {| detail_tokens := cachedTokens; audio_tokens := 0 |};
         completion_tokens_details := {| detail_tokens := 0; audio_tokens := 0 |} |} in
    Some (mkChunk (chunkId now state) now (Some (chunkModel state)) emptyDelta None
            (Some usage)).

(** What a statement block can do besides finishing: throw. *)
Inductive Exn : Type := SyntaxError | TypeError.

(** The finish-reason mapping of the [message_delta] case. *)
Definition mapStopReason (r : string) : string :=
  if String.eqb r "end_turn" then "stop"
  else if String.eqb r "tool_use" then "tool_calls"
  else r.

(** [transformToOpenAI]: the state after the call, and either the exception
    thrown or the returned chunk ([None] for [null]). *)
Definition transformToOpenAI (now : Z) (state : ConverterState) (data : AnthropicStreamEvent)
  : ConverterState * (Exn + option OpenAIStreamChunk) :=
  match (if typeIs data "message_start" then ev_message data else None) with
  | Some message =>
      match msg_id message with
      | None => (state, inl TypeError)   (* [undefined.replace] *)
      | Some mid =>
          let openAIId := "chatcmpl-" +:+ JS.replaceFirst "msg_" "" mid in
          let state1 := setMetricsData (setOpenAIId (Some openAIId) (metricsData state)) state in
          let state2 :=
            if negb (JS.truthyOpt (originalModel state1))
            then setMetricsData (setModel (msg_model message) (metricsData state1)) state1
            else state1 in
          (state2,
           inr (Some (mkChunk openAIId now
                        (if JS.truthyOpt (originalModel state2) then originalModel state2
                         else msg_model message)
                        {| role := Some "assistant"; content := Some ""; tool_calls := None |}
                        None None)))
      end
  | None =>
      if typeIs data "content_block_start" && blockTypeIs data "tool_use" then
        match ev_content_block data with
        | Some cb =>
            let state1 :=
              setToolCallsTracker
                (<[indexOf data :=
                     {| tool_id := JS.nullish (cb_id cb) "";
                        tool_name := JS.nullish (cb_name cb) "";
                        arguments := "" |}]> (toolCallsTracker state)) state in
            (state1,
             inr (Some (mkChunk (chunkId now state1) now (Some (chunkModel state1))
                          {| role := None; content := None;
                             tool_calls :=
                               Some [ {| tc_index := indexOf data;
                                         tc_id := cb_id cb;
                                         tc_type := Some "function";
                                         tc_function :=
                                           Some {| fn_name := cb_name cb;
                                                   fn_arguments := Some "" |} |} ] |}
                          None None)))
        | None => (state, inr None)
        end
      else if typeIs data "content_block_delta"
              && JS.truthyOpt (deltaField delta_partial_json data) then
        let partial_json := JS.nullish (deltaField delta_partial_json data) "" in
        match toolCallsTracker state !! indexOf data with
        | Some toolCall =>
            let '(newPart, accumulated) :=
              if JS.truthy (arguments toolCall)
                 && JS.startsWith partial_json (arguments toolCall)
              then (JS.substringFrom (String.length (arguments toolCall)) partial_json,
                    partial_json)
              else (partial_json, arguments toolCall +:+ partial_json) in
            let state1 :=
              setToolCallsTracker
                (<[indexOf data :=
                     {| tool_id := tool_id toolCall; tool_name := tool_name toolCall;
                        arguments := accumulated |}]> (toolCallsTracker state)) state in
            (state1,
             inr (Some (mkChunk (chunkId now state1) now (Some (chunkModel state1))
                          {| role := None; content := None;
                             tool_calls :=
                               Some [ {| tc_index := indexOf data;
                                         tc_id := None;
                                         tc_type := None;
                                         tc_function :=
                                           Some {| fn_name := None;
                                                   fn_arguments := Some newPart |} |} ] |}
                          None None)))
        | None => (state, inr None)
        end
      else if typeIs data "content_block_delta"
              && JS.truthyOpt (deltaField delta_text data) then
        let text := JS.nullish (deltaField delta_text data) "" in
        let state1 := setAccumulatedText (accumulatedText state +:+ text) state in
        (state1,
         inr (Some (mkChunk (chunkId now state1) now (Some (chunkModel state1))
                      {| role := None; content := Some text; tool_calls := None |}
                      None None)))
      else if typeIs data "message_delta"
              && JS.truthyOpt (deltaField delta_stop_reason data) then
        let stop_reason := JS.nullish (deltaField delta_stop_reason data) "" in
        (state,
         inr (Some (mkChunk (chunkId now state) now (Some (chunkModel state)) emptyDelta
                      (Some (mapStopReason stop_reason)) None)))
      else (state, inr None)
  end.

(** *** [processChunk] *)

(** How a statement block ends. *)
Inductive Completion : Type :=
| Completed
| Thrown (e : Exn).

(** The mutable objects a call of [processChunk] works on: the converter
    state and the [results] array. *)
Definition Heap : Type := ConverterState * list ProcessResult.

(** [try { body } catch (parseError) { log }]: whatever the body threw is
    dropped; what it had written before stays written. *)
Definition tryCatch (body : Heap * Completion) : Heap * Completion :=
  (fst body, Completed).

(** The statements of the [try] block after [JSON.parse] has returned [data]. *)
Definition handleEvent (now : Z) (data : AnthropicStreamEvent) (h : Heap)
  : Heap * Completion :=
  let '(state, results) := h in
  if typeIs data "ping" then (h, Completed)
  else if typeIs data "content_block_start"
          && (blockTypeIs data "thinking" || blockTypeIs data "redacted_thinking") then
    match ev_content_block data with
    | Some cb =>
        ((setThinkingBlock
            (Some {| thinking := JS.orElse (cb_thinking cb) "";
                     signature := JS.orElse (cb_signature cb) "" |})
            (setInThinkingBlock true state), results), Completed)
    | None => (h, Completed)
    end
  else if typeIs data "content_block_delta"
          && JS.truthyOpt (deltaField delta_thinking data) then
    match thinkingBlock state with
    | Some tb =>
        ((setThinkingBlock
            (Some {| thinking := thinking tb
                                 +:+ JS.nullish (deltaField delta_thinking data) "";
                     signature := signature tb |}) state, results), Completed)
    | None => (h, Completed)
    end
  else if typeIs data "content_block_delta"
          && JS.truthyOpt (deltaField delta_signature data) then
    match thinkingBlock state with
    | Some tb =>
        ((setThinkingBlock
            (Some {| thinking := thinking tb;
                     signature := signature tb
                                  +:+ JS.nullish (deltaField delta_signature data) "" |})
            state, results), Completed)
    | None => (h, Completed)
    end
  else if typeIs data "content_block_stop" then
    let state1 :=
      match thinkingBlock state with
      | Some tb =>
          if inThinkingBlock state && JS.truthyOpt (ev_signature data)
          then setThinkingBlock
                 (Some {| thinking := thinking tb;
                          signature := JS.nullish (ev_signature data) "" |}) state
          else state
      | None => state
      end in
    ((setInThinkingBlock false state1, results), Completed)
  else if typeIs data "content_block_start" && blockTypeIs data "text" then (h, Completed)
  else
    let state1 := setMetricsData (updateMetrics (metricsData state) data) state in
    match transformToOpenAI now state1 data with
    | (state2, inl e) => ((state2, results), Thrown e)
    | (state2, inr openAIChunk) =>
        let results1 :=
          match openAIChunk with
          | Some c => results ++ [Chunk c]
          | None => results
          end in
        if typeIs data "message_stop" then
          let results2 :=
            match createUsageChunk now state2 with
            | Some usageChunk => results1 ++ [Chunk usageChunk]
            | None => results1
            end in
          ((state2, results2 ++ [Done]), Completed)
        else ((state2, results1), Completed)
    end.

Section Parse.

(** [JSON.parse] followed by the read of its result as an
    [AnthropicStreamEvent]; [None] when it throws a [SyntaxError]. *)
Variable JSON_parse : string -> option AnthropicStreamEvent.

(** The [try] block. *)
Definition tryBlock (now : Z) (trimmedLine : string) (h : Heap) : Heap * Completion :=
  match JSON_parse (JS.stripDataPrefix trimmedLine) with
  | None => (h, Thrown SyntaxError)
  | Some data => handleEvent now data h
  end.

(** The body of [for (const line of lines)]. *)
Definition lineBody (now : Z) (line : string) (h : Heap) : Heap * Completion :=
  let trimmedLine := JS.trim line in
  if JS.isEmpty trimmedLine then (h, Completed)
  else if JS.startsWith trimmedLine "event:" then (h, Completed)
  else if JS.startsWith trimmedLine "data: " && JS.includes trimmedLine "{"
  then tryCatch (tryBlock now trimmedLine h)
  else (h, Completed).

(** The [for] loop: an exception that escapes an iteration ends the loop. *)
Fixpoint forLines (now : Z) (lines : list string) (h : Heap) : Heap * Completion :=
  match lines with
  | [] => (h, Completed)
  | line :: rest =>
      match lineBody now line h with
      | (h', Completed) => forLines now rest h'
      | (h', Thrown e) => (h', Thrown e)
      end
  end.

(** [processChunk(state, chunk)] as a statement block: the state and the
    [results] array at the end, and how the call ended. *)
Definition processChunkRun (now : Z) (state : ConverterState) (chunk : string)
  : Heap * Completion :=
  let fullContent := lineBuffer state +:+ chunk in
  let state0 := setLineBuffer "" state in
  let lines := JS.splitLines fullContent in
  let '(lines1, state1) :=
    if negb (JS.endsWith fullContent (JS.str JS.LF)) then
      match last lines with
      | Some lastLine => (removelast lines, setLineBuffer lastLine state0)
      | None => (lines, state0)
      end
    else (lines, state0) in
  forLines now lines1 (state1, []).

(** [processChunk]: the state after the call and the returned results. *)
Definition processChunk (now : Z) (state : ConverterState) (chunk : string)
  : ConverterState * list ProcessResult :=
  fst (processChunkRun now state chunk).

(** The server's read loop: [processChunk] on each chunk in turn against
    one state, the results written out in order. [nows] gives the clock
    reading of each call. *)
Fixpoint processChunks (state : ConverterState) (chunks : list (Z * string))
  : ConverterState * list ProcessResult :=
  match chunks with
  | [] => (state, [])
  | (now, chunk) :: rest =>
      let '(state1, out1) := processChunk now state chunk in
      let '(state2, out2) := processChunks state1 rest in
      (state2, out1 ++ out2)
  end.

(** *** Vocabulary for the properties of the translator *)

(** The event a line hands to the dispatch, if it gets that far: the line
    is not blank, is not an [event:] line, is a [data: ] line with a
    brace, and its payload parses. *)
Definition eventOfLine (line : string) : option AnthropicStreamEvent :=
  let trimmedLine := JS.trim line in
  if JS.isEmpty trimmedLine then None
  else if JS.startsWith trimmedLine "event:" then None
  else if JS.startsWith trimmedLine "data: " && JS.includes trimmedLine "{"
  then JSON_parse (JS.stripDataPrefix trimmedLine)
  else None.

(** The events of a stream text: those of its terminated lines, in order. *)
Definition eventsOf (stream : string) : list AnthropicStreamEvent :=
  omap eventOfLine (JS.completeLines stream).

End Parse.

(** The dispatch on a list of events, each inside its own [try]/[catch]. *)
Fixpoint runEvents (now : Z) (events : list AnthropicStreamEvent) (h : Heap) : Heap :=
  match events with
  | [] => h
  | data :: rest => runEvents now rest (fst (tryCatch (handleEvent now data h)))
  end.

(** [data] opens a tool_use block. *)
Definition isToolUseStart (data : AnthropicStreamEvent) : bool :=
  typeIs data "content_block_start" && blockTypeIs data "tool_use".

(** [data] is a tool-input delta carrying [partial_json = d]: a
    [content_block_delta] whose delta has that [partial_json] and no
    thinking or signature text. *)
Definition isPartialJsonDelta (data : AnthropicStreamEvent) (d : string) : Prop :=
  typeIs data "content_block_delta" = true
  /\ deltaField delta_partial_json data = Some d
  /\ JS.truthyOpt (deltaField delta_thinking data) = false
  /\ JS.truthyOpt (deltaField delta_signature data) = false.

(** The arguments text that a chunk carries for the tool call [index]. *)
Definition argumentsIn (index : Z) (c : OpenAIStreamChunk) : string :=
  JS.concatAll
    ((fun ch =>
        JS.concatAll
          ((fun tc =>
              if tc_index tc =? index
              then match tc_function tc with
                   | Some f => JS.nullish (fn_arguments f) ""
                   | None => ""
                   end
              else "") <$> JS.nullish (tool_calls (delta ch)) [])) <$> choices c).

(** All the arguments text emitted for the tool call [index], in order. *)
Definition emittedArguments (index : Z) (results : list ProcessResult) : string :=
  JS.concatAll
    ((fun r => match r with Chunk c => argumentsIn index c | Done => "" end) <$> results).

(** The policy of the tool-argument accumulation: what is emitted for the
    fragment [d] when [accumulated] has been seen, and what is kept. *)
Definition accumulate (accumulated d : string) : string * string :=
  if JS.startsWith d accumulated
  then (JS.substringFrom (String.length accumulated) d, d)
  else (d, accumulated +:+ d).

(** Two results that differ at most in what was read off the clock: the
    [created] stamp, and the id when no upstream message id is known. *)
Definition sameUpToClock (r1 r2 : ProcessResult) : Prop :=
  match r1, r2 with
  | Done, Done => True
  | Chunk c1, Chunk c2 =>
      object c1 = object c2 /\ model c1 = model c2 /\ choices c1 = choices c2
      /\ usage c1 = usage c2
      /\ (id c1 = id c2
          \/ exists t1 t2, id c1 = "chatcmpl-" +:+ JS.showZ t1
                           /\ id c2 = "chatcmpl-" +:+ JS.showZ t2)
  | _, _ => False
  end.

(** What [transformToOpenAI] returns under two clock readings: the same
    exception, or [null] twice, or two chunks that differ in stamps only. *)
Definition sameReturn (r1 r2 : Exn + option OpenAIStreamChunk) : Prop :=
  match r1, r2 with
  | inl e1, inl e2 => e1 = e2
  | inr None, inr None => True
  | inr (Some c1), inr (Some c2) => sameUpToClock (Chunk c1) (Chunk c2)
  | _, _ => False
  end.

(** The chunk carries the model name [m]. *)
Definition carriesModel (m : string) (r : ProcessResult) : Prop :=
  match r with Chunk c => model c = Some m | Done => True end.

(** The usage chunk: empty delta, [finish_reason: null], a [usage] object. *)
Definition isUsageChunk (r : ProcessResult) : Prop :=
  match r with
  | Chunk c =>
      is_Some (usage c)
      /\ choices c = [ {| choice_index := 0; delta := emptyDelta; finish_reason := None |} ]
  | Done => False
  end.

Definition hasUsage (r : ProcessResult) : bool :=
  match r with
  | Chunk c => match usage c with Some _ => true | None => false end
  | Done => false
  end.

Definition isDone (r : ProcessResult) : bool :=
  match r with Done => true | Chunk _ => false end.

(** Neither the done marker nor a chunk with a usage object. *)
Definition ordinary (r : ProcessResult) : Prop :=
  isDone r = false /\ hasUsage r = false.

(** The results of a stream that ends: ordinary chunks, then the usage
    chunk if one is due, then the done marker. *)
Definition endsStream (usageDue : bool) (out : list ProcessResult) : Prop :=
  exists pre tail,
    out = pre ++ tail ++ [Done]
    /\ Forall ordinary pre
    /\ if usageDue then exists r, tail = [r] /\ isUsageChunk r else tail = [].

(** Both token counters of the state are zero. *)
Definition noTokens (state : ConverterState) : bool :=
  (md_input_tokens (metricsData state) =? 0) && (md_output_tokens (metricsData state) =? 0).

(** [data] opens a tool_use block at [index]. *)
Definition startsToolAt (index : Z) (data : AnthropicStreamEvent) : bool :=
  isToolUseStart data && (indexOf data =? index).

(** Whether the event gets something written to [results], in the state
    [state]. By event type:
    - [message_start]: the message is there and has an id;
    - [content_block_start]: the content block has type tool_use (its id
      and name and the index of the event may be missing);
    - [content_block_delta]: the delta has no thinking and no signature
      text, and either a non-empty [partial_json] for an index that the
      tracker knows, or no [partial_json] and a non-empty [text];
    - [message_delta]: the delta has a non-empty [stop_reason];
    - [message_stop]: always;
    - any other type, or none: never. *)
Definition emits (state : ConverterState) (data : AnthropicStreamEvent) : bool :=
  if typeIs data "message_start" then
    match ev_message data with
    | Some message => match msg_id message with Some _ => true | None => false end
    | None => false
    end
  else if typeIs data "content_block_start" then blockTypeIs data "tool_use"
  else if typeIs data "content_block_delta" then
    negb (JS.truthyOpt (deltaField delta_thinking data))
    && negb (JS.truthyOpt (deltaField delta_signature data))
    && (if JS.truthyOpt (deltaField delta_partial_json data)
        then match toolCallsTracker state !! indexOf data with
             | Some _ => true
             | None => false
             end
        else JS.truthyOpt (deltaField delta_text data))
  else if typeIs data "message_delta" then JS.truthyOpt (deltaField delta_stop_reason data)
  else typeIs data "message_stop".

End Converter.

(* ===================================================================== *)
(** ** The server: model variants and the request pipeline *)
(* ===================================================================== *)

Module Server.
Import Json ThinkingCache.

Record ThinkingConfig : Type := {
  thinking_type : string;
  budget_tokens : Z
}.

(** [interface ModelVariantConfig]. *)
Record ModelVariantConfig : Type := {
  model : string;
  maxTokens : Z;
  thinking : option ThinkingConfig
}.

(** [ModelVariantConfig & { originalModel: string }]. *)
Record ResolvedVariant : Type := {
  config : ModelVariantConfig;
  originalModel : string
}.

Definition THINKING_CONFIG : ThinkingConfig :=
  {| thinking_type := "enabled"; budget_tokens := 32000 |}.

Definition mkVariant (m : string) (t : Z) (th : option ThinkingConfig) : ModelVariantConfig :=
  {| model := m; maxTokens := t; thinking := th |}.

(** The entries of [MODEL_VARIANTS], in the order of [Object.entries]. *)
Definition MODEL_VARIANTS : list (string * ModelVariantConfig) :=
  [ ("claude-4-opus-high-thinking", mkVariant "claude-opus-4-5" 64000 (Some THINKING_CONFIG));
    ("claude-4-opus-high", mkVariant "claude-opus-4-5" 32000 None);
    ("claude-4-sonnet-high-thinking", mkVariant "claude-sonnet-4-5" 64000 (Some THINKING_CONFIG));
    ("claude-4-sonnet-high", mkVariant "claude-sonnet-4-5" 32000 None);
    ("claude-4.5-opus-high-thinking", mkVariant "claude-opus-4-5" 64000 (Some THINKING_CONFIG));
    ("claude-4.5-opus-high", mkVariant "claude-opus-4-5" 32000 None);
    ("claude-4.5-sonnet-high-thinking", mkVariant "claude-sonnet-4-5" 64000 (Some THINKING_CONFIG));
    ("claude-4.5-sonnet-high", mkVariant "claude-sonnet-4-5" 32000 None) ].

(** [model.toLowerCase().trim()]. *)
Definition normalizeModel (m : string) : string := JS.trim (JS.toLowerCase m).

(** The [for ... of Object.entries(MODEL_VARIANTS)] loop: the first entry
    whose lowercased key is the normalised name. *)
Fixpoint lookupVariant (entries : list (string * ModelVariantConfig))
    (normalizedModel : string) : option ModelVariantConfig :=
  match entries with
  | [] => None
  | (key, cfg) :: rest =>
      if String.eqb (JS.toLowerCase key) normalizedModel then Some cfg
      else lookupVariant rest normalizedModel
  end.

Definition resolveModelVariant (m : string) : ResolvedVariant :=
  let normalizedModel := normalizeModel m in
  match lookupVariant MODEL_VARIANTS normalizedModel with
  | Some cfg => {| config := cfg; originalModel := m |}
  | None =>
      if JS.includes normalizedModel "thinking" then
        let baseModel :=
          if JS.includes normalizedModel "opus" then "claude-opus-4-5"
          else if JS.includes normalizedModel "haiku" then "claude-haiku-4-5"
          else "claude-sonnet-4-5" in
        {| config := mkVariant baseModel 64000 (Some THINKING_CONFIG); originalModel := m |}
      else if JS.startsWith normalizedModel "claude-" then
        {| config := mkVariant m 8192 None; originalModel := m |}
      else
        {| config := mkVariant m 8192 None; originalModel := m |}
  end.

(** Whether the client string is resolved by name: its normalised form is a
    key of the variant table or contains "thinking". *)
Definition resolvedByName (m : string) : Prop :=
  is_Some (lookupVariant MODEL_VARIANTS (normalizeModel m))
  \/ JS.includes (normalizeModel m) "thinking" = true.

(** *** The request *)

(** An entry of the [system] array. Its [text] is a string, or, for a lifted
    system-role message, whatever content that message had. *)
Record SystemBlock : Type := {
  sb_type : string;
  sb_text : MessageContent
}.

(** [system]: a string or an array of blocks. *)
Inductive SystemField : Type :=
| SystemText (s : string)
| SystemBlocks (blocks : list SystemBlock).

(** The fields of the inbound body that [messagesFn] reads. Sampling
    numbers are rationals; fields that are only copied are JSON values. *)
Record AnthropicRequestBody : Type := {
  body_model : string;
  messages : option (list AnthropicMessage);
  system : option SystemField;
  max_tokens : option Z;
  stream : option bool;
  stop_sequences : option json;
  stop : option json;
  temperature : option Qc;
  top_p : option Qc;
  top_k : option Z;
  metadata : option json;
  tools : option json;
  tool_choice : option json
}.

(** [anthropicBody], as [JSON.stringify] sends it: a field that is
    [undefined] or deleted is absent, hence [None]. *)
Record UpstreamBody : Type := {
  up_model : string;
  up_messages : option (list AnthropicMessage);
  up_system : option SystemField;
  up_max_tokens : Z;
  up_stream : option bool;
  up_stop_sequences : option json;
  up_temperature : option Qc;
  up_top_p : option Qc;
  up_top_k : option Z;
  up_metadata : option json;
  up_tools : option json;
  up_tool_choice : option json;
  up_thinking : option ThinkingConfig
}.

(** What the handler does with the request. *)
Inductive Outcome : Type :=
| Reply (status : Z) (error : string)        (* [c.json({error, ...}, status)] *)
| Bypass (streaming : bool)                  (* the canned key-check answer *)
| Dispatch (headers : gmap string string)    (* [fetch(messages endpoint, ...)] *)
           (anthropicBody : UpstreamBody)
           (thinkingEnabled transformToOpenAIFormat : bool).

Definition PERSONA : string := "You are Claude Code, Anthropic's official CLI for Claude.".

(** [body.system?.[0]?.text?.includes("You are Claude Code")], read as a
    condition. *)
Definition declaresPersona (sys : option SystemField) : bool :=
  match sys with
  | Some (SystemBlocks (b :: _)) =>
      match sb_text b with
      | TextContent s => JS.includes s "You are Claude Code"
      | BlockContent _ => false
      end
  | _ => false
  end.

Definition isSystemMessage (msg : AnthropicMessage) : bool :=
  String.eqb (role msg) "system".

(** [system] after the rewrite: an array, the persona first, the lifted
    system messages last. *)
Definition rewriteSystem (sys : option SystemField) (systemMessages : list AnthropicMessage)
  : list SystemBlock :=
  let existing :=
    match sys with
    | None => []
    | Some (SystemText s) =>
        if JS.truthy s then [ {| sb_type := "text"; sb_text := TextContent s |} ] else []
    | Some (SystemBlocks blocks) => blocks
    end in
  {| sb_type := "text"; sb_text := TextContent PERSONA |}
    :: existing
    ++ ((fun sysMsg => {| sb_type := "text"; sb_text := content sysMsg |}) <$> systemMessages).

(** Truthiness of [system]. *)
Definition systemTruthy (sys : option SystemField) : bool :=
  match sys with
  | None => false
  | Some (SystemText s) => JS.truthy s
  | Some (SystemBlocks _) => true
  end.

Definition jsonTruthy (o : option json) : bool :=
  match o with Some v => truthy v | None => false end.

(** [a || b] on numbers. *)
Definition orZ (o : option Z) (d : Z) : Z :=
  match o with Some z => if z =? 0 then d else z | None => d end.

(** [!!variant.thinking]. *)
Definition enabled (t : option ThinkingConfig) : bool :=
  match t with Some _ => true | None => false end.

Definition BETA_FEATURES : list string :=
  [ "oauth-2025-04-20"; "fine-grained-tool-streaming-2025-05-14"; "prompt-caching-2024-07-31" ].

Definition INTERLEAVED_THINKING : string := "interleaved-thinking-2025-05-14".

(** [header.split(',').filter(h => !h.includes('interleaved-thinking')).join(',')]. *)
Definition removeInterleavedThinking (header : string) : string :=
  JS.join ","
    (filter (fun h => JS.includes h "interleaved-thinking" = false) (JS.split "," header)).

(** [c.req.header('authorization')?.split(' ')?.[1]]. *)
Definition apiKeyOf (authorization : option string) : option string :=
  match authorization with
  | Some a => JS.split " " a !! 1%nat
  | None => None
  end.

(** [body.model.toLowerCase()] contains one of the Claude family names. *)
Definition isClaudeModel (bodyModel : string) : bool :=
  let lower := JS.toLowerCase bodyModel in
  JS.includes lower "claude" || JS.includes lower "sonnet"
  || JS.includes lower "opus" || JS.includes lower "haiku".

(** [body.messages], [body.system], [body.max_tokens] and
    [transformToOpenAIFormat] after the rewrite step. *)
Record Rewritten : Type := {
  rw_messages : option (list AnthropicMessage);
  rw_system : option SystemField;
  rw_max_tokens : option Z;
  rw_transform : bool
}.

(** The rewrite step: unless the system prompt already declares the
    persona, system-role messages move from [messages] into [system], the
    persona line goes first, and [max_tokens] is the variant's. *)
Definition rewriteBody (path : string) (cfg : ModelVariantConfig)
    (body : AnthropicRequestBody) : Rewritten :=
  let transform0 :=
    JS.includes path "/v1/chat/completions" || JS.includes path "/v1/models" in
  match messages body with
  | Some msgs =>
      if negb (declaresPersona (system body)) then
        let systemMessages := filter (fun m => isSystemMessage m = true) msgs in
        {| rw_messages := Some (filter (fun m => isSystemMessage m = false) msgs);
           rw_system := Some (SystemBlocks (rewriteSystem (system body) systemMessages));
           rw_max_tokens := Some (maxTokens cfg);
           rw_transform := true |}
      else
        {| rw_messages := messages body; rw_system := system body;
           rw_max_tokens := max_tokens body; rw_transform := transform0 |}
  | None =>
      {| rw_messages := messages body; rw_system := system body;
         rw_max_tokens := max_tokens body; rw_transform := transform0 |}
  end.

(** [anthropicBody] with three of its fields replaced. *)
Definition withMessages (msgs : list AnthropicMessage) (temp : option Qc)
    (th : option ThinkingConfig) (b : UpstreamBody) : UpstreamBody :=
  {| up_model := up_model b;
     up_messages := Some msgs;
     up_system := up_system b;
     up_max_tokens := up_max_tokens b;
     up_stream := up_stream b;
     up_stop_sequences := up_stop_sequences b;
     up_temperature := temp;
     up_top_p := up_top_p b;
     up_top_k := up_top_k b;
     up_metadata := up_metadata b;
     up_tools := up_tools b;
     up_tool_choice := up_tool_choice b;
     up_thinking := th |}.

Section Pipeline.

(** [process.env.API_KEY]. *)
Variable API_KEY : option string.

(** [isCursorKeyCheck] of utils/cursor-byok-bypass. *)
Variable isCursorKeyCheck : AnthropicRequestBody -> bool.

(** What [await getAccessToken()] returns. *)
Variable oauthToken : option string.

(** [await injectCachedThinkingBlocks(messages)]: the messages after the
    in-place update and the result record. *)
Variable injectCachedThinkingBlocks :
  list AnthropicMessage -> list AnthropicMessage * InjectResult.

(** [messagesFn] up to the upstream [fetch]. [path] is [c.req.path],
    [authorization] the request header of that name, [body] the request
    body as [c.req.json()] returned it, with its model name. Logging and
    the context summary, which only log, are left out. *)
Definition messagesFn (path : string) (authorization : option string)
    (body : AnthropicRequestBody) : Outcome :=
  let variant := resolveModelVariant (body_model body) in
  let cfg := config variant in
  let bodyModel := model cfg in                     (* body.model = variant.model *)
  let isStreaming := match stream body with Some true => true | _ => false end in
  let apiKey := apiKeyOf authorization in
  if JS.truthyOpt API_KEY && negb (bool_decide (apiKey = API_KEY)) then
    Reply 401 "Authentication required"
  else if negb (isClaudeModel bodyModel) && negb (isCursorKeyCheck body) then
    Reply 404 "model_not_supported_by_proxy"
  else if isCursorKeyCheck body then Bypass isStreaming
  else
    let rw := rewriteBody path cfg body in
    let transformToOpenAIFormat := rw_transform rw in
    if negb (JS.truthyOpt oauthToken) then Reply 401 "Authentication required"
    else
      let betaFeatures :=
        if enabled (thinking cfg) then BETA_FEATURES ++ [INTERLEAVED_THINKING]
        else BETA_FEATURES in
      let headers : gmap string string :=
        list_to_map
          [ ("content-type", "application/json");
            ("authorization", "Bearer " +:+ JS.nullish oauthToken "");
            ("anthropic-beta", JS.join "," betaFeatures);
            ("anthropic-version", "2023-06-01");
            ("user-agent", "anthropic-cli/0.2.29");
            ("anthropic-client", "anthropic-cli/0.2.29");
            ("accept", if isStreaming then "text/event-stream" else "application/json");
            ("accept-encoding", "gzip, deflate") ] in
      let anthropicBody :=
        {| up_model := bodyModel;
           up_messages := rw_messages rw;
           up_system :=
             if transformToOpenAIFormat && negb (systemTruthy (rw_system rw))
             then Some (SystemBlocks []) else rw_system rw;
           up_max_tokens := orZ (rw_max_tokens rw) (orZ (Some (maxTokens cfg)) 4096);
           up_stream := stream body;
           up_stop_sequences :=
             if jsonTruthy (stop_sequences body) then stop_sequences body else stop body;
           up_temperature :=
             if enabled (thinking cfg) then Some 1%Qc else temperature body;
           up_top_p := top_p body;
           up_top_k := top_k body;
           up_metadata :=
             if transformToOpenAIFormat && negb (jsonTruthy (metadata body))
             then Some (JObj []) else metadata body;
           up_tools := tools body;
           up_tool_choice := tool_choice body;
           up_thinking := thinking cfg |} in
      match rw_messages rw with
      | Some (m :: ms) =>
          (* anthropicBody.messages.length > 0: inject, then maybe downgrade *)
          let '(injected, injectResult) := injectCachedThinkingBlocks (m :: ms) in
          if enabled (thinking cfg) && negb (canUseThinking injectResult) then
            let currentBeta := JS.orElse (headers !! "anthropic-beta") "" in
            Dispatch
              (<["anthropic-beta" := removeInterleavedThinking currentBeta]> headers)
              (withMessages injected (temperature body) None anthropicBody)
              false transformToOpenAIFormat
          else
            Dispatch headers
              (withMessages injected (up_temperature anthropicBody)
                 (up_thinking anthropicBody) anthropicBody)
              (enabled (thinking cfg)) transformToOpenAIFormat
      | _ =>
          Dispatch headers anthropicBody (enabled (thinking cfg)) transformToOpenAIFormat
      end.

End Pipeline.

End Server.

(* ===================================================================== *)
(** ** Concrete scenarios *)
(* ===================================================================== *)

Module Scenarios.
Import Json ThinkingCache.

Definition userSays (s : string) : AnthropicMessage :=
  {| role := "user"; content := TextContent s |}.

Definition assistantSays (s : string) : AnthropicMessage :=
  {| role := "assistant"; content := TextContent s |}.

(** No persistent tier. *)
Definition noRedis : string -> option CachedThinkingBlock := fun _ => None.

Definition plan : ContentBlock := thinkingBlockOf "plan" "sig".

(** A history with two assistant turns, neither with a thinking block, and
    a memory cache that knows the first of them only. *)
Definition history : list AnthropicMessage :=
  [ userSays "hi"; assistantSays "Hello"; userSays "more"; assistantSays "Again" ].

Definition memoryWithFirst : gmap string CachedThinkingBlock :=
  {[ generateCacheKey (TextContent "Hello") := {| thinkingBlock := plan; timestamp := 0 |} ]}.

(** The injection as the handler sees it, against a given memory cache. *)
Definition injectFrom (memoryCache : gmap string CachedThinkingBlock)
    (messages : list AnthropicMessage) : list AnthropicMessage * InjectResult :=
  let '(_, messages', r) := inject noRedis memoryCache messages in (messages', r).

(** A streaming request for a thinking variant with that history and the
    client's temperature 7/10. *)
Definition thinkingRequest : Server.AnthropicRequestBody :=
  {| Server.body_model := "claude-4-sonnet-high-thinking";
     Server.messages := Some history;
     Server.system := None;
     Server.max_tokens := None;
     Server.stream := Some true;
     Server.stop_sequences := None;
     Server.stop := None;
     Server.temperature := Some (Q2Qc (QArith_base.Qmake 7 10));
     Server.top_p := None;
     Server.top_k := None;
     Server.metadata := None;
     Server.tools := None;
     Server.tool_choice := None |}.

(** *** Upstream streams *)

Import Converter.

(** The read of a parsed value at the interface types of the converter: a
    field is there when the object has it with the declared type. *)
Definition strField (k : string) (props : list (string * json)) : option string :=
  match getProp k props with Some (JStr s) => Some s | _ => None end.

Definition numField (k : string) (props : list (string * json)) : option Z :=
  match getProp k props with Some (JNum z) => Some z | _ => None end.

Definition objField (k : string) (props : list (string * json))
  : option (list (string * json)) :=
  match getProp k props with Some (JObj p) => Some p | _ => None end.

Definition readUsage (props : list (string * json)) : AnthropicUsage :=
  {| input_tokens := numField "input_tokens" props;
     output_tokens := numField "output_tokens" props;
     cache_creation_input_tokens := numField "cache_creation_input_tokens" props;
     cache_read_input_tokens := numField "cache_read_input_tokens" props |}.

Definition readMessage (props : list (string * json)) : Converter.AnthropicMessage :=
  {| msg_id := strField "id" props;
     msg_model := strField "model" props;
     msg_usage := readUsage <$> objField "usage" props;
     msg_stop_reason := strField "stop_reason" props |}.

Definition readContentBlock (props : list (string * json)) : AnthropicContentBlock :=
  {| Converter.cb_type := strField "type" props;
     Converter.cb_id := strField "id" props;
     Converter.cb_name := strField "name" props;
     Converter.cb_text := strField "text" props;
     Converter.cb_thinking := strField "thinking" props;
     Converter.cb_signature := strField "signature" props;
     Converter.cb_data := strField "data" props |}.

Definition readDelta (props : list (string * json)) : AnthropicDelta :=
  {| delta_text := strField "text" props;
     delta_partial_json := strField "partial_json" props;
     delta_stop_reason := strField "stop_reason" props;
     delta_thinking := strField "thinking" props;
     delta_signature := strField "signature" props |}.

Definition readEvent (v : json) : AnthropicStreamEvent :=
  let props := match v with JObj p => p | _ => [] end in
  {| ev_type := strField "type" props;
     ev_message := readMessage <$> objField "message" props;
     ev_content_block := readContentBlock <$> objField "content_block" props;
     ev_delta := readDelta <$> objField "delta" props;
     ev_index := numField "index" props;
     ev_model := strField "model" props;
     ev_stop_reason := strField "stop_reason" props;
     ev_signature := strField "signature" props;
     ev_usage := readUsage <$> objField "usage" props |}.

(** A parser that knows the payloads of a given list: the text that
    [JSON.stringify] writes for one of them parses to it; any other text is
    a syntax error. *)
Definition parseKnown (known : list json) (text : string) : option AnthropicStreamEvent :=
  readEvent <$> List.find (fun v => String.eqb (stringify None v) text) known.

(** One server-sent event: [data: <payload>] and a blank line. *)
Definition sse (v : json) : string :=
  "data: " +:+ stringify None v +:+ JS.str JS.LF +:+ JS.str JS.LF.

Definition streamOf (payloads : list json) : string := JS.concatAll (sse <$> payloads).

Definition typed (t : string) (fields : list (string * json)) : json :=
  JObj (("type", JStr t) :: fields).

(** Text-only streaming: message_start, a text block with the deltas "Hel",
    "lo", "!", a message_delta with stop reason and usage, message_stop. *)
Definition textPayloads : list json :=
  [ typed "message_start"
      [("message", JObj [("id", JStr "msg_AAA"); ("model", JStr "claude-sonnet-4-5")])];
    typed "content_block_start"
      [("index", JNum 0); ("content_block", JObj [("type", JStr "text"); ("text", JStr "")])];
    typed "content_block_delta"
      [("index", JNum 0); ("delta", JObj [("type", JStr "text_delta"); ("text", JStr "Hel")])];
    typed "content_block_delta"
      [("index", JNum 0); ("delta", JObj [("type", JStr "text_delta"); ("text", JStr "lo")])];
    typed "content_block_delta"
      [("index", JNum 0); ("delta", JObj [("type", JStr "text_delta"); ("text", JStr "!")])];
    typed "content_block_stop" [("index", JNum 0)];
    typed "message_delta"
      [("delta", JObj [("stop_reason", JStr "end_turn")]);
       ("usage", JObj [("input_tokens", JNum 10); ("output_tokens", JNum 3);
                       ("cache_read_input_tokens", JNum 4)])];
    typed "message_stop" [] ].

(** A tool call whose input arrives as cumulative [partial_json]. *)
Definition toolPayloads : list json :=
  [ typed "content_block_start"
      [("index", JNum 0);
       ("content_block",
        JObj [("type", JStr "tool_use"); ("id", JStr "tu_1"); ("name", JStr "search")])];
    typed "content_block_delta"
      [("index", JNum 0);
       ("delta", JObj [("type", JStr "input_json_delta");
                       ("partial_json", JStr ("{" +:+ quote "q"))])];
    typed "content_block_delta"
      [("index", JNum 0);
       ("delta", JObj [("type", JStr "input_json_delta");
                       ("partial_json",
                        JStr ("{" +:+ quote "q" +:+ ":" +:+ JS.str JS.DQUOTE +:+ "fo"))])];
    typed "content_block_delta"
      [("index", JNum 0);
       ("delta", JObj [("type", JStr "input_json_delta");
                       ("partial_json",
                        JStr ("{" +:+ quote "q" +:+ ":" +:+ quote "foo" +:+ "}"))])] ].

(** A message_start without message id, between two text deltas. *)
Definition brokenPayloads : list json :=
  [ typed "content_block_delta"
      [("index", JNum 0); ("delta", JObj [("type", JStr "text_delta"); ("text", JStr "a")])];
    typed "message_start" [("message", JObj [("model", JStr "claude-sonnet-4-5")])];
    typed "content_block_delta"
      [("index", JNum 0); ("delta", JObj [("type", JStr "text_delta"); ("text", JStr "b")])] ].

(** The start of a tool_use block that names neither the tool nor its id
    and has no index. *)
Definition bareToolStart : json :=
  typed "content_block_start" [("content_block", JObj [("type", JStr "tool_use")])].

(** A message_start whose message has a usage but no id. *)
Definition countedStart : json :=
  typed "message_start"
    [("message", JObj [("model", JStr "claude-sonnet-4-5");
                       ("usage", JObj [("input_tokens", JNum 7)])])].

Definition clientModel : option string := Some "claude-4-sonnet-high".

(** The text stream cut at two places that fall inside lines. *)
Definition textChunks : list (Z * string) :=
  [ (1700000000123, String.substring 0 10 (streamOf textPayloads));
    (1700000000123, String.substring 10 90 (streamOf textPayloads));
    (1700000000123, JS.substringFrom 100 (streamOf textPayloads)) ].

End Scenarios.

(* ===================================================================== *)
(** ** Vocabulary on strings *)
(* ===================================================================== *)

Module Text.

(** A string of white space. *)
Fixpoint allWhiteSpace (s : string) : bool :=
  match s with
  | EmptyString => true
  | String c s' => JS.isWhiteSpace c && allWhiteSpace s'
  end.

(** A string without white space. *)
Fixpoint noWhiteSpace (s : string) : bool :=
  match s with
  | EmptyString => true
  | String c s' => negb (JS.isWhiteSpace c) && noWhiteSpace s'
  end.

(** The character [c] does not occur in the string. *)
Fixpoint lacksChar (c : ascii) (s : string) : bool :=
  match s with
  | EmptyString => true
  | String x s' => negb (Ascii.eqb x c) && lacksChar c s'
  end.

End Text.

(* ===================================================================== *)
(** ** anthropic-to-openai-converter.ts: the accessors of the state *)
(* ===================================================================== *)

Module Accessors.
Import Converter.

(** [getThinkingBlockFromState]: the captured block as a content block of
    type 'thinking', or [null]. *)
Definition getThinkingBlockFromState (state : ConverterState)
  : option ThinkingCache.ContentBlock :=
  match thinkingBlock state with
  | Some tb =>
      if JS.truthy (thinking tb) || JS.truthy (signature tb)
      then Some (ThinkingCache.thinkingBlockOf (thinking tb) (signature tb))
      else None
  | None => None
  end.

(** [getAccumulatedText]. *)
Definition getAccumulatedText (state : ConverterState) : string := accumulatedText state.

(** What [getUsageFromState] returns. *)
Record StreamUsage : Type := {
  inputTokens : Z;
  outputTokens : Z;
  totalTokens : Z;
  cacheCreationTokens : option Z;
  cacheReadTokens : option Z;
  cacheHitRate : option Z
}.

(** [n || undefined] on a number. *)
Definition orUndefined (n : Z) : option Z := if n =? 0 then None else Some n.

Section Usage.

(** [Math.round((read / input) * 100)], a floating-point computation of the
    host. *)
Variable roundedPercent : Z -> Z -> Z.

(** [getUsageFromState]. *)
Definition getUsageFromState (state : ConverterState) : option StreamUsage :=
  let md := metricsData state in
  if (md_input_tokens md =? 0) && (md_output_tokens md =? 0) then None
  else
    let inputTokens := md_input_tokens md in
    let outputTokens := md_output_tokens md in
    Some {| inputTokens := inputTokens;
            outputTokens := outputTokens;
            totalTokens := inputTokens + outputTokens;
            cacheCreationTokens := orUndefined (md_cache_creation_input_tokens md);
            cacheReadTokens := orUndefined (md_cache_read_input_tokens md);
            cacheHitRate :=
              if (0 <? inputTokens) && (0 <? md_cache_read_input_tokens md)
              then Some (roundedPercent (md_cache_read_input_tokens md) inputTokens)
              else None |}.

End Usage.

(** *** Vocabulary *)

(** The content text that a chunk carries. *)
Definition contentIn (c : OpenAIStreamChunk) : string :=
  JS.concatAll ((fun ch => JS.nullish (content (delta ch)) "") <$> choices c).

(** All the content text emitted, in order. *)
Definition emittedContent (results : list ProcessResult) : string :=
  JS.concatAll ((fun r => match r with Chunk c => contentIn c | Done => "" end) <$> results).

(** The chunk carries the id [i]. *)
Definition carriesId (i : string) (r : ProcessResult) : Prop :=
  match r with Chunk c => id c = i | Done => True end.

(** [data] is a [message_start] whose message id gives the chunk id [i]. *)
Definition opensWith (i : string) (data : AnthropicStreamEvent) : Prop :=
  typeIs data "message_start" = true
  /\ exists message mid,
       ev_message data = Some message /\ msg_id message = Some mid
       /\ i = "chatcmpl-" +:+ JS.replaceFirst "msg_" "" mid.

(** [data] opens a thinking or redacted_thinking block. *)
Definition isThinkingStart (data : AnthropicStreamEvent) : bool :=
  typeIs data "content_block_start"
  && (blockTypeIs data "thinking" || blockTypeIs data "redacted_thinking").

(** [data] is a [content_block_delta] with thinking or signature text. *)
Definition isThinkingDelta (data : AnthropicStreamEvent) : bool :=
  typeIs data "content_block_delta"
  && (JS.truthyOpt (deltaField delta_thinking data)
      || JS.truthyOpt (deltaField delta_signature data)).

(** What such a delta adds to the thinking text and to the signature: the
    thinking text when it has one, else the signature text. *)
Definition thinkingPart (data : AnthropicStreamEvent) : string :=
  if JS.truthyOpt (deltaField delta_thinking data)
  then JS.nullish (deltaField delta_thinking data) "" else "".

Definition signaturePart (data : AnthropicStreamEvent) : string :=
  if JS.truthyOpt (deltaField delta_thinking data) then ""
  else JS.nullish (deltaField delta_signature data) "".

End Accessors.

(* ===================================================================== *)
(** ** anthropic-to-openai-converter.ts: the non-streaming translation *)
(* ===================================================================== *)

Module NonStreaming.
Import Json Converter.

(** A content block of a complete response: the block, and its [input],
    which only the non-streaming translation reads. *)
Record ResponseBlock : Type := {
  block : AnthropicContentBlock;
  input : option json
}.

(** [interface AnthropicFullResponse], every field optional as for the
    stream events. *)
Record AnthropicFullResponse : Type := {
  resp_id : option string;
  resp_model : option string;
  resp_content : option (list ResponseBlock);
  resp_stop_reason : option string;
  resp_usage : option AnthropicUsage
}.

(** [interface OpenAIResponse]. *)
Record ToolCall : Type := {
  call_id : string;
  call_type : string;
  call_name : string;
  call_arguments : string
}.

Record Message : Type := {
  message_role : string;
  message_content : option string;
  message_tool_calls : list ToolCall
}.

Record ResponseChoice : Type := {
  rc_index : Z;
  message : Message;
  rc_finish_reason : option string
}.

Record OpenAIResponse : Type := {
  r_id : string;
  r_object : string;
  r_created : Z;
  r_model : string;
  r_choices : list ResponseChoice;
  r_usage : OpenAIUsageWithDetails
}.

(** [anthropicResponse.usage?.f || 0]. *)
Definition usageField (f : AnthropicUsage -> option Z) (resp : AnthropicFullResponse) : Z :=
  match resp_usage resp with
  | Some u => Server.orZ (f u) 0
  | None => 0
  end.

(** [block.type === t]. *)
Definition blockType (b : ResponseBlock) (t : string) : bool :=
  match cb_type (block b) with Some s => String.eqb s t | None => false end.

(** [JSON.stringify(block.input || {})]. *)
Definition argumentsOf (input : option json) : string :=
  match input with
  | Some v => if truthy v then stringify None v else stringify None (JObj [])
  | None => stringify None (JObj [])
  end.

(** The body of [for (const block of anthropicResponse.content || [])], on
    [textContent] and [message.tool_calls]. *)
Definition blockStep (acc : string * list ToolCall) (b : ResponseBlock)
  : string * list ToolCall :=
  let '(textContent, tool_calls) := acc in
  if blockType b "text" then (textContent +:+ JS.template (cb_text (block b)), tool_calls)
  else if blockType b "tool_use" && JS.truthyOpt (cb_id (block b))
          && JS.truthyOpt (cb_name (block b)) then
    (textContent,
     tool_calls ++ [ {| call_id := JS.nullish (cb_id (block b)) "";
                        call_type := "function";
                        call_name := JS.nullish (cb_name (block b)) "";
                        call_arguments := argumentsOf (input b) |} ])
  else acc.

(** The finish reason of the response. *)
Definition finishReason (stop_reason : option string) : option string :=
  match stop_reason with
  | Some r =>
      if String.eqb r "end_turn" then Some "stop"
      else if String.eqb r "tool_use" then Some "tool_calls"
      else if JS.truthy r then Some r else None
  | None => None
  end.

(** [convertNonStreamingResponse(anthropicResponse, originalModel?)]. *)
Definition convertNonStreamingResponse (now : Z) (anthropicResponse : AnthropicFullResponse)
    (originalModel : option string) : OpenAIResponse :=
  let cachedTokens := usageField cache_read_input_tokens anthropicResponse in
  let '(textContent, tool_calls) :=
    fold_left blockStep (JS.nullish (resp_content anthropicResponse) []) ("", []) in
  {| r_id :=
       "chatcmpl-"
       +:+ JS.replaceFirst "msg_" ""
             (if JS.truthyOpt (resp_id anthropicResponse)
              then JS.nullish (resp_id anthropicResponse) ""
              else JS.showZ now);
     r_object := "chat.completion";
     r_created := createdAt now;
     r_model := JS.orElse originalModel
                  (JS.orElse (resp_model anthropicResponse) "claude-unknown");
     r_choices :=
       [ {| rc_index := 0;
            message :=
              {| message_role := "assistant";
                 message_content := if JS.truthy textContent then Some textContent else None;
                 message_tool_calls := tool_calls |};
            rc_finish_reason := finishReason (resp_stop_reason anthropicResponse) |} ];
     r_usage :=
       {| prompt_tokens := usageField input_tokens anthropicResponse;
          completion_tokens := usageField output_tokens anthropicResponse;
          total_tokens := usageField input_tokens anthropicResponse
                          + usageField output_tokens anthropicResponse;
          prompt_tokens_details := {| detail_tokens := cachedTokens; audio_tokens := 0 |};
          completion_tokens_details := {| detail_tokens := 0; audio_tokens := 0 |} |} |}.

(** *** Vocabulary *)

(** The text a block adds to the content, and the tool call it adds. *)
Definition textOf (b : ResponseBlock) : string :=
  if blockType b "text" then JS.template (cb_text (block b)) else "".

Definition toolCallOf (b : ResponseBlock) : option ToolCall :=
  if blockType b "text" then None
  else if blockType b "tool_use" then
    match cb_id (block b), cb_name (block b) with
    | Some i, Some n =>
        if JS.truthy i && JS.truthy n
        then Some {| call_id := i; call_type := "function"; call_name := n;
                     call_arguments := argumentsOf (input b) |}
        else None
    | _, _ => None
    end
  else None.

End NonStreaming.

(* ===================================================================== *)
(** ** thinking-cache.ts: writing to the memory cache *)
(* ===================================================================== *)

Module MemoryCache.
Import ThinkingCache.

Definition MAX_MEMORY_CACHE_SIZE : nat := 100.

(** The [Map] with its insertion order: the entries as
    [Array.from(memoryCache.entries())] lists them. In a [Map] each key
    occurs once. *)
Abbreviation Entries := (list (string * CachedThinkingBlock)).

(** [map.get(key)]. *)
Definition mapGet (key : string) (entries : Entries) : option CachedThinkingBlock :=
  Json.getProp key entries.

(** [map.set(key, value)]: a key that is present keeps its place. *)
Fixpoint mapSet (key : string) (value : CachedThinkingBlock) (entries : Entries) : Entries :=
  match entries with
  | [] => [(key, value)]
  | (k, v) :: rest =>
      if String.eqb k key then (k, value) :: rest else (k, v) :: mapSet key value rest
  end.

(** [map.delete(key)]. *)
Definition mapDelete (key : string) (entries : Entries) : Entries :=
  filter (fun e => String.eqb (fst e) key = false) entries.

(** The map as the look-ups of [getCachedThinkingBlock] see it. *)
Definition asMap (entries : Entries) : gmap string CachedThinkingBlock :=
  list_to_map entries.

(** [entries.sort((a, b) => a[1].timestamp - b[1].timestamp)]: ascending
    by timestamp; [Array.prototype.sort] is stable, entries with equal
    timestamps keep their order. *)
Fixpoint insertByTimestamp (e : string * CachedThinkingBlock) (sorted : Entries) : Entries :=
  match sorted with
  | [] => [e]
  | e' :: rest =>
      if timestamp (snd e) <=? timestamp (snd e') then e :: sorted
      else e' :: insertByTimestamp e rest
  end.

Definition sortByTimestamp (entries : Entries) : Entries :=
  foldr insertByTimestamp [] entries.

(** [cleanupMemoryCache()]. *)
Definition cleanupMemoryCache (memoryCache : Entries) : Entries :=
  if (MAX_MEMORY_CACHE_SIZE <? length memoryCache)%nat then
    let entries := sortByTimestamp memoryCache in
    let toRemove := take (length entries - MAX_MEMORY_CACHE_SIZE) entries in
    fold_left (fun m e => mapDelete (fst e) m) toRemove memoryCache
  else memoryCache.

(** [cacheThinkingBlock(assistantContent, thinkingBlock)] on the memory
    cache; [now] is the reading of [Date.now()]. The write to Redis that
    follows does not touch the memory cache. *)
Definition cacheThinkingBlock (now : Z) (memoryCache : Entries)
    (assistantContent : list ContentBlock) (thinkingBlock : ContentBlock) : Entries :=
  let nonThinking := nonThinkingContent assistantContent in
  match nonThinking with
  | [] => memoryCache
  | _ :: _ =>
      let key := generateCacheKey (BlockContent nonThinking) in
      let cacheData := {| thinkingBlock := thinkingBlock; timestamp := now |} in
      mapSet key cacheData (cleanupMemoryCache memoryCache)
  end.

(** The end of the stream handler of [messagesFn]: the captured thinking
    block is cached against the accumulated text. *)
Definition cacheAfterStream (now : Z) (memoryCache : Entries)
    (converterState : Converter.ConverterState) : Entries :=
  match Accessors.getThinkingBlockFromState converterState with
  | Some thinkingBlock =>
      let accumulatedText := Accessors.getAccumulatedText converterState in
      if JS.truthy accumulatedText
      then cacheThinkingBlock now memoryCache
             [thinkingBlock; textBlock accumulatedText] thinkingBlock
      else memoryCache
  | None => memoryCache
  end.

(** *** Vocabulary *)

(** The keys of the map. *)
Definition keys (entries : Entries) : list string := fst <$> entries.

End MemoryCache.

(* ===================================================================== *)
(** ** The server: the request body after the rewrite step *)
(* ===================================================================== *)

Module Rewrite.
Import ThinkingCache Server.

(** [body] after the assignments of the rewrite step to [body.messages],
    [body.system] and [body.max_tokens]. *)
Definition applyRewrite (rw : Rewritten) (body : AnthropicRequestBody)
  : AnthropicRequestBody :=
  {| body_model := body_model body;
     messages := rw_messages rw;
     system := rw_system rw;
     max_tokens := rw_max_tokens rw;
     stream := stream body;
     stop_sequences := stop_sequences body;
     stop := stop body;
     temperature := temperature body;
     top_p := top_p body;
     top_k := top_k body;
     metadata := metadata body;
     tools := tools body;
     tool_choice := tool_choice body |}.

End Rewrite.

(* ===================================================================== *)
(** ** auth/oauth-manager.ts *)
(* ===================================================================== *)

Module OAuth.

(** [interface OAuthCredentials]. *)
Record OAuthCredentials : Type := {
  cred_type : string;
  refresh : string;
  access : string;
  expires : Z
}.

(** [interface TokenResponse]. *)
Record TokenResponse : Type := {
  access_token : string;
  refresh_token : string;
  expires_in : Z
}.

Section Manager.

(** The token endpoint, asked with a refresh secret: [Some data] when the
    POST comes back ok and its body parses, [None] when [fetch] or
    [response.json()] throws or the response is not ok. *)
Variable tokenEndpoint : string -> option TokenResponse.

(** Whether [storage.set] goes through. *)
Variable storageWrites : bool.

(** [refreshToken(credentials)]: what [storage] holds under [AUTH_KEY]
    afterwards, and the returned token. [now] is the reading of
    [Date.now()]. *)
Definition refreshToken (now : Z) (stored : option OAuthCredentials)
    (credentials : OAuthCredentials) : option OAuthCredentials * option string :=
  match tokenEndpoint (refresh credentials) with
  | None => (stored, None)
  | Some data =>
      let newCredentials :=
        {| cred_type := "oauth";
           refresh := refresh_token data;
           access := access_token data;
           expires := now + expires_in data * 1000 |} in
      if storageWrites then (Some newCredentials, Some (access_token data))
      else (stored, None)
  end.

(** [getAccessToken()]. [stored] is what [get()] returns ([None] also when
    the read throws); [now] is the clock at the expiry check, [now'] the
    clock inside [refreshToken]. *)
Definition getAccessToken (now now' : Z) (stored : option OAuthCredentials)
  : option OAuthCredentials * option string :=
  match stored with
  | None => (stored, None)
  | Some credentials =>
      if negb (String.eqb (cred_type credentials) "oauth") then (stored, None)
      else if negb (expires credentials =? 0) && (now <? expires credentials)
      then (stored, Some (access credentials))
      else if JS.truthy (refresh credentials) then refreshToken now' stored credentials
      else (stored, None)
  end.

End Manager.

End OAuth.

(* ===================================================================== *)
(** ** Further scenarios *)
(* ===================================================================== *)

Module MoreScenarios.
Import Json ThinkingCache Converter Scenarios.

(** A stream with a thinking block before the text: the thinking text and
    the signature arrive as deltas. *)
Definition thinkingPayloads : list json :=
  [ typed "message_start"
      [("message", JObj [("id", JStr "msg_BBB"); ("model", JStr "claude-sonnet-4-5")])];
    typed "content_block_start"
      [("index", JNum 0);
       ("content_block", JObj [("type", JStr "thinking"); ("thinking", JStr "")])];
    typed "content_block_delta"
      [("index", JNum 0);
       ("delta", JObj [("type", JStr "thinking_delta"); ("thinking", JStr "Let me ")])];
    typed "content_block_delta"
      [("index", JNum 0);
       ("delta", JObj [("type", JStr "thinking_delta"); ("thinking", JStr "think.")])];
    typed "content_block_delta"
      [("index", JNum 0);
       ("delta", JObj [("type", JStr "signature_delta"); ("signature", JStr "SIG")])];
    typed "content_block_stop" [("index", JNum 0)];
    typed "content_block_start"
      [("index", JNum 1); ("content_block", JObj [("type", JStr "text"); ("text", JStr "")])];
    typed "content_block_delta"
      [("index", JNum 1); ("delta", JObj [("type", JStr "text_delta"); ("text", JStr "Hello")])];
    typed "content_block_stop" [("index", JNum 1)];
    typed "message_delta"
      [("delta", JObj [("stop_reason", JStr "end_turn")]);
       ("usage", JObj [("input_tokens", JNum 10); ("output_tokens", JNum 3)])];
    typed "message_stop" [] ].

(** The thinking part of that stream alone. *)
Definition thinkingOnlyPayloads : list json := take 5 (drop 1 thinkingPayloads).

(** The thinking part in two pieces, the cut inside a line. *)
Definition thinkingOnlyChunks : list (Z * string) :=
  [ (1700000000123, String.substring 0 50 (streamOf thinkingOnlyPayloads));
    (1700000000456, JS.substringFrom 50 (streamOf thinkingOnlyPayloads)) ].

(** That stream in two pieces, the cut inside a line. *)
Definition thinkingChunks : list (Z * string) :=
  [ (1700000000123, String.substring 0 200 (streamOf thinkingPayloads));
    (1700000000456, JS.substringFrom 200 (streamOf thinkingPayloads)) ].

(** The converter state at the end of that stream. *)
Definition stateAfterThinking : ConverterState :=
  fst (processChunks (parseKnown thinkingPayloads) (createConverterState clientModel)
         thinkingChunks).

(** A memory cache with [n] entries, cached at the times 1, 2, ..., [n]. *)
Definition filledCache (n : nat) : MemoryCache.Entries :=
  (fun i => (JS.showZ (Z.of_nat i),
             {| ThinkingCache.thinkingBlock := plan;
                ThinkingCache.timestamp := Z.of_nat i |})) <$> seq 1 n.

(** The first turn of a conversation with a thinking variant. *)
Definition firstTurnRequest : Server.AnthropicRequestBody :=
  {| Server.body_model := "claude-4-sonnet-high-thinking";
     Server.messages := Some [userSays "hi"];
     Server.system := None;
     Server.max_tokens := Some 1024;
     Server.stream := Some true;
     Server.stop_sequences := None;
     Server.stop := None;
     Server.temperature := None;
     Server.top_p := None;
     Server.top_k := None;
     Server.metadata := None;
     Server.tools := None;
     Server.tool_choice := None |}.

(** A complete response with a thinking block, a text and a tool call. *)
Definition fullResponse : NonStreaming.AnthropicFullResponse :=
  {| NonStreaming.resp_id := Some "msg_CCC";
     NonStreaming.resp_model := Some "claude-sonnet-4-5";
     NonStreaming.resp_content :=
       Some [ {| NonStreaming.block := readContentBlock [("type", JStr "thinking")];
                 NonStreaming.input := None |};
              {| NonStreaming.block :=
                   readContentBlock [("type", JStr "text"); ("text", JStr "Hello")];
                 NonStreaming.input := None |};
              {| NonStreaming.block :=
                   readContentBlock [("type", JStr "tool_use"); ("id", JStr "tu_1");
                                     ("name", JStr "search")];
                 NonStreaming.input := Some (JObj [("q", JStr "foo")]) |} ];
     NonStreaming.resp_stop_reason := Some "tool_use";
     NonStreaming.resp_usage :=
       Some (readUsage [("input_tokens", JNum 10); ("output_tokens", JNum 3)]) |}.

(** The end of a stream that stops for a tool call: the [message_delta]
    with the stop reason and the usage, and the [message_stop]. *)
Definition closingPayloads : list json :=
  [ typed "message_delta"
      [("delta", JObj [("stop_reason", JStr "tool_use")]);
       ("usage", JObj [("input_tokens", JNum 10); ("output_tokens", JNum 3)])];
    typed "message_stop" [] ].

(** Stored credentials that ran out at time 1000, and a token endpoint that
    answers the refresh secret "r1". *)
Definition staleCredentials : OAuth.OAuthCredentials :=
  {| OAuth.cred_type := "oauth"; OAuth.refresh := "r1"; OAuth.access := "a1";
     OAuth.expires := 1000 |}.

Definition endpoint (secret : string) : option OAuth.TokenResponse :=
  if String.eqb secret "r1"
  then Some {| OAuth.access_token := "a2"; OAuth.refresh_token := "r2";
               OAuth.expires_in := 3600 |}
  else None.

End MoreScenarios.

(* ===================================================================== *)
(** * Properties *)
(* ===================================================================== *)

(** ** Strings *)

Section StringFacts.

Lemma append_cons (c : ascii) (s t : string) : String c s +:+ t = String c (s +:+ t).
Proof. reflexivity. Qed.

Lemma append_nil_l (s : string) : "" +:+ s = s.
Proof. reflexivity. Qed.

Lemma append_nil_r (s : string) : s +:+ "" = s.
Proof. induction s as [|c s IH]; [done | by rewrite append_cons, IH]. Qed.

Lemma append_assoc (a b c : string) : (a +:+ b) +:+ c = a +:+ (b +:+ c).
Proof. induction a as [|x a IH]; [done | by rewrite !append_cons, IH]. Qed.

Lemma prefix_nil (s : string) : String.prefix "" s = true.
Proof. by destruct s. Qed.

Lemma substring_all (s : string) : String.substring 0 (String.length s) s = s.
Proof. induction s as [|c s IH]; [done |]. cbn. by rewrite IH. Qed.

Lemma substringFrom_0 (s : string) : JS.substringFrom 0 s = s.
Proof. unfold JS.substringFrom. rewrite Nat.sub_0_r. apply substring_all. Qed.

(** A prefix followed by the rest is the whole. *)
Lemma prefix_substringFrom (a : string) : forall d,
  String.prefix a d = true -> a +:+ JS.substringFrom (String.length a) d = d.
Proof.
  induction a as [|x a IH]; intros d Hp.
  - by rewrite append_nil_l, substringFrom_0.
  - destruct d as [|y d]; [done |]. cbn in Hp.
    destruct (ascii_dec x y) as [-> | ?]; [| done].
    rewrite append_cons. f_equal. rewrite <- (IH d Hp) at 2.
    unfold JS.substringFrom. done.
Qed.

(** *** Lines *)

Lemma split_nonempty (sep : ascii) (s : string) : JS.split sep s <> [].
Proof.
  destruct s as [|c s]; [done |]. cbn [JS.split].
  destruct (Ascii.eqb c sep); [done |]. by destruct (JS.split sep s).
Qed.

Lemma splitLines_scanLines (s : string) :
  JS.splitLines s = JS.completeLines s ++ [JS.fragment s].
Proof.
  unfold JS.splitLines, JS.completeLines, JS.fragment.
  induction s as [|c s IH]; [done |]. cbn [JS.split JS.scanLines].
  rewrite IH. destruct (JS.scanLines s) as [ls f]. cbn [fst snd].
  destruct (Ascii.eqb c JS.LF); [done |]. by destruct ls.
Qed.

Lemma scanLines_noLineFeed (s : string) :
  JS.noLineFeed s = true -> JS.scanLines s = ([], s).
Proof.
  induction s as [|c s IH]; [done |]. cbn [JS.noLineFeed JS.scanLines].
  intros [Hc Hs]%andb_prop. rewrite (IH Hs).
  apply negb_true_iff in Hc. by rewrite Hc.
Qed.

Lemma noLineFeed_fragment (s : string) : JS.noLineFeed (JS.fragment s) = true.
Proof.
  unfold JS.fragment. induction s as [|c s IH]; [done |]. cbn [JS.scanLines].
  destruct (JS.scanLines s) as [ls f]. cbn [snd] in *.
  destruct (Ascii.eqb c JS.LF) eqn:Ec; [done |].
  destruct ls; [| done]. cbn [snd JS.noLineFeed]. by rewrite Ec, IH.
Qed.

(** Cutting a text that comes in two pieces: the lines of the first piece,
    then the lines of what was left over followed by the second piece. *)
Lemma scanLines_app (a b : string) :
  JS.completeLines (a +:+ b)
  = JS.completeLines a ++ JS.completeLines (JS.fragment a +:+ b)
  /\ JS.fragment (a +:+ b) = JS.fragment (JS.fragment a +:+ b).
Proof.
  unfold JS.completeLines, JS.fragment.
  induction a as [|c a IH]; [done |].
  rewrite append_cons. cbn [JS.scanLines].
  destruct (JS.scanLines (a +:+ b)) as [lsab fab].
  destruct (JS.scanLines a) as [lsa fa]. cbn [fst snd] in *.
  destruct IH as [IH1 IH2]. subst lsab fab.
  destruct (Ascii.eqb c JS.LF) eqn:Ec; [done |].
  destruct lsa as [|l lsa]; cbn [fst snd app].
  - rewrite append_cons. cbn [JS.scanLines].
    destruct (JS.scanLines (fa +:+ b)) as [ls f]. cbn [fst snd]. rewrite Ec.
    by destruct ls.
  - done.
Qed.

Lemma endsWith_LF_single (c : ascii) :
  JS.endsWith (String c "") (JS.str JS.LF) = Ascii.eqb c JS.LF.
Proof.
  unfold JS.endsWith, JS.str. cbn. by destruct (Ascii.eqb c JS.LF).
Qed.

Lemma endsWith_LF_cons (c x : ascii) (s : string) :
  JS.endsWith (String c (String x s)) (JS.str JS.LF)
  = JS.endsWith (String x s) (JS.str JS.LF).
Proof.
  unfold JS.endsWith, JS.str.
  cbn [String.length Nat.leb]. rewrite !Nat.sub_succ, !Nat.sub_0_r. done.
Qed.

(** A text that ends with a line feed leaves no fragment. *)
Lemma endsWith_LF_fragment (s : string) :
  JS.endsWith s (JS.str JS.LF) = true ->
  JS.fragment s = "" /\ JS.completeLines s <> [].
Proof.
  unfold JS.fragment, JS.completeLines.
  induction s as [|c s IH]; [done |].
  destruct s as [|x s].
  - rewrite (endsWith_LF_single c). cbn [JS.scanLines]. by intros ->.
  - rewrite endsWith_LF_cons. intros H. specialize (IH H).
    change (JS.scanLines (String c (String x s)))
      with (let '(ls, f) := JS.scanLines (String x s) in
            if Ascii.eqb c JS.LF then (EmptyString :: ls, f)
            else match ls with
                 | [] => ([], String c f)
                 | l :: ls' => (String c l :: ls', f)
                 end).
    destruct (JS.scanLines (String x s)) as [ls f]. cbn [fst snd] in *.
    destruct IH as [-> Hls].
    destruct (Ascii.eqb c JS.LF); [done |]. by destruct ls.
Qed.

End StringFacts.

(** ** The cache key *)

Module ThinkingCacheFacts.
Import Json ThinkingCache.

Lemma omap_blockPart_thinking (t : ContentBlock) (c : list ContentBlock) :
  isThinkingBlock t = true -> omap blockPart (t :: c) = omap blockPart c.
Proof. intros Ht. cbn [omap list_omap]. unfold blockPart at 1. by rewrite Ht. Qed.

Lemma omap_blockPart_nonThinking (c : list ContentBlock) :
  omap blockPart (nonThinkingContent c) = omap blockPart c.
Proof.
  unfold nonThinkingContent.
  induction c as [|b c IH]; [done |].
  rewrite filter_cons. destruct (decide (isThinkingBlock b = false)) as [Hb | Hb].
  - cbn [omap list_omap]. by rewrite IH.
  - apply not_false_is_true in Hb. rewrite (omap_blockPart_thinking _ _ Hb). exact IH.
Qed.

(** The key depends on the content through [textContentOf] alone. *)
Lemma generateCacheKey_text (c1 c2 : MessageContent) :
  textContentOf c1 = textContentOf c2 -> generateCacheKey c1 = generateCacheKey c2.
Proof. unfold generateCacheKey. by intros ->. Qed.









(** *** The text of a tool input *)

Lemma filter_all {A} (P : A -> Prop) `{forall x, Decision (P x)} (l : list A) :
  Forall P l -> filter P l = l.
Proof.
  induction 1 as [|x l Hx Hl IH]; [done |]. by rewrite filter_cons_True, IH.
Qed.




























(** ** The injection *)

Section Injection.

Variable redisGet : string -> option CachedThinkingBlock.

Abbreviation lookupIn mem c := (snd (getCachedThinkingBlock redisGet mem c)).

(** The look-ups of one injection back-fill the memory cache; no look-up
    changes what a later look-up returns. *)
Definition agrees (mem mem' : gmap string CachedThinkingBlock) : Prop :=
  forall c, lookupIn mem' c = lookupIn mem c.

Lemma agrees_refl mem : agrees mem mem.
Proof. by intros c. Qed.

Lemma agrees_trans mem1 mem2 mem3 :
  agrees mem1 mem2 -> agrees mem2 mem3 -> agrees mem1 mem3.
Proof. intros H12 H23 c. by rewrite H23, H12. Qed.

Lemma getCachedThinkingBlock_agrees mem c :
  agrees mem (fst (getCachedThinkingBlock redisGet mem c)).
Proof.
  intros c'. unfold getCachedThinkingBlock at 2.
  destruct (mem !! generateCacheKey c) as [e|] eqn:Em; [done |].
  destruct (redisGet (CACHE_KEY_PREFIX +:+ generateCacheKey c)) as [parsed|] eqn:Er;
    [| done].
  cbn [fst]. unfold getCachedThinkingBlock.
  destruct (decide (generateCacheKey c = generateCacheKey c')) as [Heq | Hne].
  - rewrite <- Heq, lookup_insert_eq, Em, Er. done.
  - rewrite lookup_insert_ne by done.
    destruct (mem !! generateCacheKey c'); [done |].
    by destruct (redisGet (CACHE_KEY_PREFIX +:+ generateCacheKey c')).
Qed.

(** What one visit does, by its outcome. *)
Lemma visitMessage_spec mem msg :
  let '(mem', msg', v) := visitMessage redisGet mem msg in
  agrees mem mem' /\
  match v with
  | Skipped => msg' = msg /\ lacksThinking msg = false
  | Hit => lacksThinking msg = true /\
           exists cached, cachedFor redisGet mem msg = Some cached /\
                          prepended cached msg msg'
  | Miss => msg' = msg /\ lacksThinking msg = true /\ cachedFor redisGet mem msg = None
  end.
Proof.
  unfold visitMessage, lacksThinking, isAssistant, hasThinking, cachedFor.
  destruct (String.eqb (role msg) "assistant") eqn:Er; cbn [negb].
  2: { split; [apply agrees_refl | done]. }
  pose proof (getCachedThinkingBlock_agrees mem (content msg)) as Hag.
  destruct (content msg) as [s | blocks] eqn:Ec.
  - destruct (getCachedThinkingBlock redisGet mem (TextContent s)) as [mem' [cached|]];
      cbn [fst snd] in *; (split; [exact Hag |]).
    + split; [done |]. exists cached. split; [done |].
      unfold prepended. cbn. by rewrite Ec.
    + done.
  - destruct (existsb isThinkingBlock blocks) eqn:Eb.
    { split; [apply agrees_refl | done]. }
    destruct (getCachedThinkingBlock redisGet mem (BlockContent blocks))
      as [mem' [cached|]]; cbn [fst snd] in *; (split; [exact Hag |]).
    + split; [done |]. exists cached. split; [done |].
      unfold prepended. cbn. by rewrite Ec.
    + done.
Qed.

Lemma countHits_cons mem m ms :
  countHits redisGet mem (m :: ms)
  = ((if decide (lacksThinking m = true /\ is_Some (cachedFor redisGet mem m))
      then 1 else 0) + countHits redisGet mem ms)%nat.
Proof. unfold countHits. rewrite filter_cons. by case_decide. Qed.

Lemma countMisses_cons mem m ms :
  countMisses redisGet mem (m :: ms)
  = ((if decide (lacksThinking m = true /\ cachedFor redisGet mem m = None)
      then 1 else 0) + countMisses redisGet mem ms)%nat.
Proof. unfold countMisses. rewrite filter_cons. by case_decide. Qed.

Lemma countGained_cons m m' ms ms' :
  countGained (m :: ms) (m' :: ms')
  = ((if gainedBlock m m' then 1 else 0) + countGained ms ms')%nat.
Proof.
  unfold countGained. cbn [zip zip_with]. rewrite filter_cons. cbn [fst snd].
  case_decide as Hg; destruct (gainedBlock m m'); done.
Qed.

Lemma gainedBlock_same m : gainedBlock m m = false.
Proof.
  unfold gainedBlock. destruct (content m) as [s | blocks]; [done |].
  apply Nat.eqb_neq. lia.
Qed.

Lemma gainedBlock_prepended cached m m' : prepended cached m m' -> gainedBlock m m' = true.
Proof.
  unfold prepended, gainedBlock. intros [_ Hc].
  destruct (content m) as [s | blocks]; rewrite Hc; [done |].
  apply Nat.eqb_eq. done.
Qed.

Lemma hasThinking_prepended cached m m' :
  isThinkingBlock cached = true -> prepended cached m m' -> hasThinking m' = true.
Proof.
  unfold prepended, hasThinking. intros Ht [_ Hc].
  destruct (content m); rewrite Hc; cbn [existsb]; by rewrite Ht.
Qed.

Lemma settled_lacksThinking msg : settled msg = negb (lacksThinking msg).
Proof. unfold settled, lacksThinking. by destruct (isAssistant msg), (hasThinking msg). Qed.

(** The loop with both counters, started anywhere: the frame, the two
    counts, and the messages that still lack a thinking block. *)
Lemma injectCounting_spec mem0 msgs : forall mem i j,
  agrees mem0 mem ->
  let '(mem', msgs', (i', j')) := injectCounting redisGet mem msgs i j in
  agrees mem0 mem'
  /\ Forall2 (framed redisGet mem0) msgs msgs'
  /\ i' = i + Z.of_nat (countHits redisGet mem0 msgs)
  /\ j' = j + Z.of_nat (countMisses redisGet mem0 msgs)
  /\ countGained msgs msgs' = countHits redisGet mem0 msgs
  /\ (holdsThinkingOnly redisGet mem0 ->
      (forallb settled msgs' = true <-> countMisses redisGet mem0 msgs = 0%nat)).
Proof.
  induction msgs as [|m ms IH]; intros mem i j Hag; cbn [injectCounting].
  { unfold countHits, countMisses, countGained. cbn.
    repeat split; try done; try lia. }
  pose proof (visitMessage_spec mem m) as Hv.
  destruct (visitMessage redisGet mem m) as [[mem1 m'] v].
  destruct Hv as [Hag1 Hv].
  assert (Hc : cachedFor redisGet mem0 m = cachedFor redisGet mem m)
    by (unfold cachedFor; symmetry; apply Hag).
  rewrite <- Hc in Hv. clear Hc.
  assert (Hag01 : agrees mem0 mem1) by (eapply agrees_trans; eassumption).
  rewrite countHits_cons, countMisses_cons.
  destruct v.
  - (* Skipped *)
    destruct Hv as [-> Hl].
    specialize (IH mem1 i j Hag01).
    destruct (injectCounting redisGet mem1 ms i j) as [[mem2 ms'] [i' j']].
    destruct IH as (Hag2 & Hfr & Hi & Hj & Hg & Hcan).
    rewrite countGained_cons, gainedBlock_same.
    rewrite !decide_False by (rewrite Hl; intros [? _]; done).
    split; [done |]. split.
    { constructor; [| done]. repeat split; auto. }
    split; [lia |]. split; [lia |]. split; [by rewrite Hg |].
    intros Hwf. cbn [forallb]. rewrite settled_lacksThinking, Hl. by apply Hcan.
  - (* Hit *)
    destruct Hv as (Hl & cached & Hcached & Hpre).
    specialize (IH mem1 (i + 1) j Hag01).
    destruct (injectCounting redisGet mem1 ms (i + 1) j) as [[mem2 ms'] [i' j']].
    destruct IH as (Hag2 & Hfr & Hi & Hj & Hg & Hcan).
    rewrite countGained_cons, (gainedBlock_prepended _ _ _ Hpre).
    rewrite decide_True by (split; [done | by rewrite Hcached]).
    rewrite decide_False by (rewrite Hcached; intros [_ ?]; done).
    apply andb_prop in Hl as Hl'. destruct Hl' as [Ha Hn%negb_true_iff].
    split; [done |]. split.
    { constructor; [| done]. repeat split; try congruence. right. by exists cached. }
    split; [lia |]. split; [lia |]. split; [by rewrite Hg |].
    intros Hwf. cbn [forallb].
    assert (Hth : settled m' = true).
    { unfold settled.
      rewrite (hasThinking_prepended cached m m'); [apply orb_true_r | | done].
      eapply Hwf. exact Hcached. }
    rewrite Hth. by apply Hcan.
  - (* Miss *)
    destruct Hv as (-> & Hl & Hnone).
    specialize (IH mem1 i (j + 1) Hag01).
    destruct (injectCounting redisGet mem1 ms i (j + 1)) as [[mem2 ms'] [i' j']].
    destruct IH as (Hag2 & Hfr & Hi & Hj & Hg & Hcan).
    rewrite countGained_cons, gainedBlock_same.
    rewrite decide_False by (rewrite Hnone; intros [_ [? ?]]; done).
    rewrite decide_True by done.
    apply andb_prop in Hl as Hl'. destruct Hl' as [Ha Hn%negb_true_iff].
    split; [done |]. split.
    { constructor; [| done]. repeat split; try congruence. by left. }
    split; [lia |]. split; [lia |]. split; [by rewrite Hg |].
    intros Hwf. cbn [forallb]. rewrite settled_lacksThinking, Hl. done.
Qed.

(** The source loop is the counting loop without the second counter. *)
Lemma injectLoop_counting msgs : forall mem i j,
  injectLoop redisGet mem msgs i
  = let '(mem', msgs', (i', _)) := injectCounting redisGet mem msgs i j in
    (mem', msgs', i').
Proof.
  induction msgs as [|m ms IH]; intros mem i j; cbn [injectLoop injectCounting]; [done |].
  destruct (visitMessage redisGet mem m) as [[mem1 m'] v].
  destruct v.
  - rewrite (IH mem1 i j).
    by destruct (injectCounting redisGet mem1 ms i j) as [[? ?] [? ?]].
  - rewrite (IH mem1 (i + 1) j).
    by destruct (injectCounting redisGet mem1 ms (i + 1) j) as [[? ?] [? ?]].
  - rewrite (IH mem1 i (j + 1)).
    by destruct (injectCounting redisGet mem1 ms i (j + 1)) as [[? ?] [? ?]].
Qed.

(** C10 (frame of the injection). [injectCachedThinkingBlocks] leaves every
    message whose role is not assistant unchanged, leaves every assistant
    message that already contains a thinking or redacted_thinking block
    unchanged, and a message it does change keeps its role and gets
    exactly one block, the cached block for its content, in front of its
    existing blocks, which stay in order; a string content becomes the
    two-element list of the cached block and the text block of the
    string. *)
Theorem injection_frame (memoryCache : gmap string CachedThinkingBlock)
    (messages : list AnthropicMessage) :
  let '(_, messages', _) := injectCachedThinkingBlocks redisGet memoryCache messages in
  Forall2 (framed redisGet memoryCache) messages messages'.
Proof.
  unfold injectCachedThinkingBlocks.
  rewrite (injectLoop_counting messages memoryCache 0 0).
  pose proof (injectCounting_spec memoryCache messages memoryCache 0 0
                (agrees_refl memoryCache)) as H.
  destruct (injectCounting redisGet memoryCache messages 0 0) as [[mem' msgs'] [i' j']].
  tauto.
Qed.

(** C2 (result of the injection). The injection returns the record
    [{injectedCount, missingCount, canUseThinking}]: [injectedCount] is the
    number of messages that received a block, which is the number of
    assistant messages without a thinking block that the cache knows;
    [missingCount] is the number of assistant messages without a thinking
    block that the cache does not know; [canUseThinking] is true iff every
    assistant message of the resulting list contains a thinking block.
    When the cache holds thinking blocks only, that is the case iff
    [missingCount] is 0. The messages and the injected count are those of
    [injectCachedThinkingBlocks] of thinking-cache.ts. *)
Theorem inject_result (memoryCache : gmap string CachedThinkingBlock)
    (messages : list AnthropicMessage) :
  let '(memoryCache', messages', r) := inject redisGet memoryCache messages in
  injectedCount r = Z.of_nat (countGained messages messages')
  /\ injectedCount r = Z.of_nat (countHits redisGet memoryCache messages)
  /\ missingCount r = Z.of_nat (countMisses redisGet memoryCache messages)
  /\ (canUseThinking r = true <->
      forall msg, msg ∈ messages' -> isAssistant msg = true -> hasThinking msg = true)
  /\ (holdsThinkingOnly redisGet memoryCache ->
      (canUseThinking r = true <-> missingCount r = 0))
  /\ injectCachedThinkingBlocks redisGet memoryCache messages
     = (memoryCache', messages', injectedCount r).
Proof.
  unfold inject, injectCachedThinkingBlocks.
  rewrite (injectLoop_counting messages memoryCache 0 0).
  pose proof (injectCounting_spec memoryCache messages memoryCache 0 0
                (agrees_refl memoryCache)) as H.
  destruct (injectCounting redisGet memoryCache messages 0 0) as [[mem' msgs'] [i' j']].
  destruct H as (_ & _ & Hi & Hj & Hg & Hcan). cbn [injectedCount missingCount canUseThinking].
  split; [lia |]. split; [lia |]. split; [lia |]. split; [| split; [| done]].
  - rewrite forallb_forall. split.
    + intros H msg Hin Ha. apply list_elem_of_In, H in Hin.
      unfold settled in Hin. rewrite Ha in Hin. exact Hin.
    + intros H msg Hin%list_elem_of_In. unfold settled.
      destruct (isAssistant msg) eqn:Ha; [| done]. by apply H.
  - intros Hwf. rewrite (Hcan Hwf). lia.
Qed.

End Injection.

Import Scenarios.

Lemma holdsThinkingOnly_memoryWithFirst : holdsThinkingOnly noRedis memoryWithFirst.
Proof.
  intros c cached. unfold getCachedThinkingBlock, noRedis, memoryWithFirst.
  destruct (_ !! generateCacheKey c) as [e|] eqn:E; [| done].
  apply lookup_singleton_Some in E as [_ <-]. by intros [= <-].
Qed.

(** With the first assistant turn cached and the second not, one block is
    injected, one is missing, and thinking cannot be used. *)
Lemma inject_result_witness :
  let r := snd (inject noRedis memoryWithFirst history) in
  injectedCount r = 1 /\ missingCount r = 1 /\ canUseThinking r = false
  /\ (canUseThinking r = true <-> missingCount r = 0).
Proof.
  pose proof (inject_result noRedis memoryWithFirst history) as H.
  destruct (inject noRedis memoryWithFirst history) as [[mem' msgs'] r] eqn:E.
  destruct H as (_ & Hi & Hm & _ & Hwf & _).
  cbn [snd]. split; [| split; [| split]].
  - rewrite Hi. by vm_compute.
  - rewrite Hm. by vm_compute.
  - apply (f_equal (fun x => canUseThinking (snd x))) in E. cbn [snd] in E.
    rewrite <- E. by vm_compute.
  - exact (Hwf holdsThinkingOnly_memoryWithFirst).
Defined.

End ThinkingCacheFacts.

(** ** Model variants and the pipeline *)

Module ServerFacts.
Import Json ThinkingCache Server.

(** *** Normalisation is idempotent *)

Lemma lowerChar_idem (c : ascii) : JS.lowerChar (JS.lowerChar c) = JS.lowerChar c.
Proof. destruct c as [[] [] [] [] [] [] [] []]; reflexivity. Qed.

Lemma isWhiteSpace_lowerChar (c : ascii) :
  JS.isWhiteSpace (JS.lowerChar c) = JS.isWhiteSpace c.
Proof. destruct c as [[] [] [] [] [] [] [] []]; reflexivity. Qed.

Lemma toLowerCase_idem (s : string) : JS.toLowerCase (JS.toLowerCase s) = JS.toLowerCase s.
Proof.
  induction s as [|c s IH]; [done |]. cbn [JS.toLowerCase].
  by rewrite lowerChar_idem, IH.
Qed.

Lemma toLowerCase_trimStart (s : string) :
  JS.toLowerCase (JS.trimStart s) = JS.trimStart (JS.toLowerCase s).
Proof.
  induction s as [|c s IH]; [done |]. cbn [JS.toLowerCase JS.trimStart].
  rewrite isWhiteSpace_lowerChar. by destruct (JS.isWhiteSpace c).
Qed.

Lemma isEmpty_toLowerCase (s : string) : JS.isEmpty (JS.toLowerCase s) = JS.isEmpty s.
Proof. by destruct s. Qed.

Lemma toLowerCase_trimEnd (s : string) :
  JS.toLowerCase (JS.trimEnd s) = JS.trimEnd (JS.toLowerCase s).
Proof.
  induction s as [|c s IH]; [done |]. cbn [JS.toLowerCase JS.trimEnd].
  rewrite isWhiteSpace_lowerChar, <- IH, isEmpty_toLowerCase.
  by destruct (JS.isWhiteSpace c && JS.isEmpty (JS.trimEnd s)).
Qed.

Lemma trimEnd_idem (s : string) : JS.trimEnd (JS.trimEnd s) = JS.trimEnd s.
Proof.
  induction s as [|c s IH]; [done |]. cbn [JS.trimEnd].
  destruct (JS.isWhiteSpace c && JS.isEmpty (JS.trimEnd s)) eqn:E; [done |].
  cbn [JS.trimEnd]. by rewrite IH, E.
Qed.

Lemma startsVisible_trimStart (s : string) : JS.startsVisible (JS.trimStart s).
Proof.
  induction s as [|c s IH]; [done |]. cbn [JS.trimStart].
  by destruct (JS.isWhiteSpace c) eqn:E.
Qed.

Lemma startsVisible_trimEnd (s : string) : JS.startsVisible s -> JS.startsVisible (JS.trimEnd s).
Proof.
  destruct s as [|c s]; [done |]. cbn [JS.trimEnd JS.startsVisible].
  intros H. rewrite H. exact H.
Qed.

Lemma trimStart_startsVisible (s : string) : JS.startsVisible s -> JS.trimStart s = s.
Proof. destruct s as [|c s]; [done |]. cbn [JS.trimStart JS.startsVisible]. by intros ->. Qed.

Lemma trim_idem (s : string) : JS.trim (JS.trim s) = JS.trim s.
Proof.
  unfold JS.trim.
  rewrite (trimStart_startsVisible (JS.trimEnd (JS.trimStart s))).
  - apply trimEnd_idem.
  - apply startsVisible_trimEnd, startsVisible_trimStart.
Qed.

Lemma normalizeModel_idem (m : string) :
  normalizeModel (normalizeModel m) = normalizeModel m.
Proof.
  unfold normalizeModel, JS.trim.
  rewrite toLowerCase_trimEnd, toLowerCase_trimStart, toLowerCase_idem.
  apply trim_idem.
Qed.

(** C8, as the code has it (case-insensitive resolution). For every client
    model string, [resolveModelVariant] returns the same max_tokens and the
    same thinking configuration as for the lowercased, trimmed string, and
    the same upstream model when the normalised string is a key of the
    variant table or contains "thinking"; in the other (pass-through) cases
    the upstream model is the client string as it was given, and that of
    the normalised string is the normalised string. [originalModel] is the
    string given, unmodified. *)
Theorem resolveModelVariant_normalized (m : string) :
  let r := resolveModelVariant m in
  let r' := resolveModelVariant (normalizeModel m) in
  maxTokens (config r) = maxTokens (config r')
  /\ thinking (config r) = thinking (config r')
  /\ originalModel r = m
  /\ originalModel r' = normalizeModel m
  /\ (resolvedByName m -> model (config r) = model (config r'))
  /\ (~ resolvedByName m ->
      model (config r) = m /\ model (config r') = normalizeModel m
      /\ maxTokens (config r) = 8192 /\ thinking (config r) = None).
Proof.
  unfold resolvedByName, resolveModelVariant. rewrite normalizeModel_idem.
  destruct (lookupVariant MODEL_VARIANTS (normalizeModel m)) as [cfg|] eqn:El.
  { cbn. do 5 (split; [done |]). intros Hn. exfalso. apply Hn. left. by eexists. }
  destruct (JS.includes (normalizeModel m) "thinking") eqn:Et.
  { cbn. do 5 (split; [done |]). intros Hn. exfalso. apply Hn. by right. }
  destruct (JS.startsWith (normalizeModel m) "claude-"); cbn;
    (do 4 (split; [done |]); split; [intros [[? [=]] | [=]] | done]).
Qed.

Lemma resolveModelVariant_normalized_witness :
  model (config (resolveModelVariant "Claude-4-Opus-High"))
  = model (config (resolveModelVariant (normalizeModel "Claude-4-Opus-High")))
  /\ model (config (resolveModelVariant "CLAUDE-OPUS-4-5")) = "CLAUDE-OPUS-4-5".
Proof.
  split.
  - apply (resolveModelVariant_normalized "Claude-4-Opus-High").
    left. eexists. vm_compute. reflexivity.
  - apply (resolveModelVariant_normalized "CLAUDE-OPUS-4-5").
    intros [[? H] | H]; vm_compute in H; discriminate.
Defined.

(** C8 as stated fails: the mixed-case name "CLAUDE-OPUS-4-5" normalises to
    "claude-opus-4-5", yet the two do not resolve to the same upstream
    model: each is passed through as it was given. *)
Lemma resolveModelVariant_mixed_case_counterexample :
  normalizeModel "CLAUDE-OPUS-4-5" = "claude-opus-4-5"
  /\ resolveModelVariant "CLAUDE-OPUS-4-5"
     = {| config := mkVariant "CLAUDE-OPUS-4-5" 8192 None;
          originalModel := "CLAUDE-OPUS-4-5" |}
  /\ resolveModelVariant "claude-opus-4-5"
     = {| config := mkVariant "claude-opus-4-5" 8192 None;
          originalModel := "claude-opus-4-5" |}
  /\ model (config (resolveModelVariant "CLAUDE-OPUS-4-5"))
     <> model (config (resolveModelVariant (normalizeModel "CLAUDE-OPUS-4-5"))).
Proof. repeat split; by vm_compute. Qed.

(** *** The downgrade *)

Lemma lookupVariant_elem_of entries n cfg :
  lookupVariant entries n = Some cfg -> exists key, (key, cfg) ∈ entries.
Proof.
  induction entries as [|[k c] es IH]; [done |]. cbn [lookupVariant].
  destruct (String.eqb (JS.toLowerCase k) n).
  - intros [= ->]. exists k. apply elem_of_cons. by left.
  - intros [key Hin]%IH. exists key. apply elem_of_cons. by right.
Qed.

Lemma MODEL_VARIANTS_isClaude :
  Forall (fun e => isClaudeModel (model (snd e)) = true) MODEL_VARIANTS.
Proof. repeat constructor. Qed.

(** A variant with thinking enabled names a Claude model, so the selective
    gateway lets it through. *)
Lemma thinking_variant_isClaude (m : string) (tc : ThinkingConfig) :
  thinking (config (resolveModelVariant m)) = Some tc ->
  isClaudeModel (model (config (resolveModelVariant m))) = true.
Proof.
  unfold resolveModelVariant.
  destruct (lookupVariant MODEL_VARIANTS (normalizeModel m)) as [cfg|] eqn:El.
  { intros _. apply lookupVariant_elem_of in El as [key Hin]. cbn [config].
    pose proof MODEL_VARIANTS_isClaude as HF. rewrite Forall_forall in HF.
    exact (HF (key, cfg) Hin). }
  destruct (JS.includes (normalizeModel m) "thinking").
  { intros _. cbn [config].
    destruct (JS.includes (normalizeModel m) "opus"); [reflexivity |].
    destruct (JS.includes (normalizeModel m) "haiku"); reflexivity. }
  by destruct (JS.startsWith (normalizeModel m) "claude-").
Qed.

Section Downgrade.

Variable API_KEY : option string.
Variable isCursorKeyCheck : AnthropicRequestBody -> bool.
Variable oauthToken : option string.
Variable injectCachedThinkingBlocks :
  list AnthropicMessage -> list AnthropicMessage * InjectResult.

(** C3 (thinking downgrade). Take a request that passes the gates before
    the upstream call (the API key matches if one is configured, it is
    not a key check, an access token is available), whose resolved
    variant enables thinking and whose upstream message list is not
    empty. If the injection reports [canUseThinking = false], the handler
    still dispatches to the upstream, with no error reply; the body it
    sends has no thinking parameter, its temperature is the client's
    original temperature, and the anthropic-beta header is the three base
    features without the interleaved-thinking entry. *)
Theorem thinking_downgrade (path : string) (authorization : option string)
    (body : AnthropicRequestBody) (tc : ThinkingConfig)
    (m : AnthropicMessage) (ms : list AnthropicMessage) :
  JS.truthyOpt API_KEY = false \/ apiKeyOf authorization = API_KEY ->
  isCursorKeyCheck body = false ->
  JS.truthyOpt oauthToken = true ->
  thinking (config (resolveModelVariant (body_model body))) = Some tc ->
  rw_messages (rewriteBody path (config (resolveModelVariant (body_model body))) body)
  = Some (m :: ms) ->
  canUseThinking (snd (injectCachedThinkingBlocks (m :: ms))) = false ->
  exists headers anthropicBody transform,
    messagesFn API_KEY isCursorKeyCheck oauthToken injectCachedThinkingBlocks
      path authorization body
    = Dispatch headers anthropicBody false transform
    /\ up_thinking anthropicBody = None
    /\ up_temperature anthropicBody = temperature body
    /\ headers !! "anthropic-beta"
       = Some "oauth-2025-04-20,fine-grained-tool-streaming-2025-05-14,prompt-caching-2024-07-31"
    /\ up_messages anthropicBody = Some (fst (injectCachedThinkingBlocks (m :: ms))).
Proof.
  intros Hkey Hnot Htok Hth Hmsgs Hinj. unfold messagesFn.
  assert (Hgate : JS.truthyOpt API_KEY
                  && negb (bool_decide (apiKeyOf authorization = API_KEY)) = false).
  { destruct Hkey as [-> | ->]; [done |].
    rewrite bool_decide_eq_true_2 by done. apply andb_false_r. }
  rewrite Hgate, (thinking_variant_isClaude _ _ Hth), Hnot, Htok, Hmsgs, Hth.
  cbn [negb andb enabled].
  destruct (injectCachedThinkingBlocks (m :: ms)) as [injected r].
  cbn [snd fst] in *. rewrite Hinj. cbn [negb].
  do 3 eexists. split; [reflexivity |].
  split; [done |]. split; [done |]. split; [| done].
  rewrite lookup_insert_eq. f_equal.
Qed.

End Downgrade.

Import Scenarios.

(** The scenario of the specification: two assistant turns, the cache knows
    the first only; the variant enables thinking. The request goes upstream
    without thinking and with the client's temperature. *)
Lemma thinking_downgrade_witness :
  exists headers anthropicBody transform,
    messagesFn None (fun _ => false) (Some "token") (injectFrom memoryWithFirst)
      "/v1/chat/completions" None thinkingRequest
    = Dispatch headers anthropicBody false transform
    /\ up_thinking anthropicBody = None
    /\ up_temperature anthropicBody = Some (Q2Qc (QArith_base.Qmake 7 10))
    /\ headers !! "anthropic-beta"
       = Some "oauth-2025-04-20,fine-grained-tool-streaming-2025-05-14,prompt-caching-2024-07-31"
    /\ up_messages anthropicBody
       = Some (fst (injectFrom memoryWithFirst history)).
Proof.
  apply (thinking_downgrade None (fun _ => false) (Some "token")
           (injectFrom memoryWithFirst) "/v1/chat/completions" None thinkingRequest
           THINKING_CONFIG (userSays "hi")
           [assistantSays "Hello"; userSays "more"; assistantSays "Again"]).
  - by left.
  - reflexivity.
  - reflexivity.
  - by vm_compute.
  - by vm_compute.
  - by vm_compute.
Defined.

End ServerFacts.

(** ** The stream translator *)

Module ConverterFacts.
Import Converter.

Ltac proj_simpl :=
  cbn [toolCallsTracker metricsData lineBuffer thinkingBlock accumulatedText
       inThinkingBlock originalModel setToolCallsTracker setMetricsData setLineBuffer
       setThinkingBlock setAccumulatedText setInThinkingBlock fst snd] in *.

(** Case analysis along the conditions of the code, in the order met. *)
Ltac split_cases := repeat (case_match; proj_simpl; simplify_eq; try congruence).

(** *** The line buffer and the results array are only passed along *)

Lemma createUsageChunk_lineBuffer now b st :
  createUsageChunk now (setLineBuffer b st) = createUsageChunk now st.
Proof. reflexivity. Qed.

Lemma transformToOpenAI_lineBuffer now b st d :
  transformToOpenAI now (setLineBuffer b st) d
  = let '(st', r) := transformToOpenAI now st d in (setLineBuffer b st', r).
Proof. unfold transformToOpenAI. proj_simpl. split_cases; reflexivity. Qed.

(** [handleEvent] neither reads the line buffer nor what is already in
    [results]: it appends. *)
Lemma handleEvent_frame now d b st rs0 rs :
  handleEvent now d (setLineBuffer b st, rs0 ++ rs)
  = let '((st', rs'), c) := handleEvent now d (st, rs) in
    ((setLineBuffer b st', rs0 ++ rs'), c).
Proof.
  unfold handleEvent. proj_simpl.
  change (setMetricsData (updateMetrics (metricsData st) d) (setLineBuffer b st))
    with (setLineBuffer b (setMetricsData (updateMetrics (metricsData st) d) st)).
  rewrite transformToOpenAI_lineBuffer.
  split_cases; try reflexivity;
    rewrite ?createUsageChunk_lineBuffer in *; simplify_eq;
    by rewrite <- ?app_assoc.
Qed.

Lemma tryCatch_frame now d b st rs0 rs :
  fst (tryCatch (handleEvent now d (setLineBuffer b st, rs0 ++ rs)))
  = let '(st', rs') := fst (tryCatch (handleEvent now d (st, rs))) in
    (setLineBuffer b st', rs0 ++ rs').
Proof.
  rewrite handleEvent_frame.
  by destruct (handleEvent now d (st, rs)) as [[st' rs'] c].
Qed.

Lemma runEvents_frame now events : forall b st rs0 rs,
  runEvents now events (setLineBuffer b st, rs0 ++ rs)
  = let '(st', rs') := runEvents now events (st, rs) in (setLineBuffer b st', rs0 ++ rs').
Proof.
  induction events as [|d events IH]; intros b st rs0 rs; cbn [runEvents].
  - done.
  - rewrite tryCatch_frame.
    destruct (fst (tryCatch (handleEvent now d (st, rs)))) as [st1 rs1].
    apply IH.
Qed.

Lemma runEvents_app now ev1 ev2 h :
  runEvents now (ev1 ++ ev2) h = runEvents now ev2 (runEvents now ev1 h).
Proof. revert h. induction ev1 as [|d ev1 IH]; intros h; cbn [runEvents app]; [done | apply IH]. Qed.

Lemma setLineBuffer_twice b b' st :
  setLineBuffer b (setLineBuffer b' st) = setLineBuffer b st.
Proof. reflexivity. Qed.

Lemma setLineBuffer_same st : setLineBuffer (lineBuffer st) st = st.
Proof. by destruct st. Qed.

Lemma lineBuffer_runEvents now events : forall st rs,
  lineBuffer (fst (runEvents now events (st, rs))) = lineBuffer st.
Proof.
  intros st rs.
  pose proof (runEvents_frame now events (lineBuffer st) st [] rs) as H.
  rewrite setLineBuffer_same in H. cbn [app] in H.
  destruct (runEvents now events (st, rs)) as [st' rs']. cbn [fst].
  by injection H as ->.
Qed.

Section Lines.

Variable JSON_parse : string -> option AnthropicStreamEvent.

(** A line either hands its event to the dispatch or does nothing. *)
Lemma lineBody_eventOfLine now line h :
  lineBody JSON_parse now line h
  = match eventOfLine JSON_parse line with
    | Some data => tryCatch (handleEvent now data h)
    | None => (h, Completed)
    end.
Proof.
  unfold lineBody, eventOfLine, tryBlock.
  destruct (JS.isEmpty (JS.trim line)); [done |].
  destruct (JS.startsWith (JS.trim line) "event:"); [done |].
  destruct (JS.startsWith (JS.trim line) "data: " && JS.includes (JS.trim line) "{");
    [| done].
  by destruct (JSON_parse (JS.stripDataPrefix (JS.trim line))).
Qed.

Lemma lineBody_Completed now line h : snd (lineBody JSON_parse now line h) = Completed.
Proof. rewrite lineBody_eventOfLine. by destruct (eventOfLine JSON_parse line). Qed.

(** The loop over the lines is the dispatch on their events, and it
    always runs to its end. *)
Lemma forLines_runEvents now lines : forall h,
  forLines JSON_parse now lines h
  = (runEvents now (omap (eventOfLine JSON_parse) lines) h, Completed).
Proof.
  induction lines as [|line lines IH]; intros h; cbn [forLines]; [done |].
  rewrite lineBody_eventOfLine.
  destruct (eventOfLine JSON_parse line) as [data|] eqn:E;
    cbn [omap list_omap]; rewrite E.
  - unfold tryCatch at 1. cbn [runEvents]. apply IH.
  - apply IH.
Qed.

Lemma eventOfLine_empty : eventOfLine JSON_parse "" = None.
Proof. reflexivity. Qed.

(** [processChunk] in one equation: the buffer keeps the fragment after
    the last line feed, and the events of the terminated lines are
    dispatched in order. *)
Lemma processChunkRun_events now st chunk :
  processChunkRun JSON_parse now st chunk
  = (runEvents now (eventsOf JSON_parse (lineBuffer st +:+ chunk))
       (setLineBuffer (JS.fragment (lineBuffer st +:+ chunk)) st, []),
     Completed).
Proof.
  unfold processChunkRun, eventsOf.
  rewrite splitLines_scanLines.
  destruct (JS.endsWith (lineBuffer st +:+ chunk) (JS.str JS.LF)) eqn:Ee; cbn [negb].
  - apply endsWith_LF_fragment in Ee as [Ef _]. rewrite Ef.
    rewrite forLines_runEvents, omap_app. cbn [omap list_omap].
    rewrite eventOfLine_empty, app_nil_r. done.
  - rewrite last_snoc, removelast_last. rewrite forLines_runEvents. done.
Qed.

Lemma processChunk_events now st chunk :
  processChunk JSON_parse now st chunk
  = runEvents now (eventsOf JSON_parse (lineBuffer st +:+ chunk))
      (setLineBuffer (JS.fragment (lineBuffer st +:+ chunk)) st, []).
Proof. unfold processChunk. by rewrite processChunkRun_events. Qed.

Lemma lineBuffer_processChunk now st chunk :
  lineBuffer (fst (processChunk JSON_parse now st chunk))
  = JS.fragment (lineBuffer st +:+ chunk).
Proof. rewrite processChunk_events. apply lineBuffer_runEvents. Qed.

Lemma eventsOf_app a b :
  eventsOf JSON_parse (a +:+ b)
  = eventsOf JSON_parse a ++ eventsOf JSON_parse (JS.fragment a +:+ b).
Proof.
  unfold eventsOf. destruct (scanLines_app a b) as [-> _]. apply omap_app.
Qed.

(** Two calls in a row are one call on the two chunks put together. *)
Lemma processChunk_append now st c1 c2 :
  let '(st1, out1) := processChunk JSON_parse now st c1 in
  let '(st2, out2) := processChunk JSON_parse now st1 c2 in
  processChunk JSON_parse now st (c1 +:+ c2) = (st2, out1 ++ out2).
Proof.
  pose proof (lineBuffer_processChunk now st c1) as Hb.
  rewrite (processChunk_events now st (c1 +:+ c2)).
  rewrite (processChunk_events now st c1) in *.
  set (full1 := lineBuffer st +:+ c1) in *.
  destruct (runEvents now (eventsOf JSON_parse full1)
              (setLineBuffer (JS.fragment full1) st, [])) as [st1 out1] eqn:E1.
  cbn [fst] in Hb.
  rewrite (processChunk_events now st1 c2), Hb.
  rewrite <- append_assoc. fold full1.
  rewrite (eventsOf_app full1 c2), runEvents_app.
  destruct (scanLines_app full1 c2) as [_ ->].
  set (frag2 := JS.fragment (JS.fragment full1 +:+ c2)).
  pose proof (runEvents_frame now (eventsOf JSON_parse full1) frag2
                (setLineBuffer (JS.fragment full1) st) [] []) as H1.
  rewrite setLineBuffer_twice, E1 in H1. cbn [app] in H1. rewrite H1.
  pose proof (runEvents_frame now (eventsOf JSON_parse (JS.fragment full1 +:+ c2))
                frag2 (setLineBuffer frag2 st1) out1 []) as H2.
  rewrite setLineBuffer_twice, app_nil_r in H2. rewrite H2.
  pose proof (lineBuffer_runEvents now
                (eventsOf JSON_parse (JS.fragment full1 +:+ c2))
                (setLineBuffer frag2 st1) []) as H3.
  destruct (runEvents now _ (setLineBuffer frag2 st1, [])) as [st2 out2].
  cbn [fst lineBuffer setLineBuffer] in H3.
  by rewrite <- H3, setLineBuffer_same.
Qed.

(** *** The clock *)

Lemma processChunks_same_clock now chunks : forall st,
  JS.noLineFeed (lineBuffer st) = true ->
  processChunks JSON_parse st ((fun c => (now, c)) <$> chunks)
  = processChunk JSON_parse now st (JS.concatAll chunks).
Proof.
  induction chunks as [|c chunks IH]; intros st Hb.
  - cbn [fmap list_fmap processChunks JS.concatAll].
    rewrite processChunk_events, append_nil_r. unfold eventsOf, JS.completeLines, JS.fragment.
    rewrite (scanLines_noLineFeed _ Hb). cbn [fst snd omap list_omap runEvents].
    by rewrite setLineBuffer_same.
  - rewrite fmap_cons. cbn [processChunks JS.concatAll].
    pose proof (processChunk_append now st c (JS.concatAll chunks)) as Ha.
    pose proof (lineBuffer_processChunk now st c) as Hb1.
    destruct (processChunk JSON_parse now st c) as [st1 out1]. cbn [fst] in Hb1.
    rewrite IH by (rewrite Hb1; apply noLineFeed_fragment).
    destruct (processChunk JSON_parse now st1 (JS.concatAll chunks)) as [st2 out2].
    by rewrite Ha.
Qed.

End Lines.

Lemma chunkId_clock now1 now2 st :
  chunkId now1 st = chunkId now2 st
  \/ exists t1 t2, chunkId now1 st = "chatcmpl-" +:+ JS.showZ t1
                   /\ chunkId now2 st = "chatcmpl-" +:+ JS.showZ t2.
Proof.
  unfold chunkId, JS.orElse. destruct (openAIId (metricsData st)) as [i|].
  - destruct (JS.truthy i); [by left | right; eauto].
  - right; eauto.
Qed.

Lemma sameUpToClock_mkChunk i1 i2 now1 now2 m d fr u :
  (i1 = i2 \/ exists t1 t2, i1 = "chatcmpl-" +:+ JS.showZ t1
                            /\ i2 = "chatcmpl-" +:+ JS.showZ t2) ->
  sameUpToClock (Chunk (mkChunk i1 now1 m d fr u)) (Chunk (mkChunk i2 now2 m d fr u)).
Proof.
  intros H. unfold sameUpToClock, mkChunk. cbn [id object model choices usage].
  repeat (split; [reflexivity |]). exact H.
Qed.

Lemma transformToOpenAI_clock now1 now2 st d :
  fst (transformToOpenAI now1 st d) = fst (transformToOpenAI now2 st d)
  /\ sameReturn (snd (transformToOpenAI now1 st d)) (snd (transformToOpenAI now2 st d)).
Proof.
  unfold transformToOpenAI. proj_simpl.
  split_cases; cbn [fst snd sameReturn]; (split; [reflexivity |]);
    try done; apply sameUpToClock_mkChunk; try (by left); apply chunkId_clock.
Qed.

Lemma createUsageChunk_clock now1 now2 st :
  match createUsageChunk now1 st, createUsageChunk now2 st with
  | Some c1, Some c2 => sameUpToClock (Chunk c1) (Chunk c2)
  | None, None => True
  | _, _ => False
  end.
Proof.
  unfold createUsageChunk.
  destruct ((md_input_tokens (metricsData st) =? 0)
            && (md_output_tokens (metricsData st) =? 0)); [done |].
  apply sameUpToClock_mkChunk, chunkId_clock.
Qed.

Ltac solve_same :=
  repeat (apply Forall2_app;
          [| constructor; [first [assumption | exact I] | constructor]]);
  assumption.

(** The clock leaves no trace in the state, and in the results only the
    stamps. *)
Lemma handleEvent_clock now1 now2 d st rs1 rs2 :
  Forall2 sameUpToClock rs1 rs2 ->
  fst (fst (handleEvent now1 d (st, rs1))) = fst (fst (handleEvent now2 d (st, rs2)))
  /\ Forall2 sameUpToClock (snd (fst (handleEvent now1 d (st, rs1))))
                           (snd (fst (handleEvent now2 d (st, rs2)))).
Proof.
  intros Hrs. unfold handleEvent. proj_simpl.
  destruct (typeIs d "ping"); [done |].
  destruct (typeIs d "content_block_start"
            && (blockTypeIs d "thinking" || blockTypeIs d "redacted_thinking")).
  { by destruct (ev_content_block d). }
  destruct (typeIs d "content_block_delta" && JS.truthyOpt (deltaField delta_thinking d)).
  { by destruct (thinkingBlock st). }
  destruct (typeIs d "content_block_delta" && JS.truthyOpt (deltaField delta_signature d)).
  { by destruct (thinkingBlock st). }
  destruct (typeIs d "content_block_stop"); [done |].
  destruct (typeIs d "content_block_start" && blockTypeIs d "text"); [done |].
  set (st1 := setMetricsData (updateMetrics (metricsData st) d) st).
  destruct (transformToOpenAI_clock now1 now2 st1 d) as [Hst Hret].
  destruct (transformToOpenAI now1 st1 d) as [sa ra].
  destruct (transformToOpenAI now2 st1 d) as [sb rb].
  cbn [fst snd] in Hst, Hret. subst sb.
  destruct ra as [ea | [ca|]], rb as [eb | [cb|]]; cbn [sameReturn] in Hret; try done.
  - pose proof (createUsageChunk_clock now1 now2 sa) as Hu.
    destruct (typeIs d "message_stop"); cbn [fst snd].
    + destruct (createUsageChunk now1 sa), (createUsageChunk now2 sa);
        try (exfalso; exact Hu); (split; [reflexivity |]); solve_same.
    + split; [reflexivity |]. solve_same.
  - pose proof (createUsageChunk_clock now1 now2 sa) as Hu.
    destruct (typeIs d "message_stop"); cbn [fst snd]; [| done].
    destruct (createUsageChunk now1 sa), (createUsageChunk now2 sa);
      try (exfalso; exact Hu); (split; [reflexivity |]); solve_same.
Qed.

Lemma runEvents_clock now1 now2 events : forall st rs1 rs2,
  Forall2 sameUpToClock rs1 rs2 ->
  fst (runEvents now1 events (st, rs1)) = fst (runEvents now2 events (st, rs2))
  /\ Forall2 sameUpToClock (snd (runEvents now1 events (st, rs1)))
                           (snd (runEvents now2 events (st, rs2))).
Proof.
  induction events as [|d events IH]; intros st rs1 rs2 Hrs; cbn [runEvents]; [done |].
  unfold tryCatch. cbn [fst].
  destruct (handleEvent_clock now1 now2 d st rs1 rs2 Hrs) as [Hs Hr].
  destruct (handleEvent now1 d (st, rs1)) as [[sa ra] ca].
  destruct (handleEvent now2 d (st, rs2)) as [[sb rb] cb].
  cbn [fst snd] in *. subst sb. by apply IH.
Qed.

Section Clock.

Variable JSON_parse : string -> option AnthropicStreamEvent.

Lemma processChunk_clock now1 now2 st chunk :
  fst (processChunk JSON_parse now1 st chunk) = fst (processChunk JSON_parse now2 st chunk)
  /\ Forall2 sameUpToClock (snd (processChunk JSON_parse now1 st chunk))
                           (snd (processChunk JSON_parse now2 st chunk)).
Proof. rewrite !processChunk_events. apply runEvents_clock. constructor. Qed.

Lemma processChunks_clock now chunks : forall st,
  fst (processChunks JSON_parse st chunks)
  = fst (processChunks JSON_parse st ((fun c => (now, snd c)) <$> chunks))
  /\ Forall2 sameUpToClock
       (snd (processChunks JSON_parse st chunks))
       (snd (processChunks JSON_parse st ((fun c => (now, snd c)) <$> chunks))).
Proof.
  induction chunks as [|[t c] chunks IH]; intros st.
  - split; [done | constructor].
  - rewrite fmap_cons. cbn [processChunks snd].
    destruct (processChunk_clock t now st c) as [Hs Hr].
    destruct (processChunk JSON_parse t st c) as [sa ra].
    destruct (processChunk JSON_parse now st c) as [sb rb].
    cbn [fst snd] in Hs, Hr. subst sb.
    destruct (IH sa) as [Hs2 Hr2].
    destruct (processChunks JSON_parse sa chunks) as [s2 r2].
    destruct (processChunks JSON_parse sa _) as [s2' r2'].
    cbn [fst snd] in *. split; [done |]. by apply Forall2_app.
Qed.

End Clock.

Lemma scanLines_snoc_LF_noLineFeed (f : string) :
  JS.noLineFeed f = true -> JS.scanLines (f +:+ JS.str JS.LF) = ([f], "").
Proof.
  induction f as [|c f IH]; [done |]. cbn [JS.noLineFeed].
  intros [Hc Hf]%andb_prop. rewrite append_cons. cbn [JS.scanLines].
  rewrite (IH Hf). apply negb_true_iff in Hc. by rewrite Hc.
Qed.

Lemma fragment_snoc_LF (s : string) : JS.fragment (s +:+ JS.str JS.LF) = "".
Proof.
  destruct (scanLines_app s (JS.str JS.LF)) as [_ ->]. unfold JS.fragment at 1.
  by rewrite (scanLines_snoc_LF_noLineFeed _ (noLineFeed_fragment s)).
Qed.

Section ChunkBoundaries.

Variable JSON_parse : string -> option AnthropicStreamEvent.

(** A chunk without line feed, arriving on an empty buffer, is buffered
    whole and produces nothing. *)
Lemma processChunk_tail now st tail :
  lineBuffer st = "" -> JS.noLineFeed tail = true ->
  processChunk JSON_parse now st tail = (setLineBuffer tail st, []).
Proof.
  intros Hb Ht. rewrite processChunk_events, Hb, append_nil_l.
  unfold eventsOf, JS.completeLines, JS.fragment.
  by rewrite (scanLines_noLineFeed _ Ht).
Qed.

(** A stream in chunks is the whole stream at once: the same final state,
    and the same results up to the stamps read off the clock. *)
Lemma processChunks_whole (st : ConverterState) (chunks : list (Z * string)) (now : Z) :
  JS.noLineFeed (lineBuffer st) = true ->
  fst (processChunks JSON_parse st chunks)
  = fst (processChunk JSON_parse now st (JS.concatAll (snd <$> chunks)))
  /\ Forall2 sameUpToClock
       (snd (processChunks JSON_parse st chunks))
       (snd (processChunk JSON_parse now st (JS.concatAll (snd <$> chunks)))).
Proof.
  intros Hb.
  assert (Hsame : processChunks JSON_parse st ((fun c => (now, snd c)) <$> chunks)
                  = processChunk JSON_parse now st (JS.concatAll (snd <$> chunks))).
  { rewrite <- (processChunks_same_clock JSON_parse now (snd <$> chunks) st Hb).
    by rewrite <- list_fmap_compose. }
  destruct (processChunks_clock JSON_parse now chunks st) as [Hs Hr].
  by rewrite Hsame in Hs, Hr.
Qed.

(** C1 (chunk-boundary independence). Take a converter state whose line
    buffer holds no line feed (a fresh state, or any state that
    [processChunk] returned) and a stream cut into chunks in any way.
    Calling [processChunk] on the chunks in order against that state
    gives exactly the state and the results of one call on the whole
    stream when the clock reads the same at every call; with arbitrary
    clock readings the final state is still the same and the results are
    the same, in the same order, up to the stamps read off the clock.
    The line buffer retains the fragment after the last line feed, which
    holds no line feed; an unterminated tail of the input is kept in the
    buffer and adds nothing to the results, so that only terminated lines
    are parsed. *)
Theorem chunk_boundary_independence (st : ConverterState)
    (chunks : list (Z * string)) (now : Z) :
  JS.noLineFeed (lineBuffer st) = true ->
  let whole := JS.concatAll (snd <$> chunks) in
  processChunks JSON_parse st ((fun c => (now, snd c)) <$> chunks)
  = processChunk JSON_parse now st whole
  /\ fst (processChunks JSON_parse st chunks) = fst (processChunk JSON_parse now st whole)
  /\ Forall2 sameUpToClock (snd (processChunks JSON_parse st chunks))
                           (snd (processChunk JSON_parse now st whole))
  /\ lineBuffer (fst (processChunk JSON_parse now st whole))
     = JS.fragment (lineBuffer st +:+ whole)
  /\ JS.noLineFeed (JS.fragment (lineBuffer st +:+ whole)) = true
  /\ (forall body tail : string,
         JS.noLineFeed tail = true ->
         processChunk JSON_parse now st (body +:+ JS.str JS.LF +:+ tail)
         = let '(st', out) := processChunk JSON_parse now st (body +:+ JS.str JS.LF) in
           (setLineBuffer tail st', out)).
Proof.
  intros Hb whole. unfold whole. clear whole.
  set (whole := JS.concatAll (snd <$> chunks)).
  assert (Hsame : processChunks JSON_parse st ((fun c => (now, snd c)) <$> chunks)
                  = processChunk JSON_parse now st whole).
  { unfold whole.
    rewrite <- (processChunks_same_clock JSON_parse now (snd <$> chunks) st Hb).
    by rewrite <- list_fmap_compose. }
  destruct (processChunks_clock JSON_parse now chunks st) as [Hs Hr].
  rewrite Hsame in Hs, Hr.
  split; [exact Hsame |]. split; [exact Hs |]. split; [exact Hr |].
  split; [apply lineBuffer_processChunk |]. split; [apply noLineFeed_fragment |].
  intros body tail Ht.
  pose proof (processChunk_append JSON_parse now st (body +:+ JS.str JS.LF) tail) as Ha.
  pose proof (lineBuffer_processChunk JSON_parse now st (body +:+ JS.str JS.LF)) as Hl.
  destruct (processChunk JSON_parse now st (body +:+ JS.str JS.LF)) as [st1 out1].
  cbn [fst] in Hl. rewrite <- append_assoc, fragment_snoc_LF in Hl.
  rewrite (processChunk_tail now st1 tail Hl Ht) in Ha.
  rewrite append_assoc in Ha. by rewrite Ha, app_nil_r.
Qed.

End ChunkBoundaries.

Import Scenarios.

(** The text stream delivered in three pieces cut inside its lines. *)
Lemma chunk_boundary_independence_witness :
  processChunks (parseKnown textPayloads) (createConverterState clientModel) textChunks
  = processChunk (parseKnown textPayloads) 1700000000123 (createConverterState clientModel)
      (JS.concatAll (snd <$> textChunks)).
Proof.
  exact (proj1 (chunk_boundary_independence (parseKnown textPayloads)
                  (createConverterState clientModel) textChunks 1700000000123 eq_refl)).
Defined.

End ConverterFacts.

(** ** Properties of the translated stream *)

Module StreamFacts.
Import Converter ConverterFacts.

(** *** The model echo *)

Lemma transformToOpenAI_model now st d orig :
  originalModel st = Some orig -> JS.truthy orig = true ->
  originalModel (fst (transformToOpenAI now st d)) = Some orig
  /\ match snd (transformToOpenAI now st d) with
     | inr (Some c) => model c = Some orig
     | _ => True
     end.
Proof.
  intros Ho Ht. unfold transformToOpenAI, chunkModel, mkChunk, JS.orElse. proj_simpl.
  rewrite ?Ho. cbn [JS.truthyOpt]. rewrite ?Ht. cbn [negb].
  split_cases; cbn [fst snd model]; proj_simpl; try done.
  all: rewrite Ho in *; cbn [JS.truthyOpt] in *; congruence.
Qed.

Lemma createUsageChunk_model now st orig :
  originalModel st = Some orig -> JS.truthy orig = true ->
  match createUsageChunk now st with Some c => model c = Some orig | None => True end.
Proof.
  intros Ho Ht. unfold createUsageChunk, chunkModel, mkChunk, JS.orElse.
  rewrite Ho, Ht.
  by destruct ((md_input_tokens (metricsData st) =? 0)
               && (md_output_tokens (metricsData st) =? 0)).
Qed.

Lemma handleEvent_model now d st rs orig :
  originalModel st = Some orig -> JS.truthy orig = true ->
  Forall (carriesModel orig) rs ->
  originalModel (fst (fst (handleEvent now d (st, rs)))) = Some orig
  /\ Forall (carriesModel orig) (snd (fst (handleEvent now d (st, rs)))).
Proof.
  intros Ho Ht Hrs. unfold handleEvent. proj_simpl.
  destruct (typeIs d "ping"); [done |].
  destruct (typeIs d "content_block_start"
            && (blockTypeIs d "thinking" || blockTypeIs d "redacted_thinking")).
  { by destruct (ev_content_block d). }
  destruct (typeIs d "content_block_delta" && JS.truthyOpt (deltaField delta_thinking d)).
  { by destruct (thinkingBlock st). }
  destruct (typeIs d "content_block_delta" && JS.truthyOpt (deltaField delta_signature d)).
  { destruct (thinkingBlock st); done. }
  destruct (typeIs d "content_block_stop").
  { cbn [fst snd]. split; [| done].
    destruct (thinkingBlock st); [| done].
    by destruct (inThinkingBlock st && JS.truthyOpt (ev_signature d)). }
  destruct (typeIs d "content_block_start" && blockTypeIs d "text"); [done |].
  set (st1 := setMetricsData (updateMetrics (metricsData st) d) st).
  assert (Ho1 : originalModel st1 = Some orig) by exact Ho.
  destruct (transformToOpenAI_model now st1 d orig Ho1 Ht) as [Ho2 Hc].
  destruct (transformToOpenAI now st1 d) as [st2 [e | oc]]; cbn [fst snd] in *; [done |].
  pose proof (createUsageChunk_model now st2 orig Ho2 Ht) as Hu.
  assert (Hrs1 : Forall (carriesModel orig)
                   (match oc with Some c => rs ++ [Chunk c] | None => rs end)).
  { destruct oc; [| done]. apply Forall_app. split; [done |]. by constructor. }
  destruct (typeIs d "message_stop"); cbn [fst snd]; [| done].
  split; [done |]. apply Forall_app. split; [| by repeat constructor].
  destruct (createUsageChunk now st2); [| done].
  apply Forall_app. split; [done |]. by constructor.
Qed.

Lemma runEvents_model now events orig : forall st rs,
  originalModel st = Some orig -> JS.truthy orig = true ->
  Forall (carriesModel orig) rs ->
  originalModel (fst (runEvents now events (st, rs))) = Some orig
  /\ Forall (carriesModel orig) (snd (runEvents now events (st, rs))).
Proof.
  induction events as [|d events IH]; intros st rs Ho Ht Hrs; cbn [runEvents]; [done |].
  unfold tryCatch. cbn [fst].
  destruct (handleEvent_model now d st rs orig Ho Ht Hrs) as [Ho1 Hrs1].
  destruct (handleEvent now d (st, rs)) as [[st1 rs1] c]. by apply IH.
Qed.

Section ModelEcho.

Variable JSON_parse : string -> option AnthropicStreamEvent.

Lemma processChunks_model orig chunks : forall st,
  originalModel st = Some orig -> JS.truthy orig = true ->
  originalModel (fst (processChunks JSON_parse st chunks)) = Some orig
  /\ Forall (carriesModel orig) (snd (processChunks JSON_parse st chunks)).
Proof.
  induction chunks as [|[now chunk] chunks IH]; intros st Ho Ht; cbn [processChunks].
  { split; [done | constructor]. }
  rewrite processChunk_events.
  destruct (runEvents_model now (eventsOf JSON_parse (lineBuffer st +:+ chunk)) orig
              (setLineBuffer (JS.fragment (lineBuffer st +:+ chunk)) st) []
              Ho Ht (Forall_nil_2 _)) as [Ho1 Hrs1].
  destruct (runEvents now _ _) as [st1 out1]. cbn [fst snd] in *.
  destruct (IH st1 Ho1 Ht) as [Ho2 Hrs2].
  destruct (processChunks JSON_parse st1 chunks) as [st2 out2]. cbn [fst snd] in *.
  split; [done |]. apply Forall_app. by split.
Qed.

(** C6 (model echo). A converter state created with a non-empty original
    model string keeps that string, and every chunk the translator emits
    from it, over any sequence of calls, whatever the upstream reports
    as its model, carries exactly that string as its model: the opening
    role chunk, content chunks, tool-call chunks, the finish-reason chunk
    and the usage chunk alike. *)
Theorem model_echo (orig : string) (chunks : list (Z * string)) :
  orig <> "" ->
  let '(st', out) := processChunks JSON_parse (createConverterState (Some orig)) chunks in
  originalModel st' = Some orig
  /\ forall c, Chunk c ∈ out -> model c = Some orig.
Proof.
  intros Hne.
  assert (Ht : JS.truthy orig = true) by by destruct orig.
  assert (Ho : originalModel (createConverterState (Some orig)) = Some orig).
  { unfold createConverterState. cbn [originalModel JS.truthyOpt]. by rewrite Ht. }
  destruct (processChunks_model orig chunks _ Ho Ht) as [Ho' Hall].
  destruct (processChunks JSON_parse _ chunks) as [st' out]. cbn [fst snd] in *.
  split; [done |]. intros c Hin. rewrite Forall_forall in Hall. exact (Hall _ Hin).
Qed.

End ModelEcho.

Import Json Scenarios.

Lemma model_echo_witness :
  let r := processChunks (parseKnown textPayloads)
             (createConverterState (Some "claude-4-sonnet-high")) textChunks in
  originalModel (fst r) = Some "claude-4-sonnet-high"
  /\ Forall (carriesModel "claude-4-sonnet-high") (snd r).
Proof.
  pose proof (model_echo (parseKnown textPayloads) "claude-4-sonnet-high" textChunks
                ltac:(discriminate)) as H.
  cbn zeta.
  destruct (processChunks (parseKnown textPayloads) _ textChunks) as [st' out].
  destruct H as [Ho Hc]. split; [exact Ho |].
  apply Forall_forall. intros [c|] Hin; [exact (Hc c Hin) | exact I].
Defined.

(** *** The end of the stream *)

Lemma typeIs_exclusive d a b : typeIs d a = true -> a <> b -> typeIs d b = false.
Proof.
  unfold typeIs. destruct (ev_type d) as [t|]; [| done].
  intros ->%String.eqb_eq Hne. by apply String.eqb_neq.
Qed.

Lemma transformToOpenAI_usage now st d :
  match snd (transformToOpenAI now st d) with
  | inr (Some c) => usage c = None
  | _ => True
  end.
Proof. unfold transformToOpenAI, mkChunk. split_cases; done. Qed.

(** An event other than [message_stop] appends ordinary chunks only. *)
Lemma handleEvent_ordinary now d st rs :
  typeIs d "message_stop" = false ->
  exists out, snd (fst (handleEvent now d (st, rs))) = rs ++ out /\ Forall ordinary out.
Proof.
  intros Hns. unfold handleEvent. rewrite Hns.
  pose proof (transformToOpenAI_usage now
                (setMetricsData (updateMetrics (metricsData st) d) st) d) as Hu.
  split_cases; cbn [fst snd] in *;
    try (exists []; split; [by rewrite app_nil_r | constructor]).
  eexists [_]. split; [reflexivity |]. repeat constructor. cbn. by rewrite Hu.
Qed.

Lemma runEvents_ordinary now events : forall st rs,
  Forall (fun d => typeIs d "message_stop" = false) events ->
  exists out, snd (runEvents now events (st, rs)) = rs ++ out /\ Forall ordinary out.
Proof.
  induction events as [|d events IH]; intros st rs Hev; cbn [runEvents].
  { exists []. split; [by rewrite app_nil_r | constructor]. }
  apply Forall_cons in Hev as [Hd Hev]. unfold tryCatch. cbn [fst].
  destruct (handleEvent_ordinary now d st rs Hd) as (out1 & E1 & H1).
  destruct (handleEvent now d (st, rs)) as [[st1 rs1] c]. cbn [fst snd] in *. subst rs1.
  destruct (IH st1 (rs ++ out1) Hev) as (out2 & E2 & H2).
  exists (out1 ++ out2). rewrite E2, app_assoc. split; [done |]. apply Forall_app. by split.
Qed.

(** [message_stop]: the counters are updated, then the usage chunk if the
    counters are not both zero, then the done marker. *)
Lemma handleEvent_stop now d st rs :
  typeIs d "message_stop" = true ->
  handleEvent now d (st, rs)
  = let st1 := setMetricsData (updateMetrics (metricsData st) d) st in
    ((st1,
      rs ++ match createUsageChunk now st1 with Some u => [Chunk u] | None => [] end
         ++ [Done]),
     Completed).
Proof.
  intros Hs. unfold handleEvent, transformToOpenAI.
  rewrite Hs.
  rewrite (typeIs_exclusive d _ "ping" Hs) by done.
  rewrite (typeIs_exclusive d _ "content_block_start" Hs) by done.
  rewrite (typeIs_exclusive d _ "content_block_delta" Hs) by done.
  rewrite (typeIs_exclusive d _ "content_block_stop" Hs) by done.
  rewrite (typeIs_exclusive d _ "message_start" Hs) by done.
  rewrite (typeIs_exclusive d _ "message_delta" Hs) by done.
  cbn [andb]. cbn zeta.
  destruct (createUsageChunk now _); by rewrite <- ?app_assoc.
Qed.

Lemma createUsageChunk_noTokens now st :
  if noTokens st then createUsageChunk now st = None
  else exists u, createUsageChunk now st = Some u /\ isUsageChunk (Chunk u).
Proof.
  unfold createUsageChunk, noTokens.
  destruct ((md_input_tokens (metricsData st) =? 0)
            && (md_output_tokens (metricsData st) =? 0)); [done |].
  eexists. split; [reflexivity |]. cbn. split; [by eexists | done].
Qed.

(** The shape of the results does not depend on the clock. *)
Lemma sameUpToClock_ordinary r1 r2 : sameUpToClock r1 r2 -> ordinary r2 -> ordinary r1.
Proof.
  unfold ordinary. destruct r1 as [c1|], r2 as [c2|]; cbn; try done.
  intros (_ & _ & _ & Hu & _). by rewrite Hu.
Qed.

Lemma sameUpToClock_isUsageChunk r1 r2 :
  sameUpToClock r1 r2 -> isUsageChunk r2 -> isUsageChunk r1.
Proof.
  destruct r1 as [c1|], r2 as [c2|]; cbn; try done.
  intros (_ & _ & Hc & Hu & _). by rewrite Hc, Hu.
Qed.

Lemma sameUpToClock_Done r : sameUpToClock r Done -> r = Done.
Proof. by destruct r. Qed.

Lemma endsStream_clock b out1 out2 :
  Forall2 sameUpToClock out1 out2 -> endsStream b out2 -> endsStream b out1.
Proof.
  intros HF (pre & tail & -> & Hpre & Htail).
  apply Forall2_app_inv_r in HF as (pre1 & rest1 & Hp & Hr & ->).
  apply Forall2_app_inv_r in Hr as (tail1 & last1 & Ht & Hl & ->).
  apply Forall2_cons_inv_r in Hl as (r & l' & Hr & Hnil & ->).
  apply Forall2_nil_inv_r in Hnil as ->. apply sameUpToClock_Done in Hr as ->.
  exists pre1, tail1. split; [done |]. split.
  - clear -Hp Hpre. induction Hp as [|x y l k Hxy Hlk IH]; [constructor |].
    apply Forall_cons in Hpre as [Hy Hk]. constructor; [| by apply IH].
    by apply (sameUpToClock_ordinary x y).
  - destruct b.
    + destruct Htail as (r & -> & Hu).
      apply Forall2_cons_inv_r in Ht as (r1 & l' & Hr1 & Hnil & ->).
      apply Forall2_nil_inv_r in Hnil as ->. exists r1. split; [done |].
      by apply (sameUpToClock_isUsageChunk r1 r).
    + subst tail. by apply Forall2_nil_inv_r in Ht as ->.
Qed.

Section Terminal.

Variable JSON_parse : string -> option AnthropicStreamEvent.

(** C5 (terminal ordering). Take a stream, delivered in any chunks, whose
    events end with a [message_stop] and contain no other one. The
    results are ordinary chunks (no done marker, no usage object), then,
    if the input-token and output-token counters of the final state are
    not both zero, one usage chunk with empty delta and null
    finish_reason, then the done marker: the done marker occurs once, as
    the last element, with the usage chunk immediately before it; when
    both counters are zero no usage chunk is emitted. *)
Theorem terminal_ordering (st : ConverterState) (chunks : list (Z * string))
    (events : list AnthropicStreamEvent) (stop : AnthropicStreamEvent) :
  JS.noLineFeed (lineBuffer st) = true ->
  eventsOf JSON_parse (lineBuffer st +:+ JS.concatAll (snd <$> chunks))
  = events ++ [stop] ->
  typeIs stop "message_stop" = true ->
  Forall (fun d => typeIs d "message_stop" = false) events ->
  let '(st', out) := processChunks JSON_parse st chunks in
  endsStream (negb (noTokens st')) out.
Proof.
  intros Hb Hev Hstop Hothers.
  destruct (processChunks_whole JSON_parse st chunks 0 Hb) as [Hst Hout].
  destruct (processChunks JSON_parse st chunks) as [st' out]. cbn [fst snd] in *.
  subst st'. apply (endsStream_clock _ _ _ Hout). clear Hout.
  rewrite processChunk_events, Hev, runEvents_app.
  destruct (runEvents_ordinary 0 events
              (setLineBuffer
                 (JS.fragment (lineBuffer st +:+ JS.concatAll (snd <$> chunks))) st)
              [] Hothers) as (pre & E & Hpre).
  destruct (runEvents 0 events _) as [stA outA]. cbn [fst snd app] in E. subst outA.
  cbn [runEvents]. rewrite (handleEvent_stop 0 stop stA pre Hstop).
  cbn zeta. unfold tryCatch. cbn [fst snd].
  set (st1 := setMetricsData _ stA).
  pose proof (createUsageChunk_noTokens 0 st1) as Hu.
  exists pre. destruct (noTokens st1); cbn [negb].
  - rewrite Hu. by exists [].
  - destruct Hu as (u & -> & Hu). exists [Chunk u]. split; [done |]. split; [done |].
    by exists (Chunk u).
Qed.

End Terminal.

Lemma terminal_ordering_witness :
  endsStream true
    (snd (processChunks (parseKnown textPayloads) (createConverterState clientModel)
            textChunks)).
Proof.
  pose proof (terminal_ordering (parseKnown textPayloads)
                (createConverterState clientModel) textChunks
                (readEvent <$> take 7 textPayloads)
                (readEvent (typed "message_stop" []))
                eq_refl) as H.
  specialize (H ltac:(vm_compute; reflexivity) eq_refl
                ltac:(repeat constructor)).
  destruct (processChunks (parseKnown textPayloads) _ textChunks) as [st' out] eqn:E.
  cbn [snd].
  assert (Hn : noTokens st' = false).
  { apply (f_equal (fun x => noTokens (fst x))) in E. cbn [fst] in E.
    rewrite <- E. vm_compute. reflexivity. }
  by rewrite Hn in H.
Defined.

(** *** Tool arguments *)

Lemma concatAll_app (l1 l2 : list string) :
  JS.concatAll (l1 ++ l2) = JS.concatAll l1 +:+ JS.concatAll l2.
Proof.
  induction l1 as [|x l1 IH]; [done |]. cbn [app JS.concatAll].
  by rewrite IH, append_assoc.
Qed.

Lemma emittedArguments_app idx rs1 rs2 :
  emittedArguments idx (rs1 ++ rs2) = emittedArguments idx rs1 +:+ emittedArguments idx rs2.
Proof. unfold emittedArguments. by rewrite fmap_app, concatAll_app. Qed.

Lemma emittedArguments_one idx c : emittedArguments idx [Chunk c] = argumentsIn idx c.
Proof. unfold emittedArguments. cbn. apply append_nil_r. Qed.

Lemma argumentsIn_mkChunk idx i now m d fr u :
  argumentsIn idx (mkChunk i now m d fr u)
  = match tool_calls d with
    | None => ""
    | Some [t] =>
        if tc_index t =? idx
        then match tc_function t with
             | Some f => JS.nullish (fn_arguments f) ""
             | None => ""
             end
        else ""
    | Some _ => argumentsIn idx (mkChunk i now m d fr u)
    end.
Proof.
  destruct (tool_calls d) as [[|t [|t' l]]|] eqn:E; try done.
  - unfold argumentsIn, mkChunk. cbn. rewrite E. cbn. by rewrite !append_nil_r.
  - unfold argumentsIn, mkChunk. cbn. by rewrite E.
Qed.

Lemma isToolUseStart_types d :
  isToolUseStart d = true ->
  typeIs d "content_block_start" = true /\ blockTypeIs d "tool_use" = true
  /\ blockTypeIs d "thinking" = false /\ blockTypeIs d "redacted_thinking" = false
  /\ blockTypeIs d "text" = false.
Proof.
  unfold isToolUseStart. intros [Ht Hb]%andb_prop. split; [done |]. split; [done |].
  unfold blockTypeIs in *. destruct (ev_content_block d) as [cb|]; [| done].
  destruct (cb_type cb) as [t|]; [| done]. apply String.eqb_eq in Hb as ->. done.
Qed.

(** What a tool_use start does. *)
Lemma handleEvent_toolStart now d st rs :
  isToolUseStart d = true ->
  exists cb st' c,
    ev_content_block d = Some cb
    /\ handleEvent now d (st, rs) = ((st', rs ++ [Chunk c]), Completed)
    /\ choices c
       = [ {| choice_index := 0;
              delta :=
                {| role := None; content := None;
                   tool_calls :=
                     Some [ {| tc_index := indexOf d;
                               tc_id := cb_id cb;
                               tc_type := Some "function";
                               tc_function :=
                                 Some {| fn_name := cb_name cb;
                                         fn_arguments := Some "" |} |} ] |};
              finish_reason := None |} ]
    /\ usage c = None
    /\ toolCallsTracker st' !! indexOf d
       = Some {| tool_id := JS.nullish (cb_id cb) "";
                 tool_name := JS.nullish (cb_name cb) "";
                 arguments := "" |}.
Proof.
  intros Hs. destruct (isToolUseStart_types d Hs) as (Ht & Hb & Hn1 & Hn2 & Hn3).
  unfold handleEvent, transformToOpenAI.
  rewrite (typeIs_exclusive d _ "ping" Ht) by done.
  rewrite (typeIs_exclusive d _ "content_block_delta" Ht) by done.
  rewrite (typeIs_exclusive d _ "content_block_stop" Ht) by done.
  rewrite (typeIs_exclusive d _ "message_start" Ht) by done.
  rewrite (typeIs_exclusive d _ "message_stop" Ht) by done.
  rewrite Ht, Hb, Hn1, Hn2, Hn3. cbn [andb orb].
  destruct (ev_content_block d) as [cb|] eqn:Ecb; [| by unfold blockTypeIs in Hb; rewrite Ecb in Hb].
  eexists cb, _, _. split; [done |]. split; [reflexivity |].
  split; [reflexivity |]. split; [reflexivity |].
  proj_simpl. apply lookup_insert_eq.
Qed.

Lemma accumulate_code (accumulated d : string) :
  (if JS.truthy accumulated && JS.startsWith d accumulated
   then (JS.substringFrom (String.length accumulated) d, d)
   else (d, accumulated +:+ d))
  = accumulate accumulated d.
Proof.
  unfold accumulate. destruct accumulated as [|c a]; [| done].
  unfold JS.startsWith. rewrite prefix_nil. cbn [JS.truthy JS.isEmpty negb andb].
  by rewrite substringFrom_0, append_nil_l.
Qed.

Lemma accumulate_concat (accumulated d : string) :
  accumulated +:+ fst (accumulate accumulated d) = snd (accumulate accumulated d).
Proof.
  unfold accumulate, JS.startsWith.
  destruct (String.prefix accumulated d) eqn:E; cbn [fst snd]; [| done].
  by apply prefix_substringFrom.
Qed.

Lemma accumulate_empty (accumulated : string) :
  accumulate accumulated "" = ("", accumulated).
Proof.
  unfold accumulate, JS.startsWith. destruct accumulated as [|c a]; [done |].
  cbn. by rewrite append_nil_r.
Qed.

Lemma tracker_eta (tc : ToolCallTracker) :
  {| tool_id := tool_id tc; tool_name := tool_name tc; arguments := arguments tc |} = tc.
Proof. by destruct tc. Qed.

(** What a tool-input delta does. *)
Lemma handleEvent_partialJson now d pj st rs tc :
  isPartialJsonDelta d pj ->
  toolCallsTracker st !! indexOf d = Some tc ->
  exists st' out,
    handleEvent now d (st, rs) = ((st', rs ++ out), Completed)
    /\ emittedArguments (indexOf d) out = fst (accumulate (arguments tc) pj)
    /\ toolCallsTracker st' !! indexOf d
       = Some {| tool_id := tool_id tc; tool_name := tool_name tc;
                 arguments := snd (accumulate (arguments tc) pj) |}
    /\ (pj <> "" ->
        exists c,
          out = [Chunk c]
          /\ choices c
             = [ {| choice_index := 0;
                    delta :=
                      {| role := None; content := None;
                         tool_calls :=
                           Some [ {| tc_index := indexOf d;
                                     tc_id := None;
                                     tc_type := None;
                                     tc_function :=
                                       Some {| fn_name := None;
                                               fn_arguments :=
                                                 Some (fst (accumulate (arguments tc) pj))
                                             |} |} ] |};
                    finish_reason := None |} ]).
Proof.
  intros (Ht & Hp & Hth & Hsig) Hl.
  unfold handleEvent, transformToOpenAI.
  rewrite (typeIs_exclusive d _ "ping" Ht) by done.
  rewrite (typeIs_exclusive d _ "content_block_start" Ht) by done.
  rewrite (typeIs_exclusive d _ "content_block_stop" Ht) by done.
  rewrite (typeIs_exclusive d _ "message_start" Ht) by done.
  rewrite (typeIs_exclusive d _ "message_stop" Ht) by done.
  rewrite (typeIs_exclusive d _ "message_delta" Ht) by done.
  rewrite Ht, Hth, Hsig, Hp. cbn [andb JS.truthyOpt JS.nullish]. proj_simpl.
  destruct pj as [|x pj].
  - (* an empty fragment is not a truthy [partial_json] *)
    cbn [JS.truthy JS.isEmpty negb]. rewrite accumulate_empty. cbn [fst snd].
    rewrite tracker_eta.
    destruct (JS.truthyOpt (deltaField delta_text d)).
    + eexists _, [_]. split; [reflexivity |]. proj_simpl.
      split; [| split; [exact Hl | done]].
      rewrite emittedArguments_one. by rewrite argumentsIn_mkChunk.
    + exists (setMetricsData (updateMetrics (metricsData st) d) st), [].
      rewrite app_nil_r. done.
  - cbn [JS.truthy JS.isEmpty negb]. rewrite Hl, accumulate_code.
    destruct (accumulate (arguments tc) (String x pj)) as [newPart accumulated].
    eexists _, [_]. split; [reflexivity |]. proj_simpl. cbn [fst snd].
    split; [| split; [apply lookup_insert_eq |]].
    + rewrite emittedArguments_one, argumentsIn_mkChunk. cbn. by rewrite Z.eqb_refl.
    + intros _. eexists. split; reflexivity.
Qed.

(** Whatever the event, unless it opens a tool_use block at [idx], the
    tracker at [idx] grows by exactly the arguments text emitted for [idx]. *)
Lemma transformToOpenAI_arguments now st d idx tc :
  toolCallsTracker st !! idx = Some tc ->
  startsToolAt idx d = false ->
  exists tc',
    toolCallsTracker (fst (transformToOpenAI now st d)) !! idx = Some tc'
    /\ arguments tc'
       = arguments tc
         +:+ match snd (transformToOpenAI now st d) with
             | inr (Some c) => argumentsIn idx c
             | _ => ""
             end.
Proof.
  intros Hl Hns. unfold transformToOpenAI.
  destruct (if typeIs d "message_start" then ev_message d else None) as [message|].
  { destruct (msg_id message) as [mid|]; cbn [fst snd].
    - exists tc. split; [by destruct (negb _) |].
      by rewrite argumentsIn_mkChunk, append_nil_r.
    - exists tc. by rewrite append_nil_r. }
  unfold startsToolAt, isToolUseStart in Hns.
  destruct (typeIs d "content_block_start" && blockTypeIs d "tool_use") eqn:Es.
  { destruct (ev_content_block d) as [cb|]; cbn [fst snd];
      [| exists tc; by rewrite append_nil_r].
    cbn [andb] in Hns. apply Z.eqb_neq in Hns as Hne.
    exists tc. proj_simpl. split; [by rewrite lookup_insert_ne |].
    rewrite argumentsIn_mkChunk. cbn [tool_calls tc_index]. by rewrite Hns, append_nil_r. }
  destruct (typeIs d "content_block_delta"
            && JS.truthyOpt (deltaField delta_partial_json d)).
  { destruct (toolCallsTracker st !! indexOf d) as [toolCall|] eqn:Et; cbn [fst snd];
      [| exists tc; by rewrite append_nil_r].
    rewrite accumulate_code.
    pose proof (accumulate_concat (arguments toolCall)
                  (JS.nullish (deltaField delta_partial_json d) "")) as Hc.
    destruct (accumulate (arguments toolCall) _) as [newPart accumulated].
    cbn [fst snd] in *. proj_simpl.
    rewrite argumentsIn_mkChunk. cbn [tool_calls tc_index tc_function fn_arguments JS.nullish].
    destruct (decide (indexOf d = idx)) as [Heq | Hne].
    - rewrite Heq in *. rewrite Hl in Et. injection Et as <-.
      eexists. split; [apply lookup_insert_eq |]. cbn [arguments].
      by rewrite Z.eqb_refl.
    - exists tc. split; [by rewrite lookup_insert_ne |].
      apply Z.eqb_neq in Hne. by rewrite Hne, append_nil_r. }
  destruct (typeIs d "content_block_delta" && JS.truthyOpt (deltaField delta_text d)).
  { exists tc. cbn [fst snd]. proj_simpl. split; [done |].
    by rewrite argumentsIn_mkChunk, append_nil_r. }
  destruct (typeIs d "message_delta" && JS.truthyOpt (deltaField delta_stop_reason d)).
  { exists tc. cbn [fst snd]. split; [done |].
    by rewrite argumentsIn_mkChunk, append_nil_r. }
  exists tc. by rewrite append_nil_r.
Qed.

Lemma createUsageChunk_arguments now st idx :
  match createUsageChunk now st with Some u => argumentsIn idx u = "" | None => True end.
Proof.
  unfold createUsageChunk.
  destruct ((md_input_tokens (metricsData st) =? 0)
            && (md_output_tokens (metricsData st) =? 0)); [done |].
  by rewrite argumentsIn_mkChunk.
Qed.

Lemma handleEvent_arguments now d st rs idx tc :
  toolCallsTracker st !! idx = Some tc ->
  startsToolAt idx d = false ->
  exists out tc',
    snd (fst (handleEvent now d (st, rs))) = rs ++ out
    /\ toolCallsTracker (fst (fst (handleEvent now d (st, rs)))) !! idx = Some tc'
    /\ arguments tc' = arguments tc +:+ emittedArguments idx out.
Proof.
  intros Hl Hns. unfold handleEvent.
  assert (Hnil : exists out tc',
             rs = rs ++ out /\ toolCallsTracker st !! idx = Some tc'
             /\ arguments tc' = arguments tc +:+ emittedArguments idx out).
  { exists [], tc. by rewrite app_nil_r, append_nil_r. }
  destruct (typeIs d "ping"); [exact Hnil |].
  destruct (typeIs d "content_block_start"
            && (blockTypeIs d "thinking" || blockTypeIs d "redacted_thinking")).
  { by destruct (ev_content_block d). }
  destruct (typeIs d "content_block_delta" && JS.truthyOpt (deltaField delta_thinking d)).
  { by destruct (thinkingBlock st). }
  destruct (typeIs d "content_block_delta" && JS.truthyOpt (deltaField delta_signature d)).
  { by destruct (thinkingBlock st). }
  destruct (typeIs d "content_block_stop").
  { cbn [fst snd]. proj_simpl.
    destruct (thinkingBlock st); [| exact Hnil].
    by destruct (inThinkingBlock st && JS.truthyOpt (ev_signature d)). }
  destruct (typeIs d "content_block_start" && blockTypeIs d "text"); [exact Hnil |].
  clear Hnil.
  set (st1 := setMetricsData (updateMetrics (metricsData st) d) st).
  assert (Hl1 : toolCallsTracker st1 !! idx = Some tc) by exact Hl.
  destruct (transformToOpenAI_arguments now st1 d idx tc Hl1 Hns) as (tc' & Hl' & Ha).
  pose proof (createUsageChunk_arguments now (fst (transformToOpenAI now st1 d)) idx) as Hu.
  destruct (transformToOpenAI now st1 d) as [st2 [e | oc]]; cbn [fst snd] in *.
  { exists [], tc'. by rewrite app_nil_r. }
  destruct (typeIs d "message_stop"); cbn [fst snd].
  - destruct oc as [c|], (createUsageChunk now st2) as [u|].
    + exists [Chunk c; Chunk u; Done], tc'. split; [by rewrite <- !app_assoc |].
      split; [done |]. rewrite Ha. unfold emittedArguments. cbn.
      by rewrite Hu, !append_nil_r.
    + exists [Chunk c; Done], tc'. split; [by rewrite <- !app_assoc |].
      split; [done |]. rewrite Ha. unfold emittedArguments. cbn.
      by rewrite !append_nil_r.
    + exists [Chunk u; Done], tc'. split; [by rewrite <- !app_assoc |].
      split; [done |]. rewrite Ha. unfold emittedArguments. cbn. by rewrite Hu.
    + exists [Done], tc'. done.
  - destruct oc as [c|].
    + exists [Chunk c], tc'. split; [done |]. split; [done |].
      by rewrite emittedArguments_one.
    + exists [], tc'. by rewrite app_nil_r.
Qed.

Lemma runEvents_arguments now events idx : forall st rs tc,
  toolCallsTracker st !! idx = Some tc ->
  Forall (fun d => startsToolAt idx d = false) events ->
  exists out tc',
    snd (runEvents now events (st, rs)) = rs ++ out
    /\ toolCallsTracker (fst (runEvents now events (st, rs))) !! idx = Some tc'
    /\ arguments tc' = arguments tc +:+ emittedArguments idx out.
Proof.
  induction events as [|d events IH]; intros st rs tc Hl Hev; cbn [runEvents].
  { exists [], tc. by rewrite app_nil_r, append_nil_r. }
  apply Forall_cons in Hev as [Hd Hev]. unfold tryCatch. cbn [fst].
  destruct (handleEvent_arguments now d st rs idx tc Hl Hd) as (out1 & tc1 & E1 & Hl1 & Ha1).
  destruct (handleEvent now d (st, rs)) as [[st1 rs1] c]. cbn [fst snd] in *. subst rs1.
  destruct (IH st1 (rs ++ out1) tc1 Hl1 Hev) as (out2 & tc2 & E2 & Hl2 & Ha2).
  exists (out1 ++ out2), tc2. rewrite E2, app_assoc. split; [done |]. split; [done |].
  by rewrite Ha2, Ha1, emittedArguments_app, append_assoc.
Qed.

Section ToolArguments.

Variable JSON_parse : string -> option AnthropicStreamEvent.

(** C4 (tool-argument accumulation).
    (1) A tool_use [content_block_start] stores a tracker with empty
    arguments at the block index and emits one tool_calls chunk whose
    arguments string is empty.
    (2) A later [partial_json] fragment at that index emits, as arguments
    text, exactly the suffix beyond the accumulated string when the
    fragment begins with it, and the tracker becomes the fragment;
    otherwise the fragment itself, and the tracker gets it appended. A
    non-empty fragment is emitted as one tool_calls chunk; an empty one
    emits no arguments text and leaves the tracker as it is.
    (3) Over any call, as long as no tool_use block is opened at the
    index, the tracker's arguments grow by exactly the arguments text
    emitted for the index.
    (4) Hence from the start of a tool_use block on, the concatenation
    of all arguments strings emitted for its index is the tracker's
    accumulated arguments string. *)
Theorem tool_argument_accumulation :
  (forall now d st rs,
      isToolUseStart d = true ->
      exists cb st' c,
        ev_content_block d = Some cb
        /\ handleEvent now d (st, rs) = ((st', rs ++ [Chunk c]), Completed)
        /\ choices c
           = [ {| choice_index := 0;
                  delta :=
                    {| role := None; content := None;
                       tool_calls :=
                         Some [ {| tc_index := indexOf d;
                                   tc_id := cb_id cb;
                                   tc_type := Some "function";
                                   tc_function :=
                                     Some {| fn_name := cb_name cb;
                                             fn_arguments := Some "" |} |} ] |};
                  finish_reason := None |} ]
        /\ toolCallsTracker st' !! indexOf d
           = Some {| tool_id := JS.nullish (cb_id cb) "";
                     tool_name := JS.nullish (cb_name cb) "";
                     arguments := "" |})
  /\ (forall now d pj st rs tc,
         isPartialJsonDelta d pj ->
         toolCallsTracker st !! indexOf d = Some tc ->
         exists st' out,
           handleEvent now d (st, rs) = ((st', rs ++ out), Completed)
           /\ emittedArguments (indexOf d) out = fst (accumulate (arguments tc) pj)
           /\ toolCallsTracker st' !! indexOf d
              = Some {| tool_id := tool_id tc; tool_name := tool_name tc;
                        arguments := snd (accumulate (arguments tc) pj) |}
           /\ (pj <> "" ->
               exists c,
                 out = [Chunk c]
                 /\ choices c
                    = [ {| choice_index := 0;
                           delta :=
                             {| role := None; content := None;
                                tool_calls :=
                                  Some [ {| tc_index := indexOf d;
                                            tc_id := None;
                                            tc_type := None;
                                            tc_function :=
                                              Some {| fn_name := None;
                                                      fn_arguments :=
                                                        Some (fst (accumulate
                                                                     (arguments tc) pj))
                                                    |} |} ] |};
                           finish_reason := None |} ]))
  /\ (forall now st chunk idx tc,
         toolCallsTracker st !! idx = Some tc ->
         Forall (fun d => startsToolAt idx d = false)
           (eventsOf JSON_parse (lineBuffer st +:+ chunk)) ->
         let '(st', out) := processChunk JSON_parse now st chunk in
         exists tc',
           toolCallsTracker st' !! idx = Some tc'
           /\ arguments tc' = arguments tc +:+ emittedArguments idx out)
  /\ (forall now st chunk start rest,
         eventsOf JSON_parse (lineBuffer st +:+ chunk) = start :: rest ->
         isToolUseStart start = true ->
         Forall (fun d => startsToolAt (indexOf start) d = false) rest ->
         let '(st', out) := processChunk JSON_parse now st chunk in
         exists tc',
           toolCallsTracker st' !! indexOf start = Some tc'
           /\ emittedArguments (indexOf start) out = arguments tc').
Proof.
  split; [| split; [| split]].
  - intros now d st rs Hs.
    destruct (handleEvent_toolStart now d st rs Hs) as (cb & st' & c & H1 & H2 & H3 & _ & H5).
    by exists cb, st', c.
  - intros now d pj st rs tc. apply handleEvent_partialJson.
  - intros now st chunk idx tc Hl Hev. rewrite processChunk_events.
    destruct (runEvents_arguments now _ idx
                (setLineBuffer (JS.fragment (lineBuffer st +:+ chunk)) st) [] tc Hl Hev)
      as (out & tc' & E & Hl' & Ha).
    destruct (runEvents now _ _) as [st' out']. cbn [fst snd app] in *. subst out'.
    by exists tc'.
  - intros now st chunk start rest Hev Hs Hrest. rewrite processChunk_events, Hev.
    cbn [runEvents]. unfold tryCatch.
    destruct (handleEvent_toolStart now start
                (setLineBuffer (JS.fragment (lineBuffer st +:+ chunk)) st) [] Hs)
      as (cb & st1 & c & _ & -> & Hch & _ & Hl1).
    cbn [fst app].
    destruct (runEvents_arguments now rest (indexOf start) st1 [Chunk c] _ Hl1 Hrest)
      as (out & tc' & E & Hl' & Ha).
    destruct (runEvents now rest _) as [st' out']. cbn [fst snd] in *. subst out'.
    exists tc'. split; [done |].
    rewrite Ha, emittedArguments_app, emittedArguments_one. cbn [arguments].
    unfold argumentsIn. rewrite Hch. cbn. by rewrite Z.eqb_refl.
Qed.

End ToolArguments.

(** The tool call of the specification, with cumulative fragments: what is
    emitted for index 0 adds up to the tracker's arguments. *)
Lemma tool_argument_accumulation_witness :
  let r := processChunk (parseKnown toolPayloads) 1700000000123
             (createConverterState clientModel) (streamOf toolPayloads) in
  exists tc', toolCallsTracker (fst r) !! 0 = Some tc'
              /\ emittedArguments 0 (snd r) = arguments tc'.
Proof.
  pose proof (proj2 (proj2 (proj2 (tool_argument_accumulation (parseKnown toolPayloads))))
                1700000000123 (createConverterState clientModel) (streamOf toolPayloads)
                (readEvent (typed "content_block_start"
                   [("index", JNum 0);
                    ("content_block",
                     JObj [("type", JStr "tool_use"); ("id", JStr "tu_1");
                           ("name", JStr "search")])]))
                (readEvent <$> drop 1 toolPayloads)) as H.
  specialize (H ltac:(vm_compute; reflexivity) eq_refl ltac:(repeat constructor)).
  cbn zeta.
  destruct (processChunk (parseKnown toolPayloads) _ _ _) as [st' out].
  exact H.
Defined.

(** *** Totality *)

Lemma blockTypeIs_exclusive d (s t : string) :
  blockTypeIs d s = true -> s <> t -> blockTypeIs d t = false.
Proof.
  unfold blockTypeIs. destruct (ev_content_block d) as [cb|]; [| done].
  destruct (cb_type cb) as [x|]; [| done].
  intros ->%String.eqb_eq Hne. by apply String.eqb_neq.
Qed.

(** What the dispatch writes to [results] for one event: something, when
    [emits] holds, and nothing otherwise. *)
Lemma handleEvent_emits now d st rs :
  exists out,
    snd (fst (handleEvent now d (st, rs))) = rs ++ out
    /\ (out = [] <-> emits st d = false).
Proof.
  unfold emits.
  destruct (typeIs d "message_start") eqn:T1.
  { unfold handleEvent, transformToOpenAI.
    rewrite (typeIs_exclusive d _ "ping" T1) by done.
    rewrite (typeIs_exclusive d _ "content_block_start" T1) by done.
    rewrite (typeIs_exclusive d _ "content_block_delta" T1) by done.
    rewrite (typeIs_exclusive d _ "content_block_stop" T1) by done.
    rewrite (typeIs_exclusive d _ "message_stop" T1) by done.
    rewrite (typeIs_exclusive d _ "message_delta" T1) by done.
    rewrite T1. cbn [andb].
    destruct (ev_message d) as [message|].
    - destruct (msg_id message) as [mid|]; cbn [fst snd].
      + eexists. split; [reflexivity |]. split; done.
      + exists []. by rewrite app_nil_r.
    - exists []. by rewrite app_nil_r. }
  destruct (typeIs d "content_block_start") eqn:T2.
  { unfold handleEvent, transformToOpenAI.
    rewrite (typeIs_exclusive d _ "ping" T2) by done.
    rewrite T1, T2. cbn [andb].
    destruct (blockTypeIs d "tool_use") eqn:B.
    - rewrite (blockTypeIs_exclusive d _ "thinking" B) by done.
      rewrite (blockTypeIs_exclusive d _ "redacted_thinking" B) by done.
      rewrite (blockTypeIs_exclusive d _ "text" B) by done.
      rewrite (typeIs_exclusive d _ "content_block_delta" T2) by done.
      rewrite (typeIs_exclusive d _ "content_block_stop" T2) by done.
      rewrite (typeIs_exclusive d _ "message_stop" T2) by done.
      cbn [orb andb].
      unfold blockTypeIs in B. destruct (ev_content_block d) as [cb|]; [| done].
      cbn [fst snd]. eexists. split; [reflexivity |]. split; done.
    - exists []. rewrite app_nil_r. split; [| done].
      rewrite (typeIs_exclusive d _ "content_block_delta" T2) by done.
      rewrite (typeIs_exclusive d _ "content_block_stop" T2) by done.
      rewrite (typeIs_exclusive d _ "message_stop" T2) by done.
      rewrite (typeIs_exclusive d _ "message_delta" T2) by done.
      cbn [andb].
      destruct (blockTypeIs d "thinking" || blockTypeIs d "redacted_thinking").
      { by destruct (ev_content_block d). }
      by destruct (blockTypeIs d "text"). }
  destruct (typeIs d "content_block_delta") eqn:T3.
  { unfold handleEvent, transformToOpenAI.
    rewrite (typeIs_exclusive d _ "ping" T3) by done.
    rewrite T1, T2, T3.
    rewrite (typeIs_exclusive d _ "content_block_stop" T3) by done.
    rewrite (typeIs_exclusive d _ "message_stop" T3) by done.
    rewrite (typeIs_exclusive d _ "message_delta" T3) by done.
    cbn [andb].
    destruct (JS.truthyOpt (deltaField delta_thinking d)).
    { exists []. rewrite app_nil_r. split; [| done]. by destruct (thinkingBlock st). }
    destruct (JS.truthyOpt (deltaField delta_signature d)).
    { exists []. rewrite app_nil_r. split; [| done]. by destruct (thinkingBlock st). }
    cbn [negb andb].
    destruct (JS.truthyOpt (deltaField delta_partial_json d)).
    - cbn [toolCallsTracker setMetricsData].
      destruct (toolCallsTracker st !! indexOf d) as [tc|].
      + destruct (JS.truthy (arguments tc) && _); cbn [fst snd];
          (eexists; split; [reflexivity |]; split; done).
      + exists []. by rewrite app_nil_r.
    - destruct (JS.truthyOpt (deltaField delta_text d)); cbn [fst snd].
      + eexists. split; [reflexivity |]. split; done.
      + exists []. by rewrite app_nil_r. }
  destruct (typeIs d "message_delta") eqn:T4.
  { unfold handleEvent, transformToOpenAI.
    rewrite (typeIs_exclusive d _ "ping" T4) by done.
    rewrite T1, T2, T3, T4.
    rewrite (typeIs_exclusive d _ "content_block_stop" T4) by done.
    rewrite (typeIs_exclusive d _ "message_stop" T4) by done.
    cbn [andb].
    destruct (JS.truthyOpt (deltaField delta_stop_reason d)); cbn [fst snd].
    - eexists. split; [reflexivity |]. split; done.
    - exists []. by rewrite app_nil_r. }
  destruct (typeIs d "message_stop") eqn:T5.
  { rewrite (handleEvent_stop now d st rs T5). cbn zeta. cbn [fst snd].
    eexists. split; [reflexivity |]. split; [| done].
    by destruct (createUsageChunk _ _). }
  exists []. rewrite app_nil_r. split; [| done].
  unfold handleEvent, transformToOpenAI. rewrite T1, T2, T3, T4, T5. cbn [andb].
  destruct (typeIs d "ping"); [done |].
  destruct (typeIs d "content_block_stop"); done.
Qed.

Section Totality.

Variable JSON_parse : string -> option AnthropicStreamEvent.

(** C9, as the code has it (totality). [processChunk] always returns
    normally: no exception leaves it. A line that is blank, starts with
    "event:", is not a "data: " line with a brace, or whose payload does
    not parse, changes nothing and emits nothing. A line whose payload
    parses to the
    event [d] runs to its end and adds [out] to the results, and [out] is
    empty exactly when [emits] is false for [d]: output comes from a
    [message_start] whose message has an id, a [content_block_start] of a
    tool_use block (with or without id, name and index), a
    [content_block_delta] with text, or with [partial_json] for a tool
    index that was opened, and without thinking or signature text, a
    [message_delta] with a stop reason, and a [message_stop]; every other
    event emits nothing. An event that emits nothing can still change the
    state: a [message_start] whose message has no id raises a TypeError
    inside the [try] after [updateMetrics] has run, and the state keeps
    the updated counters. In every case the loop goes on with the
    remaining lines. *)
Theorem processChunk_total :
  (forall now st chunk, snd (processChunkRun JSON_parse now st chunk) = Completed)
  /\ (forall now line h,
         JS.trim line = ""
         \/ JS.startsWith (JS.trim line) "event:" = true
         \/ JS.startsWith (JS.trim line) "data: " && JS.includes (JS.trim line) "{" = false
         \/ JSON_parse (JS.stripDataPrefix (JS.trim line)) = None ->
         lineBody JSON_parse now line h = (h, Completed))
  /\ (forall now line d st rs,
         eventOfLine JSON_parse line = Some d ->
         exists st' out,
           lineBody JSON_parse now line (st, rs) = ((st', rs ++ out), Completed)
           /\ (out = [] <-> emits st d = false))
  /\ (forall now d message st rs,
         typeIs d "message_start" = true ->
         ev_message d = Some message -> msg_id message = None ->
         handleEvent now d (st, rs)
         = ((setMetricsData (updateMetrics (metricsData st) d) st, rs), Thrown TypeError))
  /\ (forall now line rest h,
         forLines JSON_parse now (line :: rest) h
         = forLines JSON_parse now rest (fst (lineBody JSON_parse now line h))).
Proof.
  split; [| split; [| split; [| split]]].
  - intros now st chunk. by rewrite processChunkRun_events.
  - intros now line h H. unfold lineBody, tryBlock.
    destruct (JS.isEmpty (JS.trim line)) eqn:E1; [done |].
    destruct H as [H | H]; [by rewrite H in E1 |].
    destruct (JS.startsWith (JS.trim line) "event:") eqn:E2; [done |].
    destruct H as [H | H]; [done |].
    destruct (JS.startsWith (JS.trim line) "data: " && JS.includes (JS.trim line) "{")
      eqn:E3; [| done].
    destruct H as [H | H]; [done |]. by rewrite H.
  - intros now line d st rs Hev. rewrite lineBody_eventOfLine, Hev.
    destruct (handleEvent_emits now d st rs) as (out & Hout & Hiff).
    unfold tryCatch. destruct (handleEvent now d (st, rs)) as [[st' rs'] c].
    cbn [fst snd] in *. subst rs'. by exists st', out.
  - intros now d message st rs Ht Hm Hid.
    unfold handleEvent, transformToOpenAI.
    rewrite (typeIs_exclusive d _ "ping" Ht) by done.
    rewrite (typeIs_exclusive d _ "content_block_start" Ht) by done.
    rewrite (typeIs_exclusive d _ "content_block_delta" Ht) by done.
    rewrite (typeIs_exclusive d _ "content_block_stop" Ht) by done.
    rewrite Ht, Hm, Hid. cbn [andb]. done.
  - intros now line rest h. cbn [forLines].
    pose proof (lineBody_Completed JSON_parse now line h) as Hc.
    destruct (lineBody JSON_parse now line h) as [h' c]. cbn [snd fst] in *. by subst c.
Qed.

End Totality.

(** The line of a [message_start] without message id emits nothing; with
    such a line between two text deltas, both deltas are translated. *)
Lemma processChunk_total_witness :
  (exists st' out,
      lineBody (parseKnown [countedStart]) 5 (sse countedStart)
        (createConverterState clientModel, [])
      = ((st', [] ++ out), Completed)
      /\ (out = []
          <-> emits (createConverterState clientModel) (readEvent countedStart) = false))
  /\ length (snd (processChunk (parseKnown brokenPayloads) 5
                    (createConverterState clientModel) (streamOf brokenPayloads))) = 2%nat.
Proof.
  split.
  - apply (proj1 (proj2 (proj2 (processChunk_total (parseKnown [countedStart])))) 5
             (sse countedStart) (readEvent countedStart)).
    vm_compute. reflexivity.
  - vm_compute. reflexivity.
Defined.

(** C9 as stated fails: an event that lacks fields which its dispatch case
    reads is not always skipped. The start of a tool_use block without id,
    name and index gets its chunk all the same: the tool call goes out
    with index 0 and without id and name. And a line that emits nothing
    is not without effect: the [message_start] without message id leaves
    no output, yet its 7 input tokens are counted. *)
Lemma processChunk_missing_fields_counterexample :
  (ev_index (readEvent bareToolStart) = None
   /\ (ev_content_block (readEvent bareToolStart) ≫= Converter.cb_id) = None
   /\ (ev_content_block (readEvent bareToolStart) ≫= Converter.cb_name) = None
   /\ exists c,
        snd (processChunk (parseKnown [bareToolStart]) 5 (createConverterState clientModel)
               (sse bareToolStart))
        = [Chunk c]
        /\ (delta <$> choices c)
           = [ {| role := None; content := None;
                  tool_calls :=
                    Some [ {| tc_index := 0; tc_id := None; tc_type := Some "function";
                              tc_function :=
                                Some {| fn_name := None; fn_arguments := Some "" |} |} ] |} ])
  /\ (msg_id <$> ev_message (readEvent countedStart)) = Some None
  /\ snd (processChunk (parseKnown [countedStart]) 5 (createConverterState clientModel)
            (sse countedStart)) = []
  /\ md_input_tokens (metricsData (createConverterState clientModel)) = 0
  /\ md_input_tokens
       (metricsData (fst (processChunk (parseKnown [countedStart]) 5
                            (createConverterState clientModel) (sse countedStart)))) = 7.
Proof.
  split; [repeat split; [eexists; split; vm_compute; reflexivity] |].
  repeat split; by vm_compute.
Qed.

End StreamFacts.

(* ===================================================================== *)
(** ** The translator: text, ids, thinking, complete responses *)
(* ===================================================================== *)

Module TranslatorFacts.
Import Converter ConverterFacts StreamFacts Accessors NonStreaming.

(** *** The text sent is the text kept *)

Lemma emittedContent_app rs1 rs2 :
  emittedContent (rs1 ++ rs2) = emittedContent rs1 +:+ emittedContent rs2.
Proof. unfold emittedContent. by rewrite fmap_app, concatAll_app. Qed.

Lemma contentIn_mkChunk i now m d fr u :
  contentIn (mkChunk i now m d fr u) = JS.nullish (content d) "".
Proof. unfold contentIn, mkChunk. cbn. apply append_nil_r. Qed.

Lemma emittedContent_one c : emittedContent [Chunk c] = contentIn c.
Proof. unfold emittedContent. cbn. apply append_nil_r. Qed.

Lemma transformToOpenAI_content now st d :
  accumulatedText (fst (transformToOpenAI now st d))
  = accumulatedText st
    +:+ match snd (transformToOpenAI now st d) with
        | inr (Some c) => contentIn c
        | _ => ""
        end.
Proof.
  unfold transformToOpenAI.
  split_cases; cbn [fst snd]; rewrite ?contentIn_mkChunk; proj_simpl;
    cbn [content emptyDelta JS.nullish]; by rewrite ?append_nil_r.
Qed.

Lemma createUsageChunk_content now st :
  match createUsageChunk now st with Some c => contentIn c = "" | None => True end.
Proof.
  unfold createUsageChunk.
  destruct ((md_input_tokens (metricsData st) =? 0)
            && (md_output_tokens (metricsData st) =? 0)); [done |].
  by rewrite contentIn_mkChunk.
Qed.

Lemma handleEvent_content now d st rs :
  exists x,
    accumulatedText (fst (fst (handleEvent now d (st, rs)))) = accumulatedText st +:+ x
    /\ emittedContent (snd (fst (handleEvent now d (st, rs)))) = emittedContent rs +:+ x.
Proof.
  unfold handleEvent.
  destruct (typeIs d "ping"); [exists ""; by rewrite !append_nil_r |].
  destruct (typeIs d "content_block_start"
            && (blockTypeIs d "thinking" || blockTypeIs d "redacted_thinking")).
  { exists "". rewrite !append_nil_r. by destruct (ev_content_block d). }
  destruct (typeIs d "content_block_delta" && JS.truthyOpt (deltaField delta_thinking d)).
  { exists "". rewrite !append_nil_r. by destruct (thinkingBlock st). }
  destruct (typeIs d "content_block_delta" && JS.truthyOpt (deltaField delta_signature d)).
  { exists "". rewrite !append_nil_r. by destruct (thinkingBlock st). }
  destruct (typeIs d "content_block_stop").
  { exists "". rewrite !append_nil_r. cbn [fst snd]. destruct (thinkingBlock st); [| done].
    by destruct (inThinkingBlock st && JS.truthyOpt (ev_signature d)). }
  destruct (typeIs d "content_block_start" && blockTypeIs d "text").
  { exists "". by rewrite !append_nil_r. }
  set (st1 := setMetricsData (updateMetrics (metricsData st) d) st).
  pose proof (transformToOpenAI_content now st1 d) as Ht.
  change (accumulatedText st1) with (accumulatedText st) in Ht.
  destruct (transformToOpenAI now st1 d) as [st2 [e | oc]]; cbn [fst snd] in *.
  { exists "". by rewrite Ht, !append_nil_r. }
  exists (match oc with Some c => contentIn c | None => "" end).
  pose proof (createUsageChunk_content now st2) as Hu.
  assert (Hrs1 : emittedContent (match oc with Some c => rs ++ [Chunk c] | None => rs end)
                 = emittedContent rs
                   +:+ match oc with Some c => contentIn c | None => "" end).
  { destruct oc; [| by rewrite append_nil_r].
    by rewrite emittedContent_app, emittedContent_one. }
  destruct (typeIs d "message_stop"); cbn [fst snd]; (split; [by destruct oc |]);
    [| done].
  rewrite emittedContent_app. change (emittedContent [Done]) with "".
  rewrite append_nil_r.
  destruct (createUsageChunk now st2); [| done].
  by rewrite emittedContent_app, emittedContent_one, Hu, append_nil_r.
Qed.

Lemma runEvents_content now events : forall st rs,
  exists x,
    accumulatedText (fst (runEvents now events (st, rs))) = accumulatedText st +:+ x
    /\ emittedContent (snd (runEvents now events (st, rs))) = emittedContent rs +:+ x.
Proof.
  induction events as [|d events IH]; intros st rs; cbn [runEvents].
  { exists "". by rewrite !append_nil_r. }
  unfold tryCatch. cbn [fst].
  destruct (handleEvent_content now d st rs) as (x & Ha & He).
  destruct (handleEvent now d (st, rs)) as [[st1 rs1] c]. cbn [fst snd] in *.
  destruct (IH st1 rs1) as (y & Ha' & He').
  exists (x +:+ y). rewrite Ha', He', Ha, He. by rewrite !append_assoc.
Qed.

Section Text.

Variable JSON_parse : string -> option AnthropicStreamEvent.

(** X1 (text kept is text sent).
    The text kept for the cache key is the text sent to the client: over
    any sequence of calls of [processChunk], from any state, what is added
    to [accumulatedText] is exactly the concatenation of the content
    fields of the chunks returned, in order. Thinking text, tool
    arguments and the closing chunks add nothing to either. *)
Theorem accumulated_text_is_emitted_content (st : ConverterState)
    (chunks : list (Z * string)) :
  accumulatedText (fst (processChunks JSON_parse st chunks))
  = accumulatedText st +:+ emittedContent (snd (processChunks JSON_parse st chunks)).
Proof.
  revert st. induction chunks as [|[now chunk] chunks IH]; intros st; cbn [processChunks].
  { by rewrite append_nil_r. }
  rewrite processChunk_events.
  destruct (runEvents_content now (eventsOf JSON_parse (lineBuffer st +:+ chunk))
              (setLineBuffer (JS.fragment (lineBuffer st +:+ chunk)) st) [])
    as (x & Ha & He).
  destruct (runEvents now _ _) as [st1 out1]. cbn [fst snd] in *.
  specialize (IH st1).
  destruct (processChunks JSON_parse st1 chunks) as [st2 out2]. cbn [fst snd] in *.
  rewrite IH, Ha, emittedContent_app, He. cbn [accumulatedText setLineBuffer].
  change (emittedContent []) with "". by rewrite append_nil_l, append_assoc.
Qed.

End Text.

End TranslatorFacts.

Module IdFacts.
Import Converter ConverterFacts StreamFacts Accessors TranslatorFacts.

(** *** The chunk id *)

Lemma updateMetrics_openAIId md d : openAIId (updateMetrics md d) = openAIId md.
Proof.
  unfold updateMetrics.
  repeat match goal with
         | |- context [match ?x with _ => _ end] => destruct x
         end; reflexivity.
Qed.

Lemma chunkId_known now st i :
  i <> "" -> openAIId (metricsData st) = Some i -> chunkId now st = i.
Proof. intros Hne Hi. unfold chunkId. rewrite Hi. by destruct i. Qed.

Lemma opensWith_type i d t :
  opensWith i d -> t <> "message_start" -> typeIs d t = false.
Proof. intros [Ht _] Hne. apply (typeIs_exclusive d "message_start" t Ht). congruence. Qed.

Lemma transformToOpenAI_id now st d i :
  i <> "" ->
  openAIId (metricsData st) = Some i \/ opensWith i d ->
  (typeIs d "message_start" = true -> opensWith i d) ->
  exists st' oc,
    transformToOpenAI now st d = (st', inr oc)
    /\ openAIId (metricsData st') = Some i
    /\ match oc with Some c => id c = i | None => True end.
Proof.
  intros Hne Hor Hstart. unfold transformToOpenAI.
  destruct (typeIs d "message_start") eqn:Et.
  - destruct (Hstart eq_refl) as (_ & m & mid & -> & Hmid & ->). rewrite Hmid.
    do 2 eexists. split; [reflexivity |]. split; [| reflexivity].
    by destruct (negb (JS.truthyOpt (originalModel _))).
  - destruct Hor as [Hi | [Ht _]]; [| congruence].
    split_cases; do 2 eexists; (split; [reflexivity |]); (split; [done |]);
      try done; cbn [id mkChunk]; by apply chunkId_known.
Qed.

Lemma createUsageChunk_id now st i :
  i <> "" -> openAIId (metricsData st) = Some i ->
  match createUsageChunk now st with Some c => id c = i | None => True end.
Proof.
  intros Hne Hi. unfold createUsageChunk.
  destruct ((md_input_tokens (metricsData st) =? 0)
            && (md_output_tokens (metricsData st) =? 0)); [done |].
  cbn [id mkChunk]. by apply chunkId_known.
Qed.

Lemma handleEvent_id now d st rs i :
  i <> "" ->
  openAIId (metricsData st) = Some i \/ opensWith i d ->
  (typeIs d "message_start" = true -> opensWith i d) ->
  Forall (carriesId i) rs ->
  openAIId (metricsData (fst (fst (handleEvent now d (st, rs))))) = Some i
  /\ Forall (carriesId i) (snd (fst (handleEvent now d (st, rs)))).
Proof.
  intros Hne Hor Hstart Hrs.
  assert (Hrun : forall st1,
            openAIId (metricsData st1) = openAIId (metricsData st) ->
            let r := match transformToOpenAI now st1 d with
                     | (st2, inl e) => ((st2, rs), Thrown e)
                     | (st2, inr openAIChunk) =>
                         let results1 :=
                           match openAIChunk with
                           | Some c => rs ++ [Chunk c]
                           | None => rs
                           end in
                         if typeIs d "message_stop" then
                           let results2 :=
                             match createUsageChunk now st2 with
                             | Some usageChunk => results1 ++ [Chunk usageChunk]
                             | None => results1
                             end in
                           ((st2, results2 ++ [Done]), Completed)
                         else ((st2, results1), Completed)
                     end in
            openAIId (metricsData (fst (fst r))) = Some i
            /\ Forall (carriesId i) (snd (fst r))).
  { intros st1 H1. cbn zeta.
    assert (Hor1 : openAIId (metricsData st1) = Some i \/ opensWith i d).
    { destruct Hor as [Hi | Ho]; [left; congruence | by right]. }
    destruct (transformToOpenAI_id now st1 d i Hne Hor1 Hstart)
      as (st2 & oc & -> & Hi2 & Hc).
    pose proof (createUsageChunk_id now st2 i Hne Hi2) as Hu.
    assert (Hrs1 : Forall (carriesId i)
                     (match oc with Some c => rs ++ [Chunk c] | None => rs end)).
    { destruct oc; [| done]. apply Forall_app. split; [done |]. by constructor. }
    destruct (typeIs d "message_stop"); cbn [fst snd]; [| done].
    split; [done |]. apply Forall_app. split; [| by repeat constructor].
    destruct (createUsageChunk now st2); [| done].
    apply Forall_app. split; [done |]. by constructor. }
  destruct Hor as [Hi | Ho].
  - unfold handleEvent.
    destruct (typeIs d "ping"); [done |].
    destruct (typeIs d "content_block_start"
              && (blockTypeIs d "thinking" || blockTypeIs d "redacted_thinking")).
    { by destruct (ev_content_block d). }
    destruct (typeIs d "content_block_delta" && JS.truthyOpt (deltaField delta_thinking d)).
    { by destruct (thinkingBlock st). }
    destruct (typeIs d "content_block_delta" && JS.truthyOpt (deltaField delta_signature d)).
    { by destruct (thinkingBlock st). }
    destruct (typeIs d "content_block_stop").
    { cbn [fst snd]. split; [| done]. destruct (thinkingBlock st); [| done].
      by destruct (inThinkingBlock st && JS.truthyOpt (ev_signature d)). }
    destruct (typeIs d "content_block_start" && blockTypeIs d "text"); [done |].
    apply Hrun. cbn [metricsData setMetricsData]. apply updateMetrics_openAIId.
  - unfold handleEvent.
    rewrite (opensWith_type i d "ping" Ho) by done.
    rewrite (opensWith_type i d "content_block_start" Ho) by done.
    rewrite (opensWith_type i d "content_block_delta" Ho) by done.
    rewrite (opensWith_type i d "content_block_stop" Ho) by done.
    cbn [andb].
    apply Hrun. cbn [metricsData setMetricsData]. apply updateMetrics_openAIId.
Qed.

Lemma runEvents_id now i events : forall st rs,
  i <> "" ->
  match events with
  | [] => True
  | d :: _ => openAIId (metricsData st) = Some i \/ opensWith i d
  end ->
  Forall (fun d => typeIs d "message_start" = true -> opensWith i d) events ->
  Forall (carriesId i) rs ->
  Forall (carriesId i) (snd (runEvents now events (st, rs)))
  /\ (openAIId (metricsData st) = Some i \/ events <> [] ->
      openAIId (metricsData (fst (runEvents now events (st, rs)))) = Some i).
Proof.
  induction events as [|d events IH]; intros st rs Hne Hhead Hall Hrs; cbn [runEvents].
  { split; [done |]. by intros [? | ?]. }
  inversion Hall as [|? ? Hd Hrest]; subst.
  unfold tryCatch. cbn [fst].
  destruct (handleEvent_id now d st rs i Hne Hhead Hd Hrs) as [Hi1 Hrs1].
  destruct (handleEvent now d (st, rs)) as [[st1 rs1] c]. cbn [fst snd] in *.
  destruct (IH st1 rs1 Hne) as [Hout Hid]; [by destruct events; [| left] | done | done |].
  split; [done |]. intros _. apply Hid. by left.
Qed.

Section Ids.

Variable JSON_parse : string -> option AnthropicStreamEvent.

Lemma processChunks_id i chunks : forall st,
  i <> "" ->
  openAIId (metricsData st) = Some i
  \/ (exists d rest,
        eventsOf JSON_parse (lineBuffer st +:+ JS.concatAll (snd <$> chunks)) = d :: rest
        /\ opensWith i d) ->
  Forall (fun d => typeIs d "message_start" = true -> opensWith i d)
    (eventsOf JSON_parse (lineBuffer st +:+ JS.concatAll (snd <$> chunks))) ->
  Forall (carriesId i) (snd (processChunks JSON_parse st chunks)).
Proof.
  induction chunks as [|[now chunk] chunks IH]; intros st Hne Hor Hall;
    cbn [processChunks]; [constructor |].
  rewrite fmap_cons in Hor, Hall. cbn [JS.concatAll snd] in Hor, Hall.
  rewrite <- append_assoc, eventsOf_app in Hor, Hall.
  apply Forall_app in Hall as [Hall1 Hall2].
  pose proof (lineBuffer_processChunk JSON_parse now st chunk) as Hb.
  rewrite processChunk_events in *.
  set (E1 := eventsOf JSON_parse (lineBuffer st +:+ chunk)) in *.
  set (st0 := setLineBuffer (JS.fragment (lineBuffer st +:+ chunk)) st) in *.
  assert (Hhead : match E1 with
                  | [] => True
                  | d :: _ => openAIId (metricsData st0) = Some i \/ opensWith i d
                  end).
  { destruct E1 as [|d1 E1']; [done |].
    destruct Hor as [Hi | (d & rest & Heq & Ho)]; [by left |].
    right. cbn [app] in Heq. by simplify_eq. }
  destruct (runEvents_id now i E1 st0 [] Hne Hhead Hall1 (Forall_nil_2 _)) as [Hout1 Hid1].
  destruct (runEvents now E1 (st0, [])) as [st1 out1]. cbn [fst snd] in *.
  rewrite <- Hb in Hor, Hall2.
  destruct (processChunks JSON_parse st1 chunks) as [st2 out2] eqn:E2.
  cbn [snd]. apply Forall_app. split; [done |].
  replace out2 with (snd (processChunks JSON_parse st1 chunks)) by by rewrite E2.
  apply IH; [done | | done].
  destruct Hor as [Hi | (d & rest & Heq & Ho)].
  - left. apply Hid1. by left.
  - destruct E1 as [|d1 E1'].
    + right. by exists d, rest.
    + left. apply Hid1. by right.
Qed.

(** X2 (stable chunk id).
    The chunk id is derived once from the upstream message id: when the
    events of a stream, delivered in any chunks, begin with a
    [message_start] that names the message id [mid] and no other
    [message_start] follows, every chunk the translator returns (the
    opening chunk, content and tool-call chunks, the finish-reason chunk,
    the usage chunk) carries the id "chatcmpl-" followed by [mid] without
    its first "msg_". *)
Theorem chunk_id_stability (st : ConverterState) (chunks : list (Z * string))
    (start : AnthropicStreamEvent) (rest : list AnthropicStreamEvent)
    (message : AnthropicMessage) (mid : string) :
  eventsOf JSON_parse (lineBuffer st +:+ JS.concatAll (snd <$> chunks)) = start :: rest ->
  typeIs start "message_start" = true ->
  ev_message start = Some message ->
  msg_id message = Some mid ->
  Forall (fun d => typeIs d "message_start" = false) rest ->
  forall c, Chunk c ∈ snd (processChunks JSON_parse st chunks) ->
            id c = "chatcmpl-" +:+ JS.replaceFirst "msg_" "" mid.
Proof.
  intros Hev Ht Hm Hmid Hrest c Hin.
  set (i := "chatcmpl-" +:+ JS.replaceFirst "msg_" "" mid).
  assert (Ho : opensWith i start) by (split; [done |]; by exists message, mid).
  assert (Hall : Forall (carriesId i) (snd (processChunks JSON_parse st chunks))).
  { apply processChunks_id; [done | |].
    - right. by exists start, rest.
    - rewrite Hev. constructor; [done |].
      eapply Forall_impl; [exact Hrest |]. cbn. intros d Hd. by rewrite Hd. }
  rewrite Forall_forall in Hall. exact (Hall _ Hin).
Qed.

End Ids.

Import Json Scenarios MoreScenarios.

Lemma chunk_id_stability_witness :
  Forall (carriesId "chatcmpl-BBB")
    (snd (processChunks (parseKnown thinkingPayloads)
            (createConverterState clientModel) thinkingChunks)).
Proof.
  apply Forall_forall. intros [c|] Hin; [| exact I].
  apply (chunk_id_stability (parseKnown thinkingPayloads)
           (createConverterState clientModel) thinkingChunks
           (readEvent (typed "message_start"
                         [("message", JObj [("id", JStr "msg_BBB");
                                            ("model", JStr "claude-sonnet-4-5")])]))
           (readEvent <$> drop 1 thinkingPayloads)
           (readMessage [("id", JStr "msg_BBB"); ("model", JStr "claude-sonnet-4-5")])
           "msg_BBB").
  - vm_compute. reflexivity.
  - reflexivity.
  - reflexivity.
  - reflexivity.
  - repeat constructor.
  - exact Hin.
Defined.

End IdFacts.

Module CaptureFacts.
Import Converter ConverterFacts StreamFacts Accessors.

(** *** The thinking block *)

Lemma thinkingData_eta tb : {| thinking := thinking tb; signature := signature tb |} = tb.
Proof. by destruct tb. Qed.

Lemma setThinkingBlock_same st : setThinkingBlock (thinkingBlock st) st = st.
Proof. by destruct st. Qed.

Lemma isThinkingDelta_type d : isThinkingDelta d = true -> typeIs d "content_block_delta" = true.
Proof. unfold isThinkingDelta. by intros [? _]%andb_true_iff. Qed.

Lemma handleEvent_thinkingDelta now d st rs tb :
  thinkingBlock st = Some tb ->
  isThinkingDelta d = true ->
  handleEvent now d (st, rs)
  = ((setThinkingBlock
        (Some {| thinking := thinking tb +:+ thinkingPart d;
                 signature := signature tb +:+ signaturePart d |}) st, rs), Completed).
Proof.
  intros Htb Hd. pose proof (isThinkingDelta_type d Hd) as Ht.
  unfold handleEvent, thinkingPart, signaturePart.
  rewrite (typeIs_exclusive d _ "ping" Ht) by done.
  rewrite (typeIs_exclusive d _ "content_block_start" Ht) by done.
  unfold isThinkingDelta in Hd. rewrite Ht in *. cbn [andb] in *. rewrite Htb.
  destruct (JS.truthyOpt (deltaField delta_thinking d)).
  - by rewrite append_nil_r.
  - cbn [orb] in Hd. rewrite Hd. by rewrite append_nil_r.
Qed.

Lemma runEvents_thinkingDeltas now deltas : forall st rs tb,
  thinkingBlock st = Some tb ->
  Forall (fun d => isThinkingDelta d = true) deltas ->
  runEvents now deltas (st, rs)
  = (setThinkingBlock
       (Some {| thinking := thinking tb +:+ JS.concatAll (thinkingPart <$> deltas);
                signature := signature tb +:+ JS.concatAll (signaturePart <$> deltas) |})
       st, rs).
Proof.
  induction deltas as [|d deltas IH]; intros st rs tb Htb Hall; cbn [runEvents].
  { cbn. rewrite !append_nil_r, thinkingData_eta, <- Htb. by rewrite setThinkingBlock_same. }
  inversion Hall as [|? ? Hd Hrest]; subst.
  rewrite (handleEvent_thinkingDelta now d st rs tb Htb Hd). unfold tryCatch. cbn [fst].
  rewrite (IH (setThinkingBlock
                 (Some {| thinking := thinking tb +:+ thinkingPart d;
                          signature := signature tb +:+ signaturePart d |}) st) rs
              {| thinking := thinking tb +:+ thinkingPart d;
                 signature := signature tb +:+ signaturePart d |} eq_refl Hrest).
  cbn [thinking signature].
  rewrite fmap_cons. cbn [JS.concatAll]. by rewrite !append_assoc.
Qed.

Section Thinking.

Variable JSON_parse : string -> option AnthropicStreamEvent.

(** X3 (thinking captured, never shown).
    A thinking block is captured and never shown. When the events of a
    stream, delivered in any chunks, are the start of a thinking (or
    redacted_thinking) block, deltas with thinking or signature text, and
    the [content_block_stop], the translator returns no result at all, and
    the state differs from the one before only in the line buffer, in the
    flag [inThinkingBlock] (false at the end) and in the captured block:
    its thinking text is the text of the opening block
    followed by the thinking deltas in order, its signature the one the
    stop event carries, if any, and else the signature of the opening
    block followed by the signature deltas (a delta with thinking text
    adds no signature). The text, the counters and the tool calls of the
    state are untouched. *)
Theorem thinking_capture (st : ConverterState) (chunks : list (Z * string))
    (start stop : AnthropicStreamEvent) (deltas : list AnthropicStreamEvent)
    (cb : AnthropicContentBlock) :
  JS.noLineFeed (lineBuffer st) = true ->
  eventsOf JSON_parse (lineBuffer st +:+ JS.concatAll (snd <$> chunks))
  = start :: deltas ++ [stop] ->
  isThinkingStart start = true ->
  ev_content_block start = Some cb ->
  Forall (fun d => isThinkingDelta d = true) deltas ->
  typeIs stop "content_block_stop" = true ->
  processChunks JSON_parse st chunks
  = (setInThinkingBlock false
       (setThinkingBlock
          (Some {| thinking := JS.orElse (cb_thinking cb) ""
                               +:+ JS.concatAll (thinkingPart <$> deltas);
                   signature :=
                     if JS.truthyOpt (ev_signature stop)
                     then JS.nullish (ev_signature stop) ""
                     else JS.orElse (cb_signature cb) ""
                          +:+ JS.concatAll (signaturePart <$> deltas) |})
          (setLineBuffer
             (JS.fragment (lineBuffer st +:+ JS.concatAll (snd <$> chunks))) st)),
     []).
Proof.
  intros Hb Hev Hstart Hcb Hdeltas Hstop.
  destruct (processChunks_whole JSON_parse st chunks 0 Hb) as [Hst Hout].
  rewrite processChunk_events, Hev in Hst, Hout.
  set (st0 := setLineBuffer _ st) in *.
  assert (Hrun : runEvents 0 (start :: deltas ++ [stop]) (st0, [])
                 = (setInThinkingBlock false
                      (setThinkingBlock
                         (Some {| thinking := JS.orElse (cb_thinking cb) ""
                                              +:+ JS.concatAll (thinkingPart <$> deltas);
                                  signature :=
                                    if JS.truthyOpt (ev_signature stop)
                                    then JS.nullish (ev_signature stop) ""
                                    else JS.orElse (cb_signature cb) ""
                                         +:+ JS.concatAll (signaturePart <$> deltas) |})
                         st0), [])).
  { unfold isThinkingStart in Hstart. apply andb_true_iff in Hstart as [Ht Hty].
    assert (H1 : fst (tryCatch (handleEvent 0 start (st0, [])))
                 = (setThinkingBlock
                      (Some {| thinking := JS.orElse (cb_thinking cb) "";
                               signature := JS.orElse (cb_signature cb) "" |})
                      (setInThinkingBlock true st0), [])).
    { unfold handleEvent, tryCatch.
      rewrite (typeIs_exclusive start _ "ping" Ht) by done.
      by rewrite Ht, Hty, Hcb. }
    cbn [runEvents]. rewrite H1, runEvents_app.
    rewrite (runEvents_thinkingDeltas 0 deltas
               (setThinkingBlock
                  (Some {| thinking := JS.orElse (cb_thinking cb) "";
                           signature := JS.orElse (cb_signature cb) "" |})
                  (setInThinkingBlock true st0)) []
               {| thinking := JS.orElse (cb_thinking cb) "";
                  signature := JS.orElse (cb_signature cb) "" |} eq_refl Hdeltas).
    cbn [runEvents thinking signature]. unfold handleEvent, tryCatch.
    rewrite (typeIs_exclusive stop _ "ping" Hstop) by done.
    rewrite (typeIs_exclusive stop _ "content_block_start" Hstop) by done.
    rewrite (typeIs_exclusive stop _ "content_block_delta" Hstop) by done.
    rewrite Hstop. cbn [andb fst]. proj_simpl.
    cbn [thinkingBlock inThinkingBlock setThinkingBlock setInThinkingBlock andb].
    by destruct (JS.truthyOpt (ev_signature stop)). }
  rewrite Hrun in Hst, Hout. cbn [fst snd] in Hst, Hout.
  destruct (processChunks JSON_parse st chunks) as [st' out]. cbn [fst snd] in *.
  apply Forall2_nil_inv_r in Hout. by subst.
Qed.

End Thinking.

Import Json Scenarios MoreScenarios.

Lemma thinking_capture_witness :
  let r := processChunks (parseKnown thinkingOnlyPayloads)
             (createConverterState clientModel) thinkingOnlyChunks in
  snd r = []
  /\ getThinkingBlockFromState (fst r)
     = Some (ThinkingCache.thinkingBlockOf "Let me think." "SIG").
Proof.
  cbn zeta.
  rewrite (thinking_capture (parseKnown thinkingOnlyPayloads)
             (createConverterState clientModel) thinkingOnlyChunks
             (readEvent (typed "content_block_start"
                           [("index", JNum 0);
                            ("content_block",
                             JObj [("type", JStr "thinking"); ("thinking", JStr "")])]))
             (readEvent (typed "content_block_stop" [("index", JNum 0)]))
             (readEvent <$> take 3 (drop 1 thinkingOnlyPayloads))
             (readContentBlock [("type", JStr "thinking"); ("thinking", JStr "")])).
  - split; [reflexivity |]. vm_compute. reflexivity.
  - reflexivity.
  - vm_compute. reflexivity.
  - reflexivity.
  - reflexivity.
  - repeat constructor.
  - reflexivity.
Defined.

End CaptureFacts.

Module ResponseFacts.
Import Json Converter ConverterFacts StreamFacts Accessors NonStreaming.

(** *** Complete responses *)

Lemma blockStep_spec (b : ResponseBlock) (t : string) (calls : list ToolCall) :
  blockStep (t, calls) b
  = (t +:+ textOf b, calls ++ match toolCallOf b with Some c => [c] | None => [] end).
Proof.
  unfold blockStep, textOf, toolCallOf.
  destruct (blockType b "text"); [by rewrite app_nil_r |].
  destruct (blockType b "tool_use"); cbn [andb]; [| by rewrite append_nil_r, app_nil_r].
  destruct (cb_id (block b)) as [i|]; cbn [JS.truthyOpt andb];
    [| by rewrite append_nil_r, app_nil_r].
  destruct (JS.truthy i); cbn [andb]; [| by destruct (cb_name (block b)); rewrite append_nil_r, app_nil_r].
  destruct (cb_name (block b)) as [n|]; cbn [JS.truthyOpt]; [| by rewrite append_nil_r, app_nil_r].
  destruct (JS.truthy n); by rewrite append_nil_r, ?app_nil_r.
Qed.

Lemma fold_left_blockStep (blocks : list ResponseBlock) : forall t calls,
  fold_left blockStep blocks (t, calls)
  = (t +:+ JS.concatAll (textOf <$> blocks), calls ++ omap toolCallOf blocks).
Proof.
  induction blocks as [|b blocks IH]; intros t calls; cbn [fold_left].
  { cbn. by rewrite append_nil_r, app_nil_r. }
  rewrite blockStep_spec, IH, fmap_cons. cbn [JS.concatAll omap list_omap].
  rewrite append_assoc, <- app_assoc. by destruct (toolCallOf b).
Qed.

Lemma finishReason_mapStopReason (stop_reason : option string) :
  finishReason stop_reason
  = match stop_reason with
    | Some r => if JS.truthy r then Some (mapStopReason r) else None
    | None => None
    end.
Proof.
  unfold finishReason, mapStopReason.
  destruct stop_reason as [r|]; [| done].
  destruct (String.eqb_spec r "end_turn") as [-> | _]; [done |].
  by destruct (String.eqb_spec r "tool_use") as [-> | _].
Qed.

(** X4 (message of a complete response).
    The message of a translated complete response: its content is the
    text of the text blocks put together in their order ([null] when that
    is empty), its tool calls are the tool_use blocks that have a
    non-empty id and name, in their order, each with its input serialised
    ("{}" when it has none); blocks of any other type, thinking blocks
    among them, add nothing. The finish reason is "stop" for end_turn,
    "tool_calls" for tool_use, otherwise the upstream stop reason, or
    [null] when there is none. *)
Theorem convertNonStreamingResponse_message (now : Z) (resp : AnthropicFullResponse)
    (originalModel : option string) :
  let blocks := JS.nullish (resp_content resp) [] in
  let text := JS.concatAll (textOf <$> blocks) in
  r_choices (convertNonStreamingResponse now resp originalModel)
  = [ {| rc_index := 0;
         message :=
           {| message_role := "assistant";
              message_content := if JS.truthy text then Some text else None;
              message_tool_calls := omap toolCallOf blocks |};
         rc_finish_reason :=
           match resp_stop_reason resp with
           | Some r => if JS.truthy r then Some (mapStopReason r) else None
           | None => None
           end |} ].
Proof.
  cbn zeta. unfold convertNonStreamingResponse.
  rewrite fold_left_blockStep, append_nil_l, app_nil_l. cbn [r_choices].
  do 2 f_equal. apply finishReason_mapStopReason.
Qed.

(** *** The two paths agree *)

Lemma orZ_nullish (o : option Z) : Server.orZ o 0 = JS.nullish o 0.
Proof.
  destruct o as [z|]; [| done]. cbn. by destruct (Z.eqb_spec z 0) as [-> | _].
Qed.

Lemma handleEvent_messageDelta now d st rs r :
  typeIs d "message_delta" = true ->
  deltaField delta_stop_reason d = Some r ->
  r <> "" ->
  handleEvent now d (st, rs)
  = let st1 := setMetricsData (updateMetrics (metricsData st) d) st in
    ((st1,
      rs ++ [Chunk (mkChunk (chunkId now st1) now (Some (chunkModel st1)) emptyDelta
                      (Some (mapStopReason r)) None)]),
     Completed).
Proof.
  intros Hs Hr Hne. unfold handleEvent, transformToOpenAI.
  rewrite Hs, Hr.
  rewrite (typeIs_exclusive d _ "ping" Hs) by done.
  rewrite (typeIs_exclusive d _ "content_block_start" Hs) by done.
  rewrite (typeIs_exclusive d _ "content_block_delta" Hs) by done.
  rewrite (typeIs_exclusive d _ "content_block_stop" Hs) by done.
  rewrite (typeIs_exclusive d _ "message_start" Hs) by done.
  rewrite (typeIs_exclusive d _ "message_stop" Hs) by done.
  cbn [andb JS.truthyOpt JS.nullish].
  by replace (JS.truthy r) with true by (by destruct r).
Qed.

(** The counters after an event that has no [message]. *)
Lemma updateMetrics_tokens md d :
  ev_message d = None ->
  let md' := match ev_usage d with Some u => addUsage u md | None => md end in
  md_input_tokens (updateMetrics md d) = md_input_tokens md'
  /\ md_output_tokens (updateMetrics md d) = md_output_tokens md'
  /\ md_cache_read_input_tokens (updateMetrics md d) = md_cache_read_input_tokens md'.
Proof.
  intros Hm. unfold updateMetrics. rewrite Hm.
  destruct (JS.truthyOpt (ev_model d)), (JS.truthyOpt (ev_stop_reason d)),
    (typeIs d "message_delta" && JS.truthyOpt (deltaField delta_stop_reason d)),
    (ev_usage d); done.
Qed.

Section Agreement.

Variable JSON_parse : string -> option AnthropicStreamEvent.

(** X5 (streaming and non-streaming agree).
    The end of a stream and a complete response are translated alike.
    Take a fresh converter state and a piece of stream whose events are a
    [message_delta] with the stop reason [r] and the usage [u], and the
    [message_stop]; take a complete response with the same stop reason
    and usage. If the input and output token counts are not both zero,
    the translator returns the finish-reason chunk, the usage chunk and
    the done marker; the finish reason of the first is the finish reason
    of the translated response, and the usage object of the second is its
    usage object. *)
Theorem closing_agreement (now now' : Z) (originalModel originalModel' : option string)
    (chunk : string) (d stop : AnthropicStreamEvent) (r : string) (u : AnthropicUsage)
    (resp : AnthropicFullResponse) :
  eventsOf JSON_parse chunk = [d; stop] ->
  typeIs d "message_delta" = true ->
  deltaField delta_stop_reason d = Some r ->
  r <> "" ->
  ev_usage d = Some u ->
  ev_message d = None ->
  typeIs stop "message_stop" = true ->
  ev_usage stop = None ->
  ev_message stop = None ->
  resp_stop_reason resp = Some r ->
  resp_usage resp = Some u ->
  JS.nullish (input_tokens u) 0 <> 0 \/ JS.nullish (output_tokens u) 0 <> 0 ->
  exists c1 c2,
    snd (processChunk JSON_parse now (createConverterState originalModel) chunk)
    = [Chunk c1; Chunk c2; Done]
    /\ finish_reason <$> choices c1
       = rc_finish_reason
         <$> r_choices (convertNonStreamingResponse now' resp originalModel')
    /\ usage c2 = Some (r_usage (convertNonStreamingResponse now' resp originalModel')).
Proof.
  intros Hev Htd Hr Hne Hu Hm Hts Hus Hms Hrr Hru Htok.
  rewrite processChunk_events.
  change (lineBuffer (createConverterState originalModel)) with "".
  rewrite append_nil_l, Hev.
  set (st0 := setLineBuffer _ _).
  cbn [runEvents]. unfold tryCatch. cbn [fst].
  rewrite (handleEvent_messageDelta now d st0 [] r Htd Hr Hne). cbn zeta. cbn [fst app].
  set (st1 := setMetricsData (updateMetrics (metricsData st0) d) st0).
  rewrite (handleEvent_stop now stop st1 _ Hts). cbn zeta. cbn [fst snd].
  set (st2 := setMetricsData (updateMetrics (metricsData st1) stop) st1).
  destruct (updateMetrics_tokens (metricsData st0) d Hm) as (Hi1 & Ho1 & Hc1).
  destruct (updateMetrics_tokens (metricsData st1) stop Hms) as (Hi2 & Ho2 & Hc2).
  rewrite Hu in Hi1, Ho1, Hc1. rewrite Hus in Hi2, Ho2, Hc2. cbn zeta in *.
  assert (Hi : md_input_tokens (metricsData st2) = JS.nullish (input_tokens u) 0).
  { unfold st2. cbn [metricsData setMetricsData]. rewrite Hi2.
    unfold st1. cbn [metricsData setMetricsData]. by rewrite Hi1. }
  assert (Ho : md_output_tokens (metricsData st2) = JS.nullish (output_tokens u) 0).
  { unfold st2. cbn [metricsData setMetricsData]. rewrite Ho2.
    unfold st1. cbn [metricsData setMetricsData]. by rewrite Ho1. }
  assert (Hc : md_cache_read_input_tokens (metricsData st2)
               = JS.nullish (cache_read_input_tokens u) 0).
  { unfold st2. cbn [metricsData setMetricsData]. rewrite Hc2.
    unfold st1. cbn [metricsData setMetricsData]. by rewrite Hc1. }
  unfold createUsageChunk. rewrite Hi, Ho, Hc.
  assert (Hz : (JS.nullish (input_tokens u) 0 =? 0) && (JS.nullish (output_tokens u) 0 =? 0)
               = false).
  { apply andb_false_iff. destruct Htok as [H | H]; [left | right]; by apply Z.eqb_neq. }
  rewrite Hz. cbn [app].
  do 2 eexists. split; [reflexivity |].
  unfold convertNonStreamingResponse.
  destruct (fold_left _ _ _) as [t calls]. cbn [r_choices r_usage].
  rewrite finishReason_mapStopReason, Hrr.
  replace (JS.truthy r) with true by (by destruct r).
  split; [reflexivity |].
  cbn [usage mkChunk]. unfold usageField. rewrite Hru, !orZ_nullish. reflexivity.
Qed.

End Agreement.

Import Scenarios MoreScenarios.

Lemma closing_agreement_witness :
  exists c1 c2,
    snd (processChunk (parseKnown closingPayloads) 1700000000123
           (createConverterState clientModel) (streamOf closingPayloads))
    = [Chunk c1; Chunk c2; Done]
    /\ finish_reason <$> choices c1
       = rc_finish_reason
         <$> r_choices (convertNonStreamingResponse 1700000000456 fullResponse clientModel)
    /\ usage c2
       = Some (r_usage (convertNonStreamingResponse 1700000000456 fullResponse clientModel)).
Proof.
  apply (closing_agreement (parseKnown closingPayloads) 1700000000123 1700000000456
           clientModel clientModel (streamOf closingPayloads)
           (readEvent (typed "message_delta"
              [("delta", JObj [("stop_reason", JStr "tool_use")]);
               ("usage", JObj [("input_tokens", JNum 10); ("output_tokens", JNum 3)])]))
           (readEvent (typed "message_stop" []))
           "tool_use"
           (readUsage [("input_tokens", JNum 10); ("output_tokens", JNum 3)])
           fullResponse);
    first [ by vm_compute | discriminate | left; by vm_compute ].
Defined.

(** *** The usage that is logged *)

(** X6 (logged usage).
    What [getUsageFromState] reports for the log and what the usage chunk
    tells the client are the same numbers: one is [null] exactly when the
    other is, and otherwise the input, output and total counts coincide
    and the cached tokens of the chunk are the cache-read tokens
    reported (0 for none). *)
Theorem getUsageFromState_matches_chunk (roundedPercent : Z -> Z -> Z) (now : Z)
    (st : ConverterState) :
  match getUsageFromState roundedPercent st, createUsageChunk now st with
  | Some logged, Some c =>
      exists u,
        usage c = Some u
        /\ prompt_tokens u = inputTokens logged
        /\ completion_tokens u = outputTokens logged
        /\ total_tokens u = totalTokens logged
        /\ detail_tokens (prompt_tokens_details u) = JS.nullish (cacheReadTokens logged) 0
  | None, None => True
  | _, _ => False
  end.
Proof.
  unfold getUsageFromState, createUsageChunk.
  destruct ((md_input_tokens (metricsData st) =? 0)
            && (md_output_tokens (metricsData st) =? 0)); [done |].
  eexists. split; [reflexivity |]. cbn. repeat split.
  unfold orUndefined.
  by destruct (Z.eqb_spec (md_cache_read_input_tokens (metricsData st)) 0) as [-> | _].
Qed.

End ResponseFacts.

Module InjectionFacts.
Import Json ThinkingCache ThinkingCacheFacts.

Section Again.

Variable redisGet : string -> option CachedThinkingBlock.

Lemma getCachedThinkingBlock_miss mem c :
  snd (getCachedThinkingBlock redisGet mem c) = None ->
  getCachedThinkingBlock redisGet mem c = (mem, None).
Proof.
  unfold getCachedThinkingBlock.
  destruct (mem !! generateCacheKey c); [done |].
  by destruct (redisGet (CACHE_KEY_PREFIX +:+ generateCacheKey c)).
Qed.

(** A message that was visited is left alone when it is visited again,
    and so is the memory cache. *)
Lemma visitMessage_again mem0 mem mem2 msg :
  holdsThinkingOnly redisGet mem0 ->
  agrees redisGet mem0 mem -> agrees redisGet mem0 mem2 ->
  let '(_, msg', _) := visitMessage redisGet mem msg in
  exists v, visitMessage redisGet mem2 msg' = (mem2, msg', v) /\ v <> Hit.
Proof.
  intros Hwf Hag Hag2.
  pose proof (visitMessage_spec redisGet mem msg) as Hv.
  destruct (visitMessage redisGet mem msg) as [[mem1 msg'] v].
  destruct Hv as [_ Hv]. destruct v.
  - (* Skipped *)
    destruct Hv as [-> Hl]. exists Skipped. split; [| done].
    unfold lacksThinking, isAssistant, hasThinking in Hl. unfold visitMessage.
    destruct (String.eqb (role msg) "assistant"); cbn [negb andb] in *; [| done].
    destruct (content msg) as [s | blocks]; [done |].
    apply negb_false_iff in Hl. by rewrite Hl.
  - (* Hit *)
    destruct Hv as (Hl & cached & Hc & Hpre). exists Skipped. split; [| done].
    assert (Hth : isThinkingBlock cached = true).
    { apply (Hwf (content msg)). unfold cachedFor in Hc. by rewrite <- (Hag (content msg)). }
    pose proof (hasThinking_prepended cached msg msg' Hth Hpre) as Hhas.
    destruct Hpre as [Hrole _].
    unfold lacksThinking, isAssistant in Hl. apply andb_true_iff in Hl as [Ha _].
    unfold visitMessage, hasThinking in *. rewrite Hrole, Ha. cbn [negb].
    destruct (content msg') as [s | blocks]; [done |]. by rewrite Hhas.
  - (* Miss *)
    destruct Hv as (-> & Hl & Hnone). exists Miss. split; [| done].
    unfold cachedFor in Hnone. rewrite (Hag (content msg)) in Hnone.
    rewrite <- (Hag2 (content msg)) in Hnone.
    apply getCachedThinkingBlock_miss in Hnone.
    unfold lacksThinking, isAssistant, hasThinking in Hl. unfold visitMessage.
    apply andb_true_iff in Hl as [Ha Hn]. rewrite Ha. cbn [negb].
    destruct (content msg) as [s | blocks].
    + by rewrite Hnone.
    + apply negb_true_iff in Hn. by rewrite Hn, Hnone.
Qed.

Lemma injectLoop_again mem0 msgs : forall mem i,
  holdsThinkingOnly redisGet mem0 ->
  agrees redisGet mem0 mem ->
  let '(mem', msgs', _) := injectLoop redisGet mem msgs i in
  agrees redisGet mem0 mem'
  /\ forall mem2 k, agrees redisGet mem0 mem2 ->
                    injectLoop redisGet mem2 msgs' k = (mem2, msgs', k).
Proof.
  induction msgs as [|m ms IH]; intros mem i Hwf Hag; cbn [injectLoop]; [done |].
  pose proof (visitMessage_again mem0 mem) as Hagain.
  pose proof (visitMessage_spec redisGet mem m) as Hv.
  destruct (visitMessage redisGet mem m) as [[mem1 m'] v] eqn:Ev.
  destruct Hv as [Hag1 _].
  assert (Hag01 : agrees redisGet mem0 mem1) by (eapply agrees_trans; eassumption).
  specialize (IH mem1 (match v with Hit => i + 1 | _ => i end) Hwf Hag01).
  destruct (injectLoop redisGet mem1 ms _) as [[mem2 ms'] n].
  destruct IH as [Hag2 IH]. split; [done |].
  intros mem3 k Hag3. cbn [injectLoop].
  specialize (Hagain mem3 m Hwf Hag Hag3). rewrite Ev in Hagain.
  destruct Hagain as (v' & -> & Hv').
  rewrite (IH mem3 (match v' with Hit => k + 1 | _ => k end) Hag3).
  by destruct v'.
Qed.

(** X7 (idempotent injection).
    The injection is idempotent. When the cache holds thinking blocks
    only, running [injectCachedThinkingBlocks] on the messages it has
    returned, against the memory cache it has left, injects nothing: the
    count is 0, the messages stay as they are, and so does the memory
    cache. *)
Theorem injection_idempotent (memoryCache : gmap string CachedThinkingBlock)
    (messages : list AnthropicMessage) :
  holdsThinkingOnly redisGet memoryCache ->
  let '(memoryCache', messages', _) :=
    injectCachedThinkingBlocks redisGet memoryCache messages in
  injectCachedThinkingBlocks redisGet memoryCache' messages'
  = (memoryCache', messages', 0).
Proof.
  intros Hwf. unfold injectCachedThinkingBlocks.
  pose proof (injectLoop_again memoryCache messages memoryCache 0 Hwf
                (agrees_refl redisGet memoryCache)) as H.
  destruct (injectLoop redisGet memoryCache messages 0) as [[mem' msgs'] n].
  destruct H as [Hag H]. by apply H.
Qed.

End Again.

Import Scenarios.

Lemma injection_idempotent_witness :
  let '(memoryCache', messages', _) :=
    injectCachedThinkingBlocks noRedis memoryWithFirst history in
  injectCachedThinkingBlocks noRedis memoryCache' messages'
  = (memoryCache', messages', 0).
Proof.
  exact (injection_idempotent noRedis memoryWithFirst history
           holdsThinkingOnly_memoryWithFirst).
Defined.

End InjectionFacts.

(* ===================================================================== *)
(** ** Writing to the thinking cache *)
(* ===================================================================== *)

Module MemoryCacheFacts.
Import Json ThinkingCache MemoryCache ThinkingCacheFacts.

(** *** The map *)

Lemma eqb_false_ne (a b : string) : String.eqb a b = false <-> a <> b.
Proof. apply String.eqb_neq. Qed.

Lemma asMap_lookup (entries : Entries) (key : string) :
  asMap entries !! key = mapGet key entries.
Proof.
  unfold asMap, mapGet. induction entries as [|[k v] rest IH]; [done |].
  cbn [list_to_map foldr getProp]. cbn.
  destruct (String.eqb_spec k key) as [-> | Hne].
  - by rewrite lookup_insert_eq.
  - by rewrite lookup_insert_ne.
Qed.

Lemma mapGet_mapSet (key : string) (value : CachedThinkingBlock) (entries : Entries) :
  mapGet key (mapSet key value entries) = Some value.
Proof.
  unfold mapGet. induction entries as [|[k v] rest IH]; cbn [mapSet getProp].
  - by rewrite String.eqb_refl.
  - destruct (String.eqb k key) eqn:E; cbn [getProp]; by rewrite E.
Qed.

Lemma mapGet_mapSet_ne (key key' : string) (value : CachedThinkingBlock) (entries : Entries) :
  key <> key' -> mapGet key' (mapSet key value entries) = mapGet key' entries.
Proof.
  intros Hne. unfold mapGet. induction entries as [|[k v] rest IH]; cbn [mapSet getProp].
  - by rewrite (proj2 (String.eqb_neq key key') Hne).
  - destruct (String.eqb_spec k key) as [-> | Hk]; cbn [getProp].
    + by rewrite (proj2 (String.eqb_neq key key') Hne).
    + by rewrite IH.
Qed.

Lemma keys_mapSet (key : string) (value : CachedThinkingBlock) (entries : Entries) :
  keys (mapSet key value entries)
  = if bool_decide (key ∈ keys entries) then keys entries else keys entries ++ [key].
Proof.
  unfold keys. induction entries as [|[k v] rest IH]; cbn [mapSet]; [done |].
  destruct (String.eqb_spec k key) as [-> | Hk].
  - rewrite bool_decide_eq_true_2; [done |]. rewrite fmap_cons. by left.
  - rewrite !fmap_cons, IH. cbn [fst].
    destruct (decide (key ∈ rest.*1)) as [Hin | Hin].
    + rewrite !bool_decide_eq_true_2; [done | by right | done].
    + rewrite !bool_decide_eq_false_2; [done | | done].
      intros [? | ?]%elem_of_cons; congruence.
Qed.

Lemma NoDup_mapSet (key : string) (value : CachedThinkingBlock) (entries : Entries) :
  NoDup (keys entries) -> NoDup (keys (mapSet key value entries)).
Proof.
  intros Hnd. rewrite keys_mapSet.
  destruct (decide (key ∈ keys entries)) as [Hin | Hin].
  - by rewrite bool_decide_eq_true_2.
  - rewrite bool_decide_eq_false_2 by done.
    apply NoDup_app. split; [done |]. split; [| apply NoDup_singleton].
    intros x Hx ->%list_elem_of_singleton. done.
Qed.

Lemma length_mapSet (key : string) (value : CachedThinkingBlock) (entries : Entries) :
  (length (mapSet key value entries) <= S (length entries))%nat.
Proof.
  rewrite <- (length_fmap fst (mapSet _ _ _)), <- (length_fmap fst entries).
  fold (keys (mapSet key value entries)). fold (keys entries). rewrite keys_mapSet.
  destruct (bool_decide _); [lia |]. rewrite length_app. cbn. lia.
Qed.

Lemma keys_mapDelete (key : string) (entries : Entries) :
  keys (mapDelete key entries) = filter (fun k => k <> key) (keys entries).
Proof.
  unfold keys, mapDelete. induction entries as [|[k v] rest IH]; [done |].
  rewrite fmap_cons, !filter_cons. cbn [fst].
  destruct (decide (String.eqb k key = false)) as [E | E],
    (decide (k <> key)) as [N | N].
  - cbn [fmap list_fmap fst]. f_equal. exact IH.
  - apply String.eqb_neq in E. done.
  - exfalso. apply E. by apply String.eqb_neq.
  - exact IH.
Qed.

Lemma length_filter_ne (key : string) (ks : list string) :
  NoDup ks -> key ∈ ks ->
  S (length (filter (fun k => k <> key) ks)) = length ks.
Proof.
  induction ks as [|k ks IH]; intros Hnd Hin; [by apply elem_of_nil in Hin |].
  apply NoDup_cons in Hnd as [Hk Hnd]. rewrite filter_cons.
  destruct (decide (k <> key)) as [Hne | Heq].
  - apply elem_of_cons in Hin as [-> | Hin]; [done |]. cbn [length]. by rewrite IH.
  - assert (k = key) as -> by (destruct (decide (k = key)); [done | by exfalso; apply Heq]).
    cbn [length]. f_equal.
    replace (filter (fun k => k <> key) ks) with ks; [done |].
    symmetry. apply filter_all.
    apply Forall_forall. intros x Hx ->. done.
Qed.

Lemma length_mapDelete (key : string) (entries : Entries) :
  NoDup (keys entries) -> key ∈ keys entries ->
  S (length (mapDelete key entries)) = length entries.
Proof.
  intros Hnd Hin.
  rewrite <- (length_fmap fst (mapDelete key entries)), <- (length_fmap fst entries).
  change (S (length (keys (mapDelete key entries))) = length (keys entries)).
  rewrite keys_mapDelete. by apply length_filter_ne.
Qed.

(** The [for] loop of [cleanupMemoryCache]. *)
Lemma fold_delete_spec (toRemove : Entries) : forall (entries : Entries),
  NoDup (keys entries) -> NoDup (keys toRemove) -> keys toRemove ⊆ keys entries ->
  let after := fold_left (fun m e => mapDelete (fst e) m) toRemove entries in
  (length after + length toRemove = length entries)%nat
  /\ after = filter (fun e => fst e ∉ keys toRemove) entries.
Proof.
  induction toRemove as [|[k v] rem IH]; intros entries Hnd Hr Hsub; cbn [fold_left fst].
  { split; [cbn; lia |]. symmetry. apply filter_all.
    apply Forall_forall. intros x _. apply not_elem_of_nil. }
  unfold keys in Hr. rewrite fmap_cons in Hr. cbn [fst] in Hr.
  apply NoDup_cons in Hr as [Hk Hr].
  assert (Hin : k ∈ keys entries) by (apply Hsub; unfold keys; rewrite fmap_cons; by left).
  destruct (IH (mapDelete k entries)) as [Hlen Heq].
  - rewrite keys_mapDelete. by apply NoDup_filter.
  - exact Hr.
  - intros x Hx. rewrite keys_mapDelete. apply list_elem_of_filter. split.
    + intros ->. done.
    + apply Hsub. unfold keys. rewrite fmap_cons. by right.
  - cbn zeta. split.
    + pose proof (length_mapDelete k entries Hnd Hin). cbn [length]. lia.
    + rewrite Heq. unfold mapDelete. rewrite list_filter_filter.
      apply list_filter_iff. intros [k' v']. cbn [fst]. unfold keys. rewrite fmap_cons.
      cbn [fst]. rewrite not_elem_of_cons, String.eqb_neq. tauto.
Qed.

(** *** The sort *)

Lemma insertByTimestamp_Permutation e (sorted : Entries) :
  insertByTimestamp e sorted ≡ₚ e :: sorted.
Proof.
  induction sorted as [|e' rest IH]; cbn [insertByTimestamp]; [done |].
  destruct (timestamp (snd e) <=? timestamp (snd e')); [done |].
  rewrite IH. apply Permutation_swap.
Qed.

Lemma sortByTimestamp_Permutation (entries : Entries) : sortByTimestamp entries ≡ₚ entries.
Proof.
  unfold sortByTimestamp. induction entries as [|e rest IH]; cbn [foldr]; [done |].
  by rewrite insertByTimestamp_Permutation, IH.
Qed.

(** Ascending timestamps: each entry is no younger than all that follow. *)
Lemma insertByTimestamp_sorted e (sorted : Entries) :
  StronglySorted (fun a b => timestamp (snd a) <= timestamp (snd b)) sorted ->
  StronglySorted (fun a b => timestamp (snd a) <= timestamp (snd b))
    (insertByTimestamp e sorted).
Proof.
  induction 1 as [|e' rest Hs IH Hall]; cbn [insertByTimestamp].
  { repeat constructor. }
  destruct (Z.leb_spec (timestamp (snd e)) (timestamp (snd e'))) as [Hle | Hgt].
  - constructor; [by constructor |]. constructor; [done |].
    eapply Forall_impl; [exact Hall |]. cbn. intros; lia.
  - constructor; [done |]. rewrite insertByTimestamp_Permutation.
    constructor; [lia | done].
Qed.

Lemma sortByTimestamp_sorted (entries : Entries) :
  StronglySorted (fun a b => timestamp (snd a) <= timestamp (snd b))
    (sortByTimestamp entries).
Proof.
  unfold sortByTimestamp. induction entries as [|e rest IH]; cbn [foldr]; [constructor |].
  by apply insertByTimestamp_sorted.
Qed.

Lemma sorted_take_drop (l : Entries) (n : nat) a b :
  StronglySorted (fun a b => timestamp (snd a) <= timestamp (snd b)) l ->
  a ∈ take n l -> b ∈ drop n l -> timestamp (snd a) <= timestamp (snd b).
Proof.
  intros Hs Ha Hb. rewrite <- (take_drop n l) in Hs.
  exact (StronglySorted_app_1_elem_of _ _ _ _ _ Hs Ha Hb).
Qed.

(** *** [cleanupMemoryCache] *)

Lemma cleanup_spec (memoryCache : Entries) :
  NoDup (keys memoryCache) ->
  let toRemove := take (length memoryCache - MAX_MEMORY_CACHE_SIZE)
                    (sortByTimestamp memoryCache) in
  (length (cleanupMemoryCache memoryCache)
   = Nat.min (length memoryCache) MAX_MEMORY_CACHE_SIZE)%nat
  /\ cleanupMemoryCache memoryCache
     = filter (fun e => fst e ∉ keys toRemove) memoryCache.
Proof.
  intros Hnd. cbn zeta. unfold cleanupMemoryCache.
  pose proof (sortByTimestamp_Permutation memoryCache) as Hp.
  rewrite (Permutation_length Hp).
  destruct (Nat.ltb_spec MAX_MEMORY_CACHE_SIZE (length memoryCache)) as [Hlt | Hge].
  - set (toRemove := take _ _).
    assert (Hsub : toRemove ⊆ memoryCache).
    { intros x Hx. rewrite <- Hp. eapply elem_of_sublist; [exact Hx |]. apply sublist_take. }
    assert (Hsl : sublist (keys toRemove) (keys (sortByTimestamp memoryCache))).
    { apply fmap_sublist. apply sublist_take. }
    assert (Hnds : NoDup (keys (sortByTimestamp memoryCache))).
    { unfold keys. by rewrite Hp. }
    destruct (fold_delete_spec toRemove memoryCache Hnd) as [Hlen Heq].
    + eapply sublist_NoDup; [exact Hnds | exact Hsl].
    + intros k Hk. unfold keys in *. apply list_elem_of_fmap in Hk as (e & -> & He).
      apply list_elem_of_fmap. exists e. split; [done |]. by apply Hsub.
    + cbn zeta in *. split; [| exact Heq].
      assert (length toRemove = length memoryCache - MAX_MEMORY_CACHE_SIZE)%nat.
      { unfold toRemove. rewrite length_take, (Permutation_length Hp). lia. }
      lia.
  - split; [lia |]. symmetry. apply filter_all.
    replace (length memoryCache - MAX_MEMORY_CACHE_SIZE)%nat with 0%nat by lia.
    apply Forall_forall. intros x _. cbn. apply not_elem_of_nil.
Qed.

Lemma NoDup_cleanup (memoryCache : Entries) :
  NoDup (keys memoryCache) -> NoDup (keys (cleanupMemoryCache memoryCache)).
Proof.
  intros Hnd. destruct (cleanup_spec memoryCache Hnd) as [_ ->].
  eapply sublist_NoDup; [exact Hnd |]. apply fmap_sublist, sublist_filter.
Qed.

Lemma entry_unique (entries : Entries) e1 e2 :
  NoDup (keys entries) -> e1 ∈ entries -> e2 ∈ entries -> fst e1 = fst e2 -> e1 = e2.
Proof.
  unfold keys. induction entries as [|e rest IH]; intros Hnd H1 H2 Hk.
  { by apply elem_of_nil in H1. }
  rewrite fmap_cons in Hnd. apply NoDup_cons in Hnd as [Hnot Hnd].
  apply elem_of_cons in H1 as [-> | H1], H2 as [-> | H2]; [done | | | by apply IH].
  - exfalso. apply Hnot. rewrite Hk. by apply list_elem_of_fmap_2.
  - exfalso. apply Hnot. rewrite <- Hk. by apply list_elem_of_fmap_2.
Qed.

(** X8 (eviction of the oldest).
    The clean-up evicts the oldest entries. On a map (each key once) of
    any size, [cleanupMemoryCache] leaves the smaller of the size and 100
    entries; the entries it leaves keep their values and their order; and
    every entry it removes has a timestamp no later than every entry it
    leaves. *)
Theorem cleanupMemoryCache_evicts_oldest (memoryCache : Entries) :
  NoDup (keys memoryCache) ->
  (length (cleanupMemoryCache memoryCache)
   = Nat.min (length memoryCache) MAX_MEMORY_CACHE_SIZE)%nat
  /\ sublist (cleanupMemoryCache memoryCache) memoryCache
  /\ forall evicted kept,
       evicted ∈ memoryCache -> evicted ∉ cleanupMemoryCache memoryCache ->
       kept ∈ cleanupMemoryCache memoryCache ->
       timestamp (snd evicted) <= timestamp (snd kept).
Proof.
  intros Hnd. destruct (cleanup_spec memoryCache Hnd) as [Hlen Heq]. cbn zeta in Heq.
  split; [exact Hlen |]. rewrite Heq. split; [apply sublist_filter |].
  set (n := (length memoryCache - MAX_MEMORY_CACHE_SIZE)%nat) in *.
  set (sorted := sortByTimestamp memoryCache) in *.
  pose proof (sortByTimestamp_Permutation memoryCache) as Hp. fold sorted in Hp.
  intros evicted kept He Hne Hk.
  apply list_elem_of_filter in Hk as [Hk1 Hk2].
  assert (Hin : fst evicted ∈ keys (take n sorted)).
  { destruct (decide (fst evicted ∈ keys (take n sorted))) as [? | Hn]; [done |].
    exfalso. apply Hne. apply list_elem_of_filter. by split. }
  apply list_elem_of_fmap in Hin as (e0 & Hk0 & Hin0).
  assert (He0 : e0 ∈ memoryCache).
  { rewrite <- Hp. eapply elem_of_sublist; [exact Hin0 |]. apply sublist_take. }
  assert (evicted = e0) as -> by (by apply (entry_unique memoryCache)).
  apply (sorted_take_drop sorted n); [apply sortByTimestamp_sorted | exact Hin0 |].
  assert (Hks : kept ∈ sorted) by (by rewrite Hp).
  rewrite <- (take_drop n sorted) in Hks. apply elem_of_app in Hks as [Ht | Hd]; [| done].
  exfalso. apply Hk1. by apply list_elem_of_fmap_2.
Qed.

(** X9 (a write bounds the memory cache, a look-up does not).
    From a map of any size (each key once), a call of
    [cacheThinkingBlock] that writes (the content has a block that is not
    a thinking block) leaves at most 101 entries, each key once: the limit
    of 100 is enforced before the new entry goes in. A call that does not
    write leaves the map as it is. The bound is one of the write alone:
    the back-fill of [getCachedThinkingBlock] sets its entry without any
    clean-up, so a look-up that misses the memory cache and finds the
    entry in Redis leaves one entry more than there were, also beyond
    101. *)
Theorem cacheThinkingBlock_bounded (now : Z) (memoryCache : Entries)
    (assistantContent : list ContentBlock) (thinkingBlock : ContentBlock) :
  NoDup (keys memoryCache) ->
  let memoryCache' := cacheThinkingBlock now memoryCache assistantContent thinkingBlock in
  NoDup (keys memoryCache')
  /\ (nonThinkingContent assistantContent <> [] ->
      (length memoryCache' <= S MAX_MEMORY_CACHE_SIZE)%nat)
  /\ (nonThinkingContent assistantContent = [] -> memoryCache' = memoryCache)
  /\ (forall (redisGet : string -> option CachedThinkingBlock) (c : MessageContent)
             (parsed : CachedThinkingBlock),
        asMap memoryCache' !! generateCacheKey c = None ->
        redisGet (CACHE_KEY_PREFIX +:+ generateCacheKey c) = Some parsed ->
        size (fst (getCachedThinkingBlock redisGet (asMap memoryCache') c))
        = S (length memoryCache')).
Proof.
  intros Hnd. cbn zeta.
  assert (Hnd' : NoDup (keys (cacheThinkingBlock now memoryCache assistantContent
                                thinkingBlock))).
  { unfold cacheThinkingBlock.
    destruct (nonThinkingContent assistantContent) as [|b rest]; [done |].
    by apply NoDup_mapSet, NoDup_cleanup. }
  split; [done |]. split; [| split].
  - unfold cacheThinkingBlock.
    destruct (nonThinkingContent assistantContent) as [|b rest]; [done |]. intros _.
    etrans; [apply length_mapSet |].
    destruct (cleanup_spec memoryCache Hnd) as [-> _]. lia.
  - unfold cacheThinkingBlock.
    by destruct (nonThinkingContent assistantContent) as [|b rest].
  - intros redisGet c parsed Hm Hr. unfold getCachedThinkingBlock. rewrite Hm, Hr.
    cbn [fst]. rewrite map_size_insert_None by done. f_equal.
    unfold asMap. by apply map_size_list_to_map.
Qed.

Section RoundTrip.

Variable redisGet : string -> option CachedThinkingBlock.

Lemma cacheThinkingBlock_key (content : list ContentBlock) :
  generateCacheKey (BlockContent (nonThinkingContent content))
  = generateCacheKey (BlockContent content).
Proof.
  apply generateCacheKey_text. cbn [textContentOf]. by rewrite omap_blockPart_nonThinking.
Qed.

Lemma generateCacheKey_normalize (c1 c2 : MessageContent) :
  normalize (textContentOf c1) = normalize (textContentOf c2) ->
  generateCacheKey c1 = generateCacheKey c2.
Proof. unfold generateCacheKey. by intros ->. Qed.

Lemma lookup_after_cache (now : Z) (memoryCache : Entries)
    (assistantContent : list ContentBlock) (thinkingBlock : ContentBlock)
    (c : MessageContent) :
  nonThinkingContent assistantContent <> [] ->
  normalize (textContentOf c) = normalize (textContentOf (BlockContent assistantContent)) ->
  let memoryCache' := cacheThinkingBlock now memoryCache assistantContent thinkingBlock in
  getCachedThinkingBlock redisGet (asMap memoryCache') c
  = (asMap memoryCache', Some thinkingBlock)
  /\ ((length memoryCache <= MAX_MEMORY_CACHE_SIZE)%nat ->
      forall key, key <> generateCacheKey c ->
                  asMap memoryCache' !! key = asMap memoryCache !! key).
Proof.
  intros Hne Hc. cbn zeta. unfold cacheThinkingBlock.
  pose proof (cacheThinkingBlock_key assistantContent) as Hk.
  destruct (nonThinkingContent assistantContent) as [|b rest] eqn:E; [done |].
  rewrite Hk, <- (generateCacheKey_normalize _ _ Hc). split.
  - unfold getCachedThinkingBlock. by rewrite asMap_lookup, mapGet_mapSet.
  - intros Hlen key Hkey. rewrite !asMap_lookup, mapGet_mapSet_ne by done.
    unfold cleanupMemoryCache.
    by destruct (Nat.ltb_spec MAX_MEMORY_CACHE_SIZE (length memoryCache)); [lia |].
Qed.

(** X10 (cache round trip).
    What is cached is found again. After [cacheThinkingBlock] has cached
    a block against a content that has some block other than thinking
    blocks, the look-up of any content with the same text up to white
    space (a string or blocks, with or without thinking blocks) returns
    that block from the memory tier, whatever was cached before and
    whatever Redis holds, and leaves the memory cache as it is. As long
    as the cache held at most 100 entries, the entries under other keys
    are still there. *)
Theorem cached_block_found (now : Z) (memoryCache : Entries)
    (assistantContent : list ContentBlock) (thinkingBlock : ContentBlock)
    (c : MessageContent) :
  nonThinkingContent assistantContent <> [] ->
  normalize (textContentOf c) = normalize (textContentOf (BlockContent assistantContent)) ->
  let memoryCache' := cacheThinkingBlock now memoryCache assistantContent thinkingBlock in
  getCachedThinkingBlock redisGet (asMap memoryCache') c
  = (asMap memoryCache', Some thinkingBlock)
  /\ ((length memoryCache <= MAX_MEMORY_CACHE_SIZE)%nat ->
      forall key, key <> generateCacheKey c ->
                  asMap memoryCache' !! key = asMap memoryCache !! key).
Proof. apply lookup_after_cache. Qed.

End RoundTrip.

Import Scenarios MoreScenarios.

Lemma NoDup_filledCache : NoDup (keys (filledCache 103)).
Proof. apply (bool_decide_unpack _). by vm_compute. Qed.

Lemma cleanupMemoryCache_evicts_oldest_witness :
  (length (cleanupMemoryCache (filledCache 103))
   = Nat.min (length (filledCache 103)) MAX_MEMORY_CACHE_SIZE)%nat
  /\ sublist (cleanupMemoryCache (filledCache 103)) (filledCache 103)
  /\ forall evicted kept,
       evicted ∈ filledCache 103 -> evicted ∉ cleanupMemoryCache (filledCache 103) ->
       kept ∈ cleanupMemoryCache (filledCache 103) ->
       timestamp (snd evicted) <= timestamp (snd kept).
Proof.
  apply (cleanupMemoryCache_evicts_oldest (filledCache 103)).
  apply (bool_decide_unpack _). by vm_compute.
Defined.

Lemma cacheThinkingBlock_bounded_witness :
  let memoryCache' :=
    cacheThinkingBlock 1700000000123 (filledCache 103) [plan; textBlock "Hello"] plan in
  NoDup (keys memoryCache')
  /\ (nonThinkingContent [plan; textBlock "Hello"] <> [] ->
      (length memoryCache' <= S MAX_MEMORY_CACHE_SIZE)%nat)
  /\ (nonThinkingContent [plan; textBlock "Hello"] = [] -> memoryCache' = filledCache 103)
  /\ (forall (redisGet : string -> option CachedThinkingBlock) (c : MessageContent)
             (parsed : CachedThinkingBlock),
        asMap memoryCache' !! generateCacheKey c = None ->
        redisGet (CACHE_KEY_PREFIX +:+ generateCacheKey c) = Some parsed ->
        size (fst (getCachedThinkingBlock redisGet (asMap memoryCache') c))
        = S (length memoryCache')).
Proof.
  apply (cacheThinkingBlock_bounded 1700000000123 (filledCache 103)
           [plan; textBlock "Hello"] plan).
  apply (bool_decide_unpack _). by vm_compute.
Defined.

Lemma cached_block_found_witness :
  let memoryCache' :=
    cacheThinkingBlock 1700000000123 (filledCache 3) [plan; textBlock "Hello"] plan in
  getCachedThinkingBlock noRedis (asMap memoryCache') (TextContent " Hello  ")
  = (asMap memoryCache', Some plan)
  /\ ((length (filledCache 3) <= MAX_MEMORY_CACHE_SIZE)%nat ->
      forall key, key <> generateCacheKey (TextContent " Hello  ") ->
                  asMap memoryCache' !! key = asMap (filledCache 3) !! key).
Proof.
  apply (cached_block_found noRedis 1700000000123 (filledCache 3)
           [plan; textBlock "Hello"] plan (TextContent " Hello  ")).
  - discriminate.
  - vm_compute. reflexivity.
Defined.

End MemoryCacheFacts.

Module KeyFacts.
Import Json ThinkingCache MemoryCache ThinkingCacheFacts MemoryCacheFacts Text.

(** *** White space in the key *)

Lemma collapseFrom_true_ws (w b : string) :
  allWhiteSpace w = true -> JS.collapseFrom true (w +:+ b) = JS.collapseFrom true b.
Proof.
  induction w as [|c w IH]; cbn [allWhiteSpace]; [by rewrite append_nil_l |].
  intros [Hc Hw]%andb_true_iff. rewrite append_cons. cbn [JS.collapseFrom].
  rewrite Hc. by apply IH.
Qed.

Lemma collapseFrom_ws (r : bool) (w b : string) :
  allWhiteSpace w = true -> w <> "" ->
  JS.collapseFrom r (w +:+ b)
  = (if r then "" else " ") +:+ JS.collapseFrom true b.
Proof.
  destruct w as [|c w]; [done |]. cbn [allWhiteSpace].
  intros [Hc Hw]%andb_true_iff _. rewrite append_cons. cbn [JS.collapseFrom].
  rewrite Hc, (collapseFrom_true_ws w b Hw). by destruct r.
Qed.

Lemma collapseFrom_app (a : string) : forall r,
  exists r', forall b,
    JS.collapseFrom r (a +:+ b) = JS.collapseFrom r a +:+ JS.collapseFrom r' b.
Proof.
  induction a as [|c a IH]; intros r.
  { exists r. intros b. by rewrite !append_nil_l. }
  cbn [JS.collapseFrom]. destruct (JS.isWhiteSpace c) eqn:Hc.
  - destruct (IH true) as [r' Hr']. exists r'. intros b.
    rewrite append_cons. cbn [JS.collapseFrom]. rewrite Hc, Hr'. by destruct r.
  - destruct (IH false) as [r' Hr']. exists r'. intros b.
    rewrite append_cons. cbn [JS.collapseFrom]. by rewrite Hc, Hr'.
Qed.

Lemma allWhiteSpace_collapseFrom (r : bool) (w : string) :
  allWhiteSpace w = true -> allWhiteSpace (JS.collapseFrom r w) = true.
Proof.
  revert r. induction w as [|c w IH]; intros r; cbn [allWhiteSpace JS.collapseFrom]; [done |].
  intros [Hc Hw]%andb_true_iff. rewrite Hc.
  destruct r; cbn [allWhiteSpace]; by rewrite ?IH.
Qed.

Lemma trimStart_collapseFrom (s : string) :
  JS.trimStart (JS.collapseFrom true s) = JS.trimStart (JS.collapseFrom false s).
Proof.
  destruct s as [|c s]; [done |]. cbn [JS.collapseFrom].
  by destruct (JS.isWhiteSpace c).
Qed.

Lemma trimStart_ws (w : string) : allWhiteSpace w = true -> JS.trimStart w = "".
Proof.
  induction w as [|c w IH]; cbn [allWhiteSpace JS.trimStart]; [done |].
  intros [Hc Hw]%andb_true_iff. rewrite Hc. by apply IH.
Qed.

Lemma trimEnd_ws (w : string) : allWhiteSpace w = true -> JS.trimEnd w = "".
Proof.
  induction w as [|c w IH]; cbn [allWhiteSpace JS.trimEnd]; [done |].
  intros [Hc Hw]%andb_true_iff. by rewrite Hc, (IH Hw).
Qed.

Lemma trimEnd_app_ws (x w : string) :
  allWhiteSpace w = true -> JS.trimEnd (x +:+ w) = JS.trimEnd x.
Proof.
  intros Hw. induction x as [|c x IH].
  - rewrite append_nil_l. by apply trimEnd_ws.
  - rewrite append_cons. cbn [JS.trimEnd]. by rewrite IH.
Qed.

Lemma trim_app_ws (x w : string) :
  allWhiteSpace w = true -> JS.trim (x +:+ w) = JS.trim x.
Proof.
  intros Hw. unfold JS.trim. induction x as [|c x IH].
  - rewrite append_nil_l. by rewrite (trimStart_ws w Hw).
  - rewrite append_cons. cbn [JS.trimStart]. destruct (JS.isWhiteSpace c); [exact IH |].
    rewrite <- append_cons. by apply trimEnd_app_ws.
Qed.

Lemma normalize_leading (w s : string) :
  allWhiteSpace w = true -> normalize (w +:+ s) = normalize s.
Proof.
  intros Hw. destruct (decide (w = "")) as [-> | Hne]; [by rewrite append_nil_l |].
  unfold normalize, JS.collapseWhiteSpace, JS.trim.
  rewrite (collapseFrom_ws false w s Hw Hne). rewrite append_cons, append_nil_l.
  cbn [JS.trimStart]. change (JS.isWhiteSpace " ") with true. cbn match.
  by rewrite trimStart_collapseFrom.
Qed.

Lemma normalize_trailing (s w : string) :
  allWhiteSpace w = true -> normalize (s +:+ w) = normalize s.
Proof.
  intros Hw. unfold normalize, JS.collapseWhiteSpace.
  destruct (collapseFrom_app s false) as [r' ->].
  apply trim_app_ws. by apply allWhiteSpace_collapseFrom.
Qed.

Lemma normalize_inner (a b v1 v2 : string) :
  allWhiteSpace v1 = true -> v1 <> "" ->
  allWhiteSpace v2 = true -> v2 <> "" ->
  normalize (a +:+ v1 +:+ b) = normalize (a +:+ v2 +:+ b).
Proof.
  intros H1 N1 H2 N2. unfold normalize, JS.collapseWhiteSpace.
  destruct (collapseFrom_app a false) as [r' Hr']. rewrite !Hr'.
  by rewrite (collapseFrom_ws r' v1 b H1 N1), (collapseFrom_ws r' v2 b H2 N2).
Qed.

(** X11 (white space in the key).
    The key of a text does not see the layout of its white space: white
    space before and after the text is ignored, and the key stays the
    same when a run of white space inside the text is replaced by another
    run, of any length and of any white-space characters. *)
Theorem cache_key_white_space (s a b w1 w2 v1 v2 : string) :
  allWhiteSpace w1 = true -> allWhiteSpace w2 = true ->
  allWhiteSpace v1 = true -> v1 <> "" ->
  allWhiteSpace v2 = true -> v2 <> "" ->
  generateCacheKey (TextContent (w1 +:+ s +:+ w2)) = generateCacheKey (TextContent s)
  /\ generateCacheKey (TextContent (a +:+ v1 +:+ b))
     = generateCacheKey (TextContent (a +:+ v2 +:+ b)).
Proof.
  intros Hw1 Hw2 Hv1 Nv1 Hv2 Nv2. split; apply generateCacheKey_normalize; cbn [textContentOf].
  - by rewrite (normalize_leading w1 _ Hw1), (normalize_trailing s w2 Hw2).
  - by apply normalize_inner.
Qed.

Lemma cache_key_white_space_witness :
  generateCacheKey (TextContent (" " +:+ "Hello world" +:+ "  "))
  = generateCacheKey (TextContent "Hello world")
  /\ generateCacheKey (TextContent ("Hello" +:+ "   " +:+ "world"))
     = generateCacheKey (TextContent ("Hello" +:+ " " +:+ "world")).
Proof.
  apply (cache_key_white_space "Hello world" "Hello" "world" " " "  " "   " " ");
    first [reflexivity | discriminate].
Defined.

(** *** Colliding keys *)

Lemma toInt32_spec (x : Z) : exists k, JS.toInt32 x = x + k * 4294967296.
Proof.
  unfold JS.toInt32. pose proof (Z.mod_eq x 4294967296 ltac:(lia)) as E.
  destruct (x mod 4294967296 <? 2147483648).
  - exists (- (x / 4294967296)). lia.
  - exists (- (x / 4294967296) - 1). lia.
Qed.

Lemma toInt32_congr (x y k : Z) : x = y + k * 4294967296 -> JS.toInt32 x = JS.toInt32 y.
Proof. intros ->. unfold JS.toInt32. by rewrite Z_mod_plus_full. Qed.

(** One round of the hash is [31 * hash + char], wrapped. *)
Lemma hash_round (hash c : Z) :
  JS.toInt32 (JS.toInt32 (hash * 32) - hash + c) = JS.toInt32 (31 * hash + c).
Proof.
  destruct (toInt32_spec (hash * 32)) as [k ->].
  apply (toInt32_congr _ _ k). lia.
Qed.

Lemma hash_two_rounds (hash c1 c2 : Z) :
  JS.toInt32 (31 * JS.toInt32 (31 * hash + c1) + c2)
  = JS.toInt32 (961 * hash + 31 * c1 + c2).
Proof.
  destruct (toInt32_spec (31 * hash + c1)) as [k ->].
  apply (toInt32_congr _ _ (31 * k)). lia.
Qed.

Lemma hashFrom_Aa_BB (hash : Z) (s : string) :
  hashFrom hash ("Aa" +:+ s) = hashFrom hash ("BB" +:+ s).
Proof.
  rewrite !append_cons, !append_nil_l. cbn [hashFrom].
  rewrite !hash_round.
  change (JS.charCode "A") with 65. change (JS.charCode "a") with 97.
  change (JS.charCode "B") with 66.
  rewrite !hash_two_rounds. do 2 f_equal. lia.
Qed.

Lemma hashFrom_app (a b : string) : forall hash,
  hashFrom hash (a +:+ b) = hashFrom (hashFrom hash a) b.
Proof.
  induction a as [|c a IH]; intros hash; [by rewrite append_nil_l |].
  rewrite append_cons. cbn [hashFrom]. apply IH.
Qed.

Lemma length_append (a b : string) :
  String.length (a +:+ b) = (String.length a + String.length b)%nat.
Proof.
  induction a as [|c a IH]; [by rewrite append_nil_l |].
  rewrite append_cons. cbn [String.length]. by rewrite IH.
Qed.

Lemma append_inj_r (a b c : string) : a +:+ b = a +:+ c -> b = c.
Proof.
  induction a as [|x a IH]; [by rewrite !append_nil_l |].
  rewrite !append_cons. intros [= H]. by apply IH.
Qed.

Lemma collapseFrom_visible (x s : string) : forall r,
  noWhiteSpace x = true -> x <> "" ->
  JS.collapseFrom r (x +:+ s) = x +:+ JS.collapseFrom false s.
Proof.
  induction x as [|c x IH]; intros r Hx Hne; [done |].
  cbn [noWhiteSpace] in Hx. apply andb_true_iff in Hx as [Hc Hx].
  apply negb_true_iff in Hc. rewrite !append_cons. cbn [JS.collapseFrom]. rewrite Hc.
  f_equal. destruct x as [|c' x']; [by rewrite !append_nil_l |]. by apply IH.
Qed.

Lemma trimStart_visible (x s : string) :
  noWhiteSpace x = true -> x <> "" -> JS.trimStart (x +:+ s) = x +:+ s.
Proof.
  destruct x as [|c x]; [done |]. cbn [noWhiteSpace].
  intros [Hc _]%andb_true_iff _. apply negb_true_iff in Hc.
  rewrite append_cons. cbn [JS.trimStart]. by rewrite Hc.
Qed.

Lemma trimStart_app_visible (p x s : string) :
  noWhiteSpace x = true -> x <> "" ->
  JS.trimStart (p +:+ x +:+ s) = JS.trimStart p +:+ x +:+ s.
Proof.
  intros Hx Hne. induction p as [|c p IH].
  - rewrite !append_nil_l. by apply trimStart_visible.
  - rewrite append_cons. cbn [JS.trimStart]. destruct (JS.isWhiteSpace c); [exact IH |].
    by rewrite append_cons.
Qed.

Lemma trimEnd_visible (x s : string) :
  noWhiteSpace x = true -> JS.trimEnd (x +:+ s) = x +:+ JS.trimEnd s.
Proof.
  induction x as [|c x IH]; [by rewrite !append_nil_l |]. cbn [noWhiteSpace].
  intros [Hc Hx]%andb_true_iff. apply negb_true_iff in Hc.
  rewrite !append_cons. cbn [JS.trimEnd]. rewrite Hc. cbn [andb]. by rewrite IH.
Qed.

Lemma isEmpty_app (a b : string) : JS.isEmpty (a +:+ b) = JS.isEmpty a && JS.isEmpty b.
Proof. destruct a; [by rewrite append_nil_l | by rewrite append_cons]. Qed.

Lemma trimEnd_app_visible (p x s : string) :
  noWhiteSpace x = true -> x <> "" ->
  JS.trimEnd (p +:+ x +:+ s) = p +:+ x +:+ JS.trimEnd s.
Proof.
  intros Hx Hne. induction p as [|c p IH].
  - rewrite !append_nil_l. by apply trimEnd_visible.
  - rewrite !append_cons. cbn [JS.trimEnd]. rewrite IH.
    rewrite !isEmpty_app. replace (JS.isEmpty x) with false by (by destruct x).
    cbn [andb]. by rewrite !andb_false_r.
Qed.

(** The normal form of a text around a visible word. *)
Lemma normalize_visible (p x s : string) :
  noWhiteSpace x = true -> x <> "" ->
  normalize (p +:+ x +:+ s)
  = JS.trimStart (JS.collapseWhiteSpace p) +:+ x +:+ JS.trimEnd (JS.collapseFrom false s).
Proof.
  intros Hx Hne. unfold normalize, JS.collapseWhiteSpace, JS.trim.
  destruct (collapseFrom_app p false) as [r' ->].
  rewrite (collapseFrom_visible x s r' Hx Hne).
  rewrite (trimStart_app_visible _ x _ Hx Hne).
  by apply trimEnd_app_visible.
Qed.

Section Collision.

Variable redisGet : string -> option CachedThinkingBlock.

(** X12 (colliding keys).
    Cache keys are not injective. Two texts that differ in that one has
    "Aa" where the other has "BB" are different after normalisation, yet
    have the same key (the 32-bit hash and the length coincide); so once a
    thinking block has been cached for an assistant turn with the one
    text, the look-up for a turn with the other text returns that
    block. *)
Theorem cache_key_collision (p s : string) (now : Z) (memoryCache : Entries)
    (thinkingBlock : ContentBlock) :
  normalize (p +:+ "Aa" +:+ s) <> normalize (p +:+ "BB" +:+ s)
  /\ generateCacheKey (TextContent (p +:+ "Aa" +:+ s))
     = generateCacheKey (TextContent (p +:+ "BB" +:+ s))
  /\ snd (getCachedThinkingBlock redisGet
            (asMap (cacheThinkingBlock now memoryCache
                      [textBlock (p +:+ "Aa" +:+ s)] thinkingBlock))
            (TextContent (p +:+ "BB" +:+ s)))
     = Some thinkingBlock.
Proof.
  assert (Hkey : generateCacheKey (TextContent (p +:+ "Aa" +:+ s))
                 = generateCacheKey (TextContent (p +:+ "BB" +:+ s))).
  { unfold generateCacheKey. cbn [textContentOf].
    rewrite !normalize_visible by done.
    rewrite !(hashFrom_app (JS.trimStart (JS.collapseWhiteSpace p))).
    rewrite hashFrom_Aa_BB, !length_append. done. }
  split; [| split; [exact Hkey |]].
  - rewrite !normalize_visible by done. intros H. apply append_inj_r in H. discriminate H.
  - unfold cacheThinkingBlock, nonThinkingContent.
    rewrite filter_cons_True by done. rewrite filter_nil.
    unfold getCachedThinkingBlock. rewrite <- Hkey, asMap_lookup.
    replace (generateCacheKey (BlockContent [textBlock (p +:+ "Aa" +:+ s)]))
      with (generateCacheKey (TextContent (p +:+ "Aa" +:+ s))).
    + by rewrite mapGet_mapSet.
    + apply generateCacheKey_text. cbn. by destruct (p +:+ "Aa" +:+ s).
Qed.

End Collision.

(** *** From a stream to the next request *)

Section NextTurn.

Variable redisGet : string -> option CachedThinkingBlock.

(** X13 (from a stream to the next request).
    A thinking block captured from a stream comes back on the next
    request. When the stream handler ends with a captured thinking block
    and a non-empty accumulated text, it caches the block; thereafter the
    injection loop, visiting an assistant message whose content is that
    text (as a plain string or as one text block, and up to white space),
    finds the block in the memory cache and puts it in front, and the
    block is of type thinking. *)
Theorem captured_block_is_injected (now : Z) (memoryCache : Entries)
    (converterState : Converter.ConverterState) (captured : ContentBlock) (text : string) :
  Accessors.getThinkingBlockFromState converterState = Some captured ->
  Converter.accumulatedText converterState <> "" ->
  normalize text = normalize (Converter.accumulatedText converterState) ->
  let memoryCache' := asMap (cacheAfterStream now memoryCache converterState) in
  isThinkingBlock captured = true
  /\ visitMessage redisGet memoryCache' {| role := "assistant"; content := TextContent text |}
     = (memoryCache',
        {| role := "assistant"; content := BlockContent [captured; textBlock text] |},
        Hit)
  /\ visitMessage redisGet memoryCache'
       {| role := "assistant"; content := BlockContent [textBlock text] |}
     = (memoryCache',
        {| role := "assistant"; content := BlockContent [captured; textBlock text] |},
        Hit).
Proof.
  intros Hcap Hne Hnorm. cbn zeta.
  assert (Hth : isThinkingBlock captured = true).
  { unfold Accessors.getThinkingBlockFromState in Hcap.
    destruct (Converter.thinkingBlock converterState) as [tb|]; [| done].
    destruct (_ || _); [| done]. by simplify_eq. }
  split; [exact Hth |].
  unfold cacheAfterStream. rewrite Hcap. unfold Accessors.getAccumulatedText.
  replace (JS.truthy (Converter.accumulatedText converterState)) with true
    by (by destruct (Converter.accumulatedText converterState)).
  set (t := Converter.accumulatedText converterState) in *.
  assert (Htext : textContentOf (BlockContent [captured; textBlock t]) = t).
  { cbn [textContentOf]. rewrite (omap_blockPart_thinking _ _ Hth).
    cbn. by destruct t. }
  assert (Hnt : nonThinkingContent [captured; textBlock t] <> []).
  { unfold nonThinkingContent. rewrite filter_cons_False by (by rewrite Hth).
    by rewrite filter_cons_True. }
  split.
  - destruct (lookup_after_cache redisGet now memoryCache [captured; textBlock t] captured
                (TextContent text) Hnt) as [Hget _].
    { by rewrite Htext. }
    unfold visitMessage. cbn [role content String.eqb Ascii.eqb negb].
    cbn zeta in Hget. by rewrite Hget.
  - destruct (lookup_after_cache redisGet now memoryCache [captured; textBlock t] captured
                (BlockContent [textBlock text]) Hnt) as [Hget _].
    { rewrite Htext, <- Hnorm. f_equal. cbn. by destruct text. }
    unfold visitMessage. cbn [role content negb existsb].
    change (String.eqb "assistant" "assistant") with true. cbn [negb].
    change (isThinkingBlock (textBlock text)) with false. cbn [orb].
    cbn zeta in Hget. by rewrite Hget.
Qed.

End NextTurn.

Import Scenarios MoreScenarios.

Lemma captured_block_is_injected_witness :
  let memoryCache' :=
    asMap (cacheAfterStream 1700000000999 (filledCache 3) stateAfterThinking) in
  isThinkingBlock (thinkingBlockOf "Let me think." "SIG") = true
  /\ visitMessage noRedis memoryCache' (assistantSays "Hello")
     = (memoryCache',
        {| role := "assistant";
           content := BlockContent [thinkingBlockOf "Let me think." "SIG";
                                    textBlock "Hello"] |},
        Hit)
  /\ visitMessage noRedis memoryCache'
       {| role := "assistant"; content := BlockContent [textBlock "Hello"] |}
     = (memoryCache',
        {| role := "assistant";
           content := BlockContent [thinkingBlockOf "Let me think." "SIG";
                                    textBlock "Hello"] |},
        Hit).
Proof.
  apply (captured_block_is_injected noRedis 1700000000999 (filledCache 3)
           stateAfterThinking (thinkingBlockOf "Let me think." "SIG") "Hello").
  - vm_compute. reflexivity.
  - vm_compute. discriminate.
  - vm_compute. reflexivity.
Defined.

End KeyFacts.

(* ===================================================================== *)
(** ** Access tokens *)
(* ===================================================================== *)

Module OAuthFacts.
Import OAuth.

(** The two ways in which [getAccessToken] returns a token. *)
Lemma getAccessToken_cases (tokenEndpoint : string -> option TokenResponse)
    (storageWrites : bool) (now now' : Z)
    (stored stored' : option OAuthCredentials) (token : string) :
  getAccessToken tokenEndpoint storageWrites now now' stored = (stored', Some token) ->
  exists credentials,
    stored = Some credentials
    /\ cred_type credentials = "oauth"
    /\ ((now < expires credentials /\ token = access credentials /\ stored' = stored)
        \/ (expires credentials = 0 \/ expires credentials <= now)
           /\ refresh credentials <> ""
           /\ storageWrites = true
           /\ exists data,
                tokenEndpoint (refresh credentials) = Some data
                /\ token = access_token data
                /\ stored' = Some {| cred_type := "oauth";
                                     refresh := refresh_token data;
                                     access := access_token data;
                                     expires := now' + expires_in data * 1000 |}).
Proof.
  unfold getAccessToken, refreshToken. intros H.
  destruct stored as [c|]; [| done]. exists c. split; [done |].
  destruct (String.eqb_spec (cred_type c) "oauth") as [Ht | Ht]; cbn [negb] in H; [| done].
  split; [done |].
  destruct (expires c =? 0) eqn:Hz; cbn [negb andb] in H.
  - right. apply Z.eqb_eq in Hz.
    destruct (JS.truthy (refresh c)) eqn:Hr; [| done].
    destruct (tokenEndpoint (refresh c)) as [data|]; [| done].
    destruct storageWrites; [| done]. simplify_eq.
    split; [by left |]. split; [by destruct (refresh c) |]. split; [done |].
    by exists data.
  - destruct (now <? expires c) eqn:Hlt.
    + left. apply Z.ltb_lt in Hlt. by simplify_eq.
    + right. apply Z.ltb_ge in Hlt.
      destruct (JS.truthy (refresh c)) eqn:Hr; [| done].
      destruct (tokenEndpoint (refresh c)) as [data|]; [| done].
      destruct storageWrites; [| done]. simplify_eq.
      split; [by right |]. split; [by destruct (refresh c) |]. split; [done |].
      by exists data.
Qed.

(** X14 (no expired token).
    A token that [getAccessToken] returns is never an expired stored one:
    it is the stored access token of an oauth credential that expires
    strictly after the clock reading, the storage being left as it was, or
    it is the access token the endpoint just issued for the stored refresh
    secret, and then the storage holds the new credential, which expires
    [expires_in] seconds after the clock reading of the refresh. A
    credential that expires exactly now counts as expired. *)
Theorem getAccessToken_fresh (tokenEndpoint : string -> option TokenResponse)
    (storageWrites : bool) (now now' : Z)
    (stored stored' : option OAuthCredentials) (token : string) :
  getAccessToken tokenEndpoint storageWrites now now' stored = (stored', Some token) ->
  exists credentials,
    stored = Some credentials
    /\ cred_type credentials = "oauth"
    /\ ((now < expires credentials /\ token = access credentials /\ stored' = stored)
        \/ (expires credentials = 0 \/ expires credentials <= now)
           /\ refresh credentials <> ""
           /\ storageWrites = true
           /\ exists data,
                tokenEndpoint (refresh credentials) = Some data
                /\ token = access_token data
                /\ stored' = Some {| cred_type := "oauth";
                                     refresh := refresh_token data;
                                     access := access_token data;
                                     expires := now' + expires_in data * 1000 |}).
Proof. apply getAccessToken_cases. Qed.

(** X15 (token reuse).
    Once [getAccessToken] has returned a token, every later call made
    before the expiry of the credential then in storage returns the same
    token and leaves the storage alone, whatever the token endpoint would
    answer: a refreshed token is reused, not refreshed again. *)
Theorem getAccessToken_reuse (tokenEndpoint tokenEndpoint2 : string -> option TokenResponse)
    (storageWrites storageWrites2 : bool) (now now' later later' : Z)
    (stored : option OAuthCredentials) (credentials' : OAuthCredentials) (token : string) :
  getAccessToken tokenEndpoint storageWrites now now' stored
  = (Some credentials', Some token) ->
  0 <= later < expires credentials' ->
  getAccessToken tokenEndpoint2 storageWrites2 later later' (Some credentials')
  = (Some credentials', Some token).
Proof.
  intros H Hl.
  destruct (getAccessToken_cases _ _ _ _ _ _ _ H)
    as (c & Hc & Ht & [(_ & Htok & Hs) | (_ & _ & _ & data & _ & Htok & Hs)]);
    subst token stored; unfold getAccessToken.
  - assert (credentials' = c) as -> by congruence.
    rewrite Ht. cbn [String.eqb negb].
    replace (expires c =? 0) with false by (symmetry; apply Z.eqb_neq; lia).
    replace (later <? expires c) with true by (symmetry; apply Z.ltb_lt; lia).
    done.
  - injection Hs as Hs. subst credentials'.
    cbn [cred_type expires access] in *. cbn [negb].
    replace (now' + expires_in data * 1000 =? 0) with false
      by (symmetry; apply Z.eqb_neq; lia).
    replace (later <? now' + expires_in data * 1000) with true
      by (symmetry; apply Z.ltb_lt; lia).
    done.
Qed.

Import MoreScenarios.

Lemma getAccessToken_fresh_witness :
  exists credentials,
    Some staleCredentials = Some credentials
    /\ cred_type credentials = "oauth"
    /\ ((1000 < expires credentials /\ "a2" = access credentials
         /\ Some {| cred_type := "oauth"; refresh := "r2"; access := "a2";
                    expires := 3602000 |} = Some staleCredentials)
        \/ (expires credentials = 0 \/ expires credentials <= 1000)
           /\ refresh credentials <> ""
           /\ true = true
           /\ exists data,
                endpoint (refresh credentials) = Some data
                /\ "a2" = access_token data
                /\ Some {| cred_type := "oauth"; refresh := "r2"; access := "a2";
                           expires := 3602000 |}
                   = Some {| cred_type := "oauth";
                             refresh := refresh_token data;
                             access := access_token data;
                             expires := 2000 + expires_in data * 1000 |}).
Proof.
  exact (getAccessToken_fresh endpoint true 1000 2000 (Some staleCredentials)
           (Some {| cred_type := "oauth"; refresh := "r2"; access := "a2";
                    expires := 3602000 |}) "a2" eq_refl).
Defined.

Lemma getAccessToken_reuse_witness :
  getAccessToken (fun _ => None) false 3601999 3601999
    (Some {| cred_type := "oauth"; refresh := "r2"; access := "a2"; expires := 3602000 |})
  = (Some {| cred_type := "oauth"; refresh := "r2"; access := "a2"; expires := 3602000 |},
     Some "a2").
Proof.
  apply (getAccessToken_reuse endpoint (fun _ => None) true false 1000 2000
           3601999 3601999 (Some staleCredentials)).
  - reflexivity.
  - cbn. lia.
Defined.

End OAuthFacts.

(* ===================================================================== *)
(** ** The request pipeline *)
(* ===================================================================== *)

Module PipelineFacts.
Import Json ThinkingCache Server Rewrite Text.

(** *** [split] and [join] *)

Lemma split_lacksChar (sep : ascii) (s : string) :
  lacksChar sep s = true -> JS.split sep s = [s].
Proof.
  induction s as [|c s IH]; cbn [lacksChar JS.split]; [done |].
  intros [Hc Hs]%andb_true_iff. apply negb_true_iff in Hc. rewrite Hc.
  by rewrite (IH Hs).
Qed.

Lemma split_app (sep : ascii) (a b : string) :
  lacksChar sep a = true ->
  JS.split sep (a +:+ JS.str sep +:+ b) = a :: JS.split sep b.
Proof.
  induction a as [|c a IH]; cbn [lacksChar].
  - intros _. rewrite append_nil_l. unfold JS.str. rewrite append_cons, append_nil_l.
    cbn [JS.split]. by rewrite Ascii.eqb_refl.
  - intros [Hc Hs]%andb_true_iff. apply negb_true_iff in Hc.
    rewrite append_cons. cbn [JS.split]. rewrite Hc. by rewrite (IH Hs).
Qed.

Lemma join_cons (sep x y : string) (l : list string) :
  JS.join sep (x :: y :: l) = x +:+ sep +:+ JS.join sep (y :: l).
Proof. reflexivity. Qed.

(** Cutting at a separator what was joined with it gives the parts back,
    when no part contains the separator. *)
Lemma split_join (sep : ascii) (parts : list string) :
  parts <> [] ->
  Forall (fun p => lacksChar sep p = true) parts ->
  JS.split sep (JS.join (JS.str sep) parts) = parts.
Proof.
  induction parts as [|x [|y l] IH]; intros Hne Hall; [done | |].
  - cbn. apply split_lacksChar. by inversion Hall.
  - rewrite join_cons. inversion Hall as [|? ? Hx Hrest]; subst.
    rewrite (split_app _ _ _ Hx). f_equal. by apply IH.
Qed.

(** X20 (beta header downgrade).
    The downgrade of the anthropic-beta header: on a header joined from a
    list of feature names, none with a comma in it, the features that
    mention interleaved-thinking go and the others stay, in their order. *)
Theorem removeInterleavedThinking_join (features : list string) :
  features <> [] ->
  Forall (fun f => lacksChar "," f = true) features ->
  removeInterleavedThinking (JS.join "," features)
  = JS.join "," (filter (fun h => JS.includes h "interleaved-thinking" = false) features).
Proof.
  intros Hne Hall. unfold removeInterleavedThinking.
  pose proof (split_join "," features Hne Hall) as E. unfold JS.str in E.
  by rewrite E.
Qed.

Lemma removeInterleavedThinking_join_witness :
  removeInterleavedThinking (JS.join "," (BETA_FEATURES ++ [INTERLEAVED_THINKING]))
  = JS.join ","
      (filter (fun h => JS.includes h "interleaved-thinking" = false)
         (BETA_FEATURES ++ [INTERLEAVED_THINKING])).
Proof.
  apply (removeInterleavedThinking_join (BETA_FEATURES ++ [INTERLEAVED_THINKING])).
  - discriminate.
  - repeat constructor.
Defined.

(** *** The variant of a thinking model *)

Lemma MODEL_VARIANTS_limits :
  Forall (fun e => forall tc, thinking (snd e) = Some tc ->
                     tc = THINKING_CONFIG /\ maxTokens (snd e) = 64000) MODEL_VARIANTS.
Proof.
  unfold MODEL_VARIANTS.
  repeat (apply Forall_cons_2; [cbn; intros tc Htc; by simplify_eq |]).
  apply Forall_nil_2.
Qed.

Lemma thinking_variant_limits (m : string) (tc : ThinkingConfig) :
  thinking (config (resolveModelVariant m)) = Some tc ->
  tc = THINKING_CONFIG /\ maxTokens (config (resolveModelVariant m)) = 64000.
Proof.
  unfold resolveModelVariant.
  destruct (lookupVariant MODEL_VARIANTS (normalizeModel m)) as [cfg|] eqn:E.
  - cbn [config]. apply ServerFacts.lookupVariant_elem_of in E as [key Hin].
    pose proof MODEL_VARIANTS_limits as HF. rewrite Forall_forall in HF.
    exact (HF (key, cfg) Hin tc).
  - destruct (JS.includes (normalizeModel m) "thinking").
    + cbn. intros. by simplify_eq.
    + by destruct (JS.startsWith (normalizeModel m) "claude-").
Qed.

(** *** The rewrite step *)

Lemma declaresPersona_rewriteSystem sys systemMessages :
  declaresPersona (Some (SystemBlocks (rewriteSystem sys systemMessages))) = true.
Proof. reflexivity. Qed.

(** X19 (idempotent rewrite).
    The rewrite step is idempotent on the body: a body that went through
    it keeps its messages, its system array and its token limit when it
    goes through it again; the persona line is not added twice. *)
Theorem rewriteBody_idempotent (path : string) (cfg : ModelVariantConfig)
    (body : AnthropicRequestBody) :
  let rw := rewriteBody path cfg body in
  let rw' := rewriteBody path cfg (applyRewrite rw body) in
  rw_messages rw' = rw_messages rw
  /\ rw_system rw' = rw_system rw
  /\ rw_max_tokens rw' = rw_max_tokens rw.
Proof.
  cbn zeta. unfold rewriteBody.
  destruct (messages body) as [msgs|] eqn:Hm.
  - destruct (declaresPersona (system body)) eqn:Hp; cbn [negb].
    + cbn [applyRewrite messages system max_tokens rw_messages rw_system rw_max_tokens].
      by rewrite ?Hm, ?Hp.
    + cbn [applyRewrite messages system max_tokens rw_messages rw_system rw_max_tokens].
      by rewrite declaresPersona_rewriteSystem.
  - cbn [applyRewrite messages system max_tokens rw_messages rw_system rw_max_tokens].
    by rewrite ?Hm.
Qed.

Section Gates.

Variable API_KEY : option string.
Variable isCursorKeyCheck : AnthropicRequestBody -> bool.
Variable oauthToken : option string.
Variable injectCachedThinkingBlocks :
  list AnthropicMessage -> list AnthropicMessage * InjectResult.

Abbreviation handler :=
  (messagesFn API_KEY isCursorKeyCheck oauthToken injectCachedThinkingBlocks).

Ltac header_lookup :=
  cbn [list_to_map foldr curry fst snd];
  repeat first [rewrite lookup_insert_eq | rewrite lookup_insert_ne by done].

(** X16 (gates before the upstream).
    The handler reaches the upstream only through its gates: whenever it
    dispatches, the API key matched if one is configured, the request was
    not a key check, the model sent is the resolved variant's and names a
    Claude family, and the authorization header carries a non-empty access
    token. *)
Theorem dispatch_gated (path : string) (authorization : option string)
    (body : AnthropicRequestBody) (headers : gmap string string)
    (anthropicBody : UpstreamBody) (thinkingEnabled transform : bool) :
  handler path authorization body
  = Dispatch headers anthropicBody thinkingEnabled transform ->
  (JS.truthyOpt API_KEY = true -> apiKeyOf authorization = API_KEY)
  /\ isCursorKeyCheck body = false
  /\ up_model anthropicBody = model (config (resolveModelVariant (body_model body)))
  /\ isClaudeModel (up_model anthropicBody) = true
  /\ exists token,
       oauthToken = Some token /\ token <> ""
       /\ headers !! "authorization" = Some ("Bearer " +:+ token).
Proof.
  unfold messagesFn.
  destruct (JS.truthyOpt API_KEY && negb (bool_decide (apiKeyOf authorization = API_KEY)))
    eqn:Hkey; [done |].
  destruct (isCursorKeyCheck body) eqn:Hcheck.
  { rewrite andb_false_r. done. }
  rewrite andb_true_r.
  destruct (isClaudeModel (model (config (resolveModelVariant (body_model body)))))
    eqn:Hclaude; cbn [negb]; [| done].
  destruct oauthToken as [tok|] eqn:Htok; cbn [JS.truthyOpt negb]; [| done].
  destruct (JS.truthy tok) eqn:Ht; cbn [negb]; [| done].
  cbn [JS.nullish].
  assert (Hgate : JS.truthyOpt API_KEY = true -> apiKeyOf authorization = API_KEY).
  { intros Hk. rewrite Hk in Hkey. cbn [andb] in Hkey.
    apply negb_false_iff, bool_decide_eq_true in Hkey. done. }
  assert (Hne : tok <> "") by (by destruct tok).
  destruct (rw_messages _) as [[|m ms]|].
  - intros [= <- <- <- <-]. cbn [up_model]. rewrite Hclaude.
    repeat split; try done. exists tok. header_lookup. done.
  - destruct (injectCachedThinkingBlocks (m :: ms)) as [injected r].
    destruct (enabled _ && negb (canUseThinking r)).
    + intros [= <- <- <- <-]. cbn [up_model withMessages]. rewrite Hclaude.
      repeat split; try done. exists tok.
      header_lookup. done.
    + intros [= <- <- <- <-]. cbn [up_model withMessages]. rewrite Hclaude.
      repeat split; try done. exists tok. header_lookup. done.
  - intros [= <- <- <- <-]. cbn [up_model]. rewrite Hclaude.
    repeat split; try done. exists tok. header_lookup. done.
Qed.

(** X17 (consistent thinking settings).
    What the handler sends about thinking is consistent: in every
    dispatch the thinking flag it keeps is true exactly when the body has
    a thinking parameter, exactly when the anthropic-beta header lists
    interleaved-thinking; and whenever thinking is sent the temperature
    sent is 1. *)
Theorem dispatch_thinking_consistent (path : string) (authorization : option string)
    (body : AnthropicRequestBody) (headers : gmap string string)
    (anthropicBody : UpstreamBody) (thinkingEnabled transform : bool) :
  handler path authorization body
  = Dispatch headers anthropicBody thinkingEnabled transform ->
  enabled (up_thinking anthropicBody) = thinkingEnabled
  /\ JS.includes (JS.orElse (headers !! "anthropic-beta") "") "interleaved-thinking"
     = thinkingEnabled
  /\ (thinkingEnabled = true -> up_temperature anthropicBody = Some 1%Qc).
Proof.
  unfold messagesFn.
  destruct (JS.truthyOpt API_KEY && negb (bool_decide (apiKeyOf authorization = API_KEY)));
    [done |].
  destruct (negb (isClaudeModel _) && negb (isCursorKeyCheck body)); [done |].
  destruct (isCursorKeyCheck body); [done |].
  destruct (negb (JS.truthyOpt oauthToken)); [done |].
  set (cfg := config (resolveModelVariant (body_model body))).
  destruct (rw_messages _) as [[|m ms]|].
  - intros [= <- <- <- <-]. header_lookup. cbn [up_thinking up_temperature].
    destruct (thinking cfg); cbn [enabled]; by repeat split.
  - destruct (injectCachedThinkingBlocks (m :: ms)) as [injected r].
    destruct (thinking cfg) as [tc|]; cbn [enabled andb].
    + destruct (canUseThinking r); cbn [negb].
      * intros [= <- <- <- <-]. header_lookup.
        cbn [up_thinking up_temperature withMessages enabled]. by repeat split.
      * intros [= <- <- <- <-]. header_lookup.
        cbn [up_thinking up_temperature withMessages enabled]. by repeat split.
    + intros [= <- <- <- <-]. header_lookup.
      cbn [up_thinking up_temperature withMessages enabled]. by repeat split.
  - intros [= <- <- <- <-]. header_lookup. cbn [up_thinking up_temperature].
    destruct (thinking cfg); cbn [enabled]; by repeat split.
Qed.

Ltac finish E :=
  match goal with
  | |- _ /\ _ < ?x => assert (G : x = 64000) by exact E; rewrite G; by split
  end.

(** X18 (token limit above the thinking budget).
    When the handler rewrites the request (the body has messages and its
    system prompt does not declare the persona) and sends a thinking
    parameter, the token limit it sends is the variant's 64000, above the
    thinking budget. *)
Theorem dispatch_thinking_budget (path : string) (authorization : option string)
    (body : AnthropicRequestBody) (msgs : list AnthropicMessage)
    (headers : gmap string string) (anthropicBody : UpstreamBody)
    (thinkingEnabled transform : bool) (tc : ThinkingConfig) :
  messages body = Some msgs ->
  declaresPersona (system body) = false ->
  handler path authorization body
  = Dispatch headers anthropicBody thinkingEnabled transform ->
  up_thinking anthropicBody = Some tc ->
  up_max_tokens anthropicBody = 64000
  /\ budget_tokens tc < up_max_tokens anthropicBody.
Proof.
  intros Hm Hp. unfold messagesFn.
  destruct (JS.truthyOpt API_KEY && negb (bool_decide (apiKeyOf authorization = API_KEY)));
    [done |].
  destruct (negb (isClaudeModel _) && negb (isCursorKeyCheck body)); [done |].
  destruct (isCursorKeyCheck body); [done |].
  destruct (negb (JS.truthyOpt oauthToken)); [done |].
  pose proof (thinking_variant_limits (body_model body)) as Hlim.
  set (cfg := config (resolveModelVariant (body_model body))) in *.
  assert (Hrw : rw_max_tokens (rewriteBody path cfg body) = Some (maxTokens cfg)).
  { unfold rewriteBody. by rewrite Hm, Hp. }
  assert (Hgoal : forall tc', thinking cfg = Some tc' ->
            orZ (rw_max_tokens (rewriteBody path cfg body))
              (orZ (Some (maxTokens cfg)) 4096) = 64000 /\ budget_tokens tc' < 64000).
  { intros tc' Hth. destruct (Hlim tc' Hth) as [-> Hmax]. rewrite Hrw, Hmax. by cbn. }
  destruct (rw_messages _) as [[|m ms]|].
  - intros [= <- <- <- <-]. cbn [up_thinking up_max_tokens]. intros Hth.
    destruct (Hgoal tc Hth) as [E ?]. finish E.
  - destruct (injectCachedThinkingBlocks (m :: ms)) as [injected r].
    destruct (enabled (thinking cfg) && negb (canUseThinking r)).
    + intros [= <- <- <- <-]. cbn [up_thinking withMessages]. done.
    + intros [= <- <- <- <-]. cbn [up_thinking up_max_tokens withMessages]. intros Hth.
      destruct (Hgoal tc Hth) as [E ?]. finish E.
  - intros [= <- <- <- <-]. cbn [up_thinking up_max_tokens]. intros Hth.
    destruct (Hgoal tc Hth) as [E ?]. finish E.
Qed.

End Gates.

Import Scenarios MoreScenarios.

Lemma dispatch_gated_witness :
  match messagesFn (Some "key") (fun _ => false) (Some "token") (injectFrom memoryWithFirst)
          "/v1/chat/completions" (Some "Bearer key") thinkingRequest with
  | Dispatch headers anthropicBody _ _ =>
      (JS.truthyOpt (Some "key") = true -> apiKeyOf (Some "Bearer key") = Some "key")
      /\ false = false
      /\ up_model anthropicBody
         = model (config (resolveModelVariant (body_model thinkingRequest)))
      /\ isClaudeModel (up_model anthropicBody) = true
      /\ exists token,
           Some "token" = Some token /\ token <> ""
           /\ headers !! "authorization" = Some ("Bearer " +:+ token)
  | _ => False
  end.
Proof.
  destruct (messagesFn (Some "key") (fun _ => false) (Some "token")
              (injectFrom memoryWithFirst) "/v1/chat/completions" (Some "Bearer key")
              thinkingRequest) as [status e | streaming | h b te tr] eqn:E.
  - vm_compute in E. discriminate E.
  - vm_compute in E. discriminate E.
  - exact (dispatch_gated (Some "key") (fun _ => false) (Some "token")
             (injectFrom memoryWithFirst) "/v1/chat/completions" (Some "Bearer key")
             thinkingRequest h b te tr E).
Defined.

Lemma dispatch_thinking_consistent_witness :
  match messagesFn None (fun _ => false) (Some "token") (injectFrom memoryWithFirst)
          "/v1/chat/completions" None thinkingRequest with
  | Dispatch headers anthropicBody thinkingEnabled _ =>
      enabled (up_thinking anthropicBody) = thinkingEnabled
      /\ JS.includes (JS.orElse (headers !! "anthropic-beta") "") "interleaved-thinking"
         = thinkingEnabled
      /\ (thinkingEnabled = true -> up_temperature anthropicBody = Some 1%Qc)
  | _ => False
  end.
Proof.
  destruct (messagesFn None (fun _ => false) (Some "token")
              (injectFrom memoryWithFirst) "/v1/chat/completions" None
              thinkingRequest) as [status e | streaming | h b te tr] eqn:E.
  - vm_compute in E. discriminate E.
  - vm_compute in E. discriminate E.
  - exact (dispatch_thinking_consistent None (fun _ => false) (Some "token")
             (injectFrom memoryWithFirst) "/v1/chat/completions" None
             thinkingRequest h b te tr E).
Defined.

Lemma dispatch_thinking_budget_witness :
  match messagesFn None (fun _ => false) (Some "token") (injectFrom memoryWithFirst)
          "/v1/chat/completions" None firstTurnRequest with
  | Dispatch _ anthropicBody _ _ =>
      up_max_tokens anthropicBody = 64000
      /\ budget_tokens THINKING_CONFIG < up_max_tokens anthropicBody
  | _ => False
  end.
Proof.
  destruct (messagesFn None (fun _ => false) (Some "token")
              (injectFrom memoryWithFirst) "/v1/chat/completions" None
              firstTurnRequest) as [status e | streaming | h b te tr] eqn:E.
  - vm_compute in E. discriminate E.
  - vm_compute in E. discriminate E.
  - apply (dispatch_thinking_budget None (fun _ => false) (Some "token")
             (injectFrom memoryWithFirst) "/v1/chat/completions" None
             firstTurnRequest [userSays "hi"] h b te tr THINKING_CONFIG
             eq_refl eq_refl E).
    vm_compute in E. injection E as _ <- _ _. reflexivity.
Defined.

End PipelineFacts.

Module LookupFacts.
Import Json ThinkingCache.

Lemma getCachedThinkingBlock_grows redisGet
    (memoryCache : gmap string CachedThinkingBlock) c :
  memoryCache ⊆ fst (getCachedThinkingBlock redisGet memoryCache c).
Proof.
  unfold getCachedThinkingBlock.
  destruct (memoryCache !! generateCacheKey c) as [e|] eqn:Em; [done |].
  destruct (redisGet _); [| done]. by apply insert_subseteq.
Qed.

Lemma lookups_grows calls : forall memoryCache, memoryCache ⊆ lookups calls memoryCache.
Proof.
  unfold lookups. induction calls as [|[r c] calls IH]; intros m; [done |].
  cbn [fold_left fst snd]. etrans; [apply (getCachedThinkingBlock_grows r m c) |]. apply IH.
Qed.

(** X21 (look-ups keep what was found).
    Look-ups never lose an entry. When [getCachedThinkingBlock] returns a
    block, the memory cache it leaves contains the one it started from,
    and after any run of further look-ups, for any contents and whatever
    Redis answers to each, the memory cache still contains it, and a
    look-up under the same key returns the same block from memory and
    leaves the memory cache alone, also when Redis no longer answers.
    This holds between writes only: [cacheThinkingBlock] may evict the
    entry or set another block under its key. *)
Theorem found_stays_in_memory (redisGet redisGet' : string -> option CachedThinkingBlock)
    (memoryCache memoryCache' : gmap string CachedThinkingBlock)
    (c c' : MessageContent) (found : ContentBlock)
    (calls : list ((string -> option CachedThinkingBlock) * MessageContent)) :
  getCachedThinkingBlock redisGet memoryCache c = (memoryCache', Some found) ->
  generateCacheKey c' = generateCacheKey c ->
  let later := lookups calls memoryCache' in
  memoryCache ⊆ memoryCache'
  /\ memoryCache' ⊆ later
  /\ getCachedThinkingBlock redisGet' later c' = (later, Some found).
Proof.
  intros H Hk. cbn zeta.
  pose proof (getCachedThinkingBlock_grows redisGet memoryCache c) as H1.
  rewrite H in H1. cbn [fst] in H1.
  pose proof (lookups_grows calls memoryCache') as H2.
  split; [done |]. split; [done |].
  assert (He : exists e, memoryCache' !! generateCacheKey c = Some e
                         /\ thinkingBlock e = found).
  { unfold getCachedThinkingBlock in H.
    destruct (memoryCache !! generateCacheKey c) as [e|] eqn:Em.
    - injection H as <- <-. by exists e.
    - destruct (redisGet (CACHE_KEY_PREFIX +:+ generateCacheKey c)) as [parsed|]; [| done].
      injection H as <- <-. exists parsed. by rewrite lookup_insert_eq. }
  destruct He as (e & He & <-).
  unfold getCachedThinkingBlock. rewrite Hk.
  by rewrite (lookup_weaken _ _ _ _ He H2).
Qed.

Import Scenarios.

Lemma found_stays_in_memory_witness :
  let first : gmap string CachedThinkingBlock :=
    {[ generateCacheKey (TextContent "Hello")
       := {| thinkingBlock := plan; timestamp := 0 |} ]} in
  let later :=
    lookups [ (fun _ => Some {| thinkingBlock := plan; timestamp := 5 |}, TextContent "Again");
              (noRedis, TextContent "Other") ] first in
  (∅ : gmap string CachedThinkingBlock) ⊆ first
  /\ first ⊆ later
  /\ getCachedThinkingBlock noRedis later (BlockContent [textBlock " Hello "])
     = (later, Some plan).
Proof.
  apply (found_stays_in_memory
           (fun _ => Some {| thinkingBlock := plan; timestamp := 0 |}) noRedis
           ∅ _ (TextContent "Hello") (BlockContent [textBlock " Hello "]) plan
           [ (fun _ => Some {| thinkingBlock := plan; timestamp := 5 |}, TextContent "Again");
             (noRedis, TextContent "Other") ]).
  - reflexivity.
  - vm_compute. reflexivity.
Defined.

End LookupFacts.

Module KeyGateFacts.
Import Json ThinkingCache Server Text PipelineFacts.




Section Gate.

Variable isCursorKeyCheck : AnthropicRequestBody -> bool.
Variable oauthToken : option string.
Variable injectCachedThinkingBlocks :
  list AnthropicMessage -> list AnthropicMessage * InjectResult.



End Gate.

Import Scenarios.



End KeyGateFacts.
